(** * Bitcoin_tracker.py: a shallow embedding and its verified properties

    The program is a terminal client of the Binance REST API.  Its methods
    live in the class [BitcoinConverterBinance]; every one of them is
    embedded below as a computation over an explicit world (scripted HTTP
    outcomes, scripted terminal input, the clock, and the text printed so
    far).  The Python run-time the program relies on (binary64 floats,
    [float()], [int()], [min], [max], string formatting, dynamic typing of
    JSON values, the exception hierarchy) is embedded first. *)

From Stdlib Require Import ZArith List String Ascii Bool Lia.
From Stdlib Require Import PrimFloat SpecFloat FloatOps.
From Stdlib Require DecimalString.
Import ListNotations.
Local Open Scope string_scope.
Local Open Scope Z_scope.

(** ** Python floats (IEEE 754 binary64)

    Every finite binary64 number is an integer multiple of the smallest
    subnormal, 2^-1074.  A finite float is stored as its sign and its
    magnitude counted in those units; this keeps the signed zeros, makes
    the order on floats the order on integers, and lets every arithmetic
    operation be written the way IEEE 754 defines it: the exact result,
    rounded to nearest with ties to even. *)

Inductive pyfloat : Type :=
| Fnan
| Finf (neg : bool)
| Ffin (neg : bool) (units : Z).

Definition unit_exp : Z := 1074.
Definition unit_scale : Z := 2 ^ unit_exp.
(** 2^1024 in units: the first magnitude that no longer rounds to a finite
    float. *)
Definition overflow_units : Z := 2 ^ 2098.

(** Round the non-negative rational [a / b] to the nearest integer, ties to
    even. *)
Definition rne (a b : Z) : Z :=
  let q := a / b in
  match (2 * (a mod b)) ?= b with
  | Lt => q
  | Gt => q + 1
  | Eq => if Z.even q then q else q + 1
  end.

(** Exponent (relative to one unit) of the 53-bit grid the rational
    [n / d >= 0] falls on. *)
Definition grid_exp (n d : Z) : Z := Z.max 0 (Z.log2 (n / d) - 52).

(** Magnitude [n / d] units rounded to 53 significant bits. *)
Definition round_units (n d : Z) : Z :=
  let e := grid_exp n d in
  rne n (d * 2 ^ e) * 2 ^ e.

(** The float of sign [neg] nearest to [n / d] units ([n >= 0], [d > 0]). *)
Definition fround (neg : bool) (n d : Z) : pyfloat :=
  let u := round_units n d in
  if overflow_units <=? u then Finf neg else Ffin neg u.

(** Signed magnitude of a finite float, in units. *)
Definition signed_units (neg : bool) (u : Z) : Z := if neg then - u else u.

Definition fneg (x : pyfloat) : pyfloat :=
  match x with
  | Fnan => Fnan
  | Finf s => Finf (negb s)
  | Ffin s u => Ffin (negb s) u
  end.

Definition fadd (x y : pyfloat) : pyfloat :=
  match x, y with
  | Fnan, _ | _, Fnan => Fnan
  | Finf s, Finf t => if Bool.eqb s t then Finf s else Fnan
  | Finf s, Ffin _ _ => Finf s
  | Ffin _ _, Finf t => Finf t
  | Ffin s u, Ffin t v =>
      let z := signed_units s u + signed_units t v in
      if z =? 0 then Ffin (s && t) 0
      else fround (z <? 0) (Z.abs z) 1
  end.

Definition fsub (x y : pyfloat) : pyfloat := fadd x (fneg y).

Definition fmul (x y : pyfloat) : pyfloat :=
  match x, y with
  | Fnan, _ | _, Fnan => Fnan
  | Finf s, Finf t => Finf (xorb s t)
  | Finf s, Ffin t v => if v =? 0 then Fnan else Finf (xorb s t)
  | Ffin s u, Finf t => if u =? 0 then Fnan else Finf (xorb s t)
  | Ffin s u, Ffin t v => fround (xorb s t) (u * v) unit_scale
  end.

(** IEEE division; Python never reaches it with a zero divisor (see
    [py_truediv] below). *)
Definition fdiv (x y : pyfloat) : pyfloat :=
  match x, y with
  | Fnan, _ | _, Fnan => Fnan
  | Finf _, Finf _ => Fnan
  | Finf s, Ffin t _ => Finf (xorb s t)
  | Ffin s _, Finf t => Ffin (xorb s t) 0
  | Ffin s u, Ffin t v =>
      if v =? 0 then (if u =? 0 then Fnan else Finf (xorb s t))
      else fround (xorb s t) (u * unit_scale) v
  end.

(** Comparison; [None] when an operand is NaN (every ordered comparison is
    then false). *)
Definition fcompare (x y : pyfloat) : option comparison :=
  match x, y with
  | Fnan, _ | _, Fnan => None
  | Finf s, Finf t =>
      Some (if Bool.eqb s t then Eq else if s then Lt else Gt)
  | Finf s, Ffin _ _ => Some (if s then Lt else Gt)
  | Ffin _ _, Finf t => Some (if t then Gt else Lt)
  | Ffin s u, Ffin t v => Some (signed_units s u ?= signed_units t v)
  end.

Definition flt (x y : pyfloat) : bool :=
  match fcompare x y with Some Lt => true | _ => false end.
Definition fle (x y : pyfloat) : bool :=
  match fcompare x y with Some Lt | Some Eq => true | _ => false end.
Definition fgt (x y : pyfloat) : bool := flt y x.

(** [bool(x)] for a float: everything but the two zeros is true. *)
Definition float_truthy (x : pyfloat) : bool :=
  match x with
  | Ffin _ u => negb (u =? 0)
  | _ => true
  end.

Definition float_of_Z (z : Z) : pyfloat :=
  fround (z <? 0) (Z.abs z * unit_scale) 1.

Definition f0 : pyfloat := Ffin false 0.
Definition f2 : pyfloat := float_of_Z 2.
Definition f20 : pyfloat := float_of_Z 20.
Definition f100 : pyfloat := float_of_Z 100.
Definition f1000 : pyfloat := float_of_Z 1000.
Definition f50000 : pyfloat := float_of_Z 50000.

(** Conversions from and to the Standard Library's [spec_float], used to
    compare this model with Rocq's hardware floats on concrete values. *)
Definition of_spec (x : spec_float) : pyfloat :=
  match x with
  | S754_zero s => Ffin s 0
  | S754_infinity s => Finf s
  | S754_nan => Fnan
  | S754_finite s m e => Ffin s (Z.pos m * 2 ^ (e + unit_exp))
  end.
Definition of_prim (x : float) : pyfloat := of_spec (Prim2SF x).

Arguments fround : simpl never.
Arguments float_of_Z : simpl never.
Arguments fadd : simpl never.
Arguments fsub : simpl never.
Arguments fmul : simpl never.
Arguments fdiv : simpl never.

(** ** Strings

    A Python string is modelled by its UTF-8 encoding: a Rocq string is the
    sequence of the bytes of the text, and a character of the text is one
    to four of them. *)

Definition nl : string := String "010" EmptyString.
Definition esc : string := String "027" EmptyString.

Fixpoint repeat_string (s : string) (n : nat) : string :=
  match n with
  | O => EmptyString
  | S k => s ++ repeat_string s k
  end.

Definition is_digit (c : ascii) : bool :=
  let n := nat_of_ascii c in (48 <=? n)%nat && (n <=? 57)%nat.

Definition digit_val (c : ascii) : Z := Z.of_nat (nat_of_ascii c) - 48.

(** The ASCII white space, which [float()] strips at both ends. *)
Definition is_space (c : ascii) : bool :=
  let n := nat_of_ascii c in
  ((9 <=? n)%nat && (n <=? 13)%nat) || (n =? 32)%nat.

Definition byte_val (c : ascii) : Z := Z.of_nat (nat_of_ascii c).

(** The code points of a UTF-8 text; [None] stands for bytes that encode no
    character. *)
Fixpoint utf8_decode (l : list ascii) : list (option Z) :=
  match l with
  | [] => []
  | b0 :: r =>
      let n := byte_val b0 in
      if n <? 128 then Some n :: utf8_decode r
      else if n <? 192 then None :: utf8_decode r
      else if n <? 224 then
        match r with
        | b1 :: r1 =>
            Some ((n - 192) * 64 + (byte_val b1 - 128)) :: utf8_decode r1
        | [] => [None]
        end
      else if n <? 240 then
        match r with
        | b1 :: b2 :: r2 =>
            Some ((n - 224) * 4096 + (byte_val b1 - 128) * 64
                  + (byte_val b2 - 128)) :: utf8_decode r2
        | _ => [None]
        end
      else
        match r with
        | b1 :: b2 :: b3 :: r3 =>
            Some ((n - 240) * 262144 + (byte_val b1 - 128) * 4096
                  + (byte_val b2 - 128) * 64 + (byte_val b3 - 128))
              :: utf8_decode r3
        | _ => [None]
        end
  end.

(** The characters of a UTF-8 text, each as the string of its bytes. *)
Fixpoint utf8_chars (l : list ascii) : list string :=
  match l with
  | [] => []
  | b0 :: r =>
      let n := byte_val b0 in
      if n <? 192 then String b0 EmptyString :: utf8_chars r
      else if n <? 224 then
        match r with
        | b1 :: r1 => String b0 (String b1 EmptyString) :: utf8_chars r1
        | [] => [String b0 EmptyString]
        end
      else if n <? 240 then
        match r with
        | b1 :: b2 :: r2 =>
            String b0 (String b1 (String b2 EmptyString)) :: utf8_chars r2
        | _ => [string_of_list_ascii l]
        end
      else
        match r with
        | b1 :: b2 :: b3 :: r3 =>
            String b0 (String b1 (String b2 (String b3 EmptyString)))
              :: utf8_chars r3
        | _ => [string_of_list_ascii l]
        end
  end.

(** The white space beyond ASCII, and the zeros of the runs of decimal
    digits beyond ASCII (each run is the ten digits in order), of Unicode
    14.0, the character database of CPython 3.11. *)
Definition unicode_spaces : list Z :=
  [133; 160; 5760; 8192; 8193; 8194; 8195; 8196; 8197; 8198; 8199; 8200;
   8201; 8202; 8232; 8233; 8239; 8287; 12288].

Definition unicode_digit_zeros : list Z :=
  [1632; 1776; 1984; 2406; 2534; 2662; 2790; 2918; 3046; 3174; 3302; 3430;
   3558; 3664; 3792; 3872; 4160; 4240; 6112; 6160; 6470; 6608; 6784; 6800;
   6992; 7088; 7232; 7248; 42528; 43216; 43264; 43472; 43504; 43600; 44016;
   65296; 66720; 68912; 69734; 69872; 69942; 70096; 70384; 70736; 70864;
   71248; 71360; 71472; 71904; 72016; 72784; 73040; 73120; 92768; 92864;
   93008; 120782; 120792; 120802; 120812; 120822; 123200; 123632; 125264;
   130032].

Definition unicode_decimal (c : Z) : option Z :=
  match find (fun z => (z <=? c) && (c <? z + 10)) unicode_digit_zeros with
  | Some z => Some (c - z)
  | None => None
  end.

(** What [float()] makes of a character before it parses the text: an ASCII
    character stays, white space becomes a space, a decimal digit becomes
    the ASCII digit of its value, and no other character passes. *)
Definition ascii_of_char (c : option Z) : option ascii :=
  match c with
  | None => None
  | Some c =>
      if c <? 128 then Some (ascii_of_nat (Z.to_nat c))
      else if existsb (Z.eqb c) unicode_spaces then Some " "%char
      else option_map (fun d => ascii_of_nat (Z.to_nat (48 + d)))
                      (unicode_decimal c)
  end.

Fixpoint ascii_of_chars (l : list (option Z)) : option (list ascii) :=
  match l with
  | [] => Some []
  | c :: r =>
      match ascii_of_char c, ascii_of_chars r with
      | Some a, Some t => Some (a :: t)
      | _, _ => None
      end
  end.

Definition lower_char (c : ascii) : ascii :=
  let n := nat_of_ascii c in
  if (65 <=? n)%nat && (n <=? 90)%nat then ascii_of_nat (n + 32) else c.

(** [str.lower()] on the ASCII letters.  The program only compares the
    result with ['y'], and no character beyond ASCII becomes [y] in lower
    case. *)
Fixpoint lower (s : string) : string :=
  match s with
  | EmptyString => EmptyString
  | String c r => String (lower_char c) (lower r)
  end.

Fixpoint lstrip (l : list ascii) : list ascii :=
  match l with
  | c :: r => if is_space c then lstrip r else l
  | [] => []
  end.

Definition strip (l : list ascii) : list ascii :=
  rev (lstrip (rev (lstrip l))).

(** Decimal digits of a natural number, and the same grouped in threes. *)
Definition Z_to_string (z : Z) : string :=
  DecimalString.NilZero.string_of_uint (N.to_uint (Z.to_N z)).

Fixpoint group3 (fuel : nat) (z : Z) : string :=
  match fuel with
  | O => Z_to_string z
  | S k =>
      if z <? 1000 then Z_to_string z
      else
        let low := Z_to_string (z mod 1000) in
        group3 k (z / 1000) ++ ","
          ++ repeat_string "0" (3 - String.length low) ++ low
  end.

Definition with_commas (z : Z) : string := group3 (Z.to_nat (Z.log2 z)) z.

(** ** Fixed-point formatting: the format specs [.2f], [,.2f], [+,.2f],
    [+.2f] and [.8f] *)

Definition format_sign (plus neg : bool) : string :=
  if neg then "-" else if plus then "+" else "".

Definition format_f (plus comma : bool) (prec : nat) (x : pyfloat) : string :=
  match x with
  | Fnan => format_sign plus false ++ "nan"
  | Finf s => format_sign plus s ++ "inf"
  | Ffin s u =>
      let p := 10 ^ Z.of_nat prec in
      let c := rne (u * p) unit_scale in
      let ip := c / p in
      let fp := Z_to_string (c mod p) in
      format_sign plus s
        ++ (if comma then with_commas ip else Z_to_string ip)
        ++ (match prec with
            | O => ""
            | _ => "." ++ repeat_string "0" (prec - String.length fp) ++ fp
            end)
  end.

(** ** Exceptions

    The classes the program can meet.  Every one of them derives from
    [Exception]; the two JSON decoding errors derive from [ValueError], and
    the one raised by [requests] (its [Response.json]) derives from
    [RequestException] as well. *)

Inductive exn_class : Type :=
| RequestException
| RequestsJSONDecodeError
| JSONDecodeError
| ValueError
| KeyError
| IndexError
| TypeError
| AttributeError
| OverflowError
| ZeroDivisionError
| EOFError
| OSError.

Record exn : Type := mk_exn { exn_cls : exn_class; exn_msg : string }.

Definition is_RequestException (e : exn) : bool :=
  match exn_cls e with
  | RequestException | RequestsJSONDecodeError => true
  | _ => false
  end.

Definition is_ValueError (e : exn) : bool :=
  match exn_cls e with
  | ValueError | JSONDecodeError | RequestsJSONDecodeError => true
  | _ => false
  end.

Definition is_JSONDecodeError (e : exn) : bool :=
  match exn_cls e with
  | JSONDecodeError | RequestsJSONDecodeError => true
  | _ => false
  end.

Definition is_KeyError (e : exn) : bool :=
  match exn_cls e with KeyError => true | _ => false end.

Definition is_IndexError (e : exn) : bool :=
  match exn_cls e with IndexError => true | _ => false end.

Inductive result (A : Type) : Type :=
| Ok (a : A)
| Raise (e : exn).
Arguments Ok {A} a.
Arguments Raise {A} e.

Definition raise {A : Type} (c : exn_class) (msg : string) : result A :=
  Raise (mk_exn c msg).

Definition rbind {A B : Type} (r : result A) (k : A -> result B) : result B :=
  match r with
  | Ok a => k a
  | Raise e => Raise e
  end.

(** ** [int(x)] and [float(x)] *)

Definition int_of_float (x : pyfloat) : result Z :=
  match x with
  | Fnan => raise ValueError "cannot convert float NaN to integer"
  | Finf _ => raise OverflowError "cannot convert float infinity to integer"
  | Ffin s u => Ok (signed_units s (u / unit_scale))
  end.

(** [float(z)] for a Python int: correctly rounded, [OverflowError] beyond
    the finite range. *)
Definition float_of_int (z : Z) : result pyfloat :=
  match float_of_Z z with
  | Finf _ => raise OverflowError "int too large to convert to float"
  | x => Ok x
  end.

(** Underscores in a numeric literal: each one must stand between two
    digits.  Returns the literal without them. *)
Fixpoint drop_underscores (prev : ascii) (l : list ascii)
  : option (list ascii) :=
  match l with
  | [] => if Ascii.eqb prev "_" then None else Some []
  | c :: r =>
      if Ascii.eqb c "_" then
        if is_digit prev then drop_underscores c r else None
      else if Ascii.eqb prev "_" && negb (is_digit c) then None
      else option_map (cons c) (drop_underscores c r)
  end.

Fixpoint take_digits (l : list ascii) : list ascii * list ascii :=
  match l with
  | c :: r =>
      if is_digit c then let '(d, t) := take_digits r in (c :: d, t)
      else ([], l)
  | [] => ([], [])
  end.

Definition digits_to_Z (l : list ascii) : Z :=
  fold_left (fun acc c => 10 * acc + digit_val c) l 0.

Definition take_sign (l : list ascii) : bool * list ascii :=
  match l with
  | "-"%char :: r => (true, r)
  | "+"%char :: r => (false, r)
  | _ => (false, l)
  end.

(** The optional exponent part; [None] when what is left is not one. *)
Definition parse_exponent (l : list ascii) : option Z :=
  match l with
  | [] => Some 0
  | c :: r =>
      if Ascii.eqb (lower_char c) "e" then
        let '(neg, r1) := take_sign r in
        match take_digits r1 with
        | ([], _) => None
        | (d, []) => Some (signed_units neg (digits_to_Z d))
        | _ => None
        end
      else None
  end.

(** A decimal literal [digits [. digits] [e [sign] digits]] of sign [neg],
    rounded to the nearest float. *)
Definition parse_decimal (neg : bool) (l : list ascii) : option pyfloat :=
  let '(ip, r1) := take_digits l in
  let '(fp, r2) :=
    match r1 with
    | "."%char :: r => take_digits r
    | _ => ([], r1)
    end in
  match (ip ++ fp)%list with
  | [] => None
  | ds =>
      match parse_exponent r2 with
      | None => None
      | Some x =>
          let m := digits_to_Z ds in
          let e := x - Z.of_nat (List.length fp) in
          Some (if 0 <=? e
                then fround neg (m * 10 ^ e * unit_scale) 1
                else fround neg (m * unit_scale) (10 ^ (- e)))
      end
  end.

Definition parse_ascii_float (text : list ascii) : option pyfloat :=
  match drop_underscores " " (strip text) with
  | None => None
  | Some l =>
      let '(neg, body) := take_sign l in
      let word := string_of_list_ascii (map lower_char body) in
      if (word =? "inf")%string || (word =? "infinity")%string
      then Some (Finf neg)
      else if (word =? "nan")%string then Some Fnan
      else parse_decimal neg body
  end.

Definition parse_float (s : string) : option pyfloat :=
  match ascii_of_chars (utf8_decode (list_ascii_of_string s)) with
  | None => None
  | Some text => parse_ascii_float text
  end.

(** [repr(s)]: the text between single quotes (double quotes when it has a
    single quote and no double one), with the backslash, the quote and the
    characters that are not printable escaped.  Beyond ASCII, the controls
    and the white space are escaped; the other characters are taken to be
    printable, which Python decides by its character database. *)
Definition hex_digit (n : Z) : ascii :=
  ascii_of_nat (Z.to_nat (if n <? 10 then 48 + n else 87 + n)).

Definition hex2 (n : Z) : string :=
  String (hex_digit (n / 16)) (String (hex_digit (n mod 16)) EmptyString).

Definition repr_char (quote : ascii) (ch : string) : string :=
  match utf8_decode (list_ascii_of_string ch) with
  | [Some c] =>
      if c =? 92 then "\\"
      else if c =? byte_val quote then String "\" (String quote EmptyString)
      else if c =? 9 then "\t"
      else if c =? 10 then "\n"
      else if c =? 13 then "\r"
      else if (c <? 32) || (c =? 127) || ((128 <=? c) && (c <? 161))
      then "\x" ++ hex2 c
      else if existsb (Z.eqb c) unicode_spaces
      then "\u" ++ hex2 (c / 256) ++ hex2 (c mod 256)
      else ch
  | _ => ch
  end.

Definition has_char (c : ascii) (s : string) : bool :=
  existsb (Ascii.eqb c) (list_ascii_of_string s).

Definition dquote : ascii := "034"%char.

Definition py_repr (s : string) : string :=
  let quote :=
    if has_char "'" s && negb (has_char dquote s) then dquote
    else "'"%char in
  String quote
    (String.concat "" (map (repr_char quote)
                           (utf8_chars (list_ascii_of_string s)))
     ++ String quote EmptyString).

(** [float(s)] for a string. *)
Definition float_of_string (s : string) : result pyfloat :=
  match parse_float s with
  | Some x => Ok x
  | None => raise ValueError ("could not convert string to float: " ++ py_repr s)
  end.

(** ** Python values

    The values [json()] can return (and [None]).  A dict is an association
    list, read through the first binding of a key. *)

#[warnings="-register-all"]
Inductive pyval : Type :=
| PNone
| PBool (b : bool)
| PInt (z : Z)
| PFloat (x : pyfloat)
| PStr (s : string)
| PList (l : list pyval)
| PDict (d : list (string * pyval)).

Fixpoint lookup (key : string) (d : list (string * pyval)) : option pyval :=
  match d with
  | [] => None
  | (k, v) :: r => if (k =? key)%string then Some v else lookup key r
  end.

(** [type(v).__name__] *)
Definition type_name (v : pyval) : string :=
  match v with
  | PNone => "NoneType"
  | PBool _ => "bool"
  | PInt _ => "int"
  | PFloat _ => "float"
  | PStr _ => "str"
  | PList _ => "list"
  | PDict _ => "dict"
  end.

(** [bool(v)] *)
Definition truthy (v : pyval) : bool :=
  match v with
  | PNone => false
  | PBool b => b
  | PInt z => negb (z =? 0)
  | PFloat x => float_truthy x
  | PStr s => negb (s =? "")%string
  | PList l => match l with [] => false | _ => true end
  | PDict d => match d with [] => false | _ => true end
  end.

(** [float(v)] *)
Definition py_float (v : pyval) : result pyfloat :=
  match v with
  | PStr s => float_of_string s
  | PInt z => float_of_int z
  | PBool b => Ok (float_of_Z (if b then 1 else 0))
  | PFloat x => Ok x
  | _ =>
      raise TypeError
        ("float() argument must be a string or a real number, not '"
         ++ type_name v ++ "'")
  end.

Fixpoint substring_of (key s : string) : bool :=
  String.prefix key s
  || match s with
     | EmptyString => false
     | String _ r => substring_of key r
     end.

(** [key in v] for a string [key] *)
Definition py_contains (key : string) (v : pyval) : result bool :=
  match v with
  | PDict d => Ok (match lookup key d with Some _ => true | None => false end)
  | PList l =>
      Ok (existsb (fun x => match x with
                            | PStr s => (s =? key)%string
                            | _ => false
                            end) l)
  | PStr s => Ok (substring_of key s)
  | _ =>
      raise TypeError
        ("argument of type '" ++ type_name v ++ "' is not iterable")
  end.

(** [v[key]] for a string [key] *)
Definition py_getitem_str (v : pyval) (key : string) : result pyval :=
  match v with
  | PDict d =>
      match lookup key d with
      | Some x => Ok x
      | None => raise KeyError (py_repr key)
      end
  | PList _ =>
      raise TypeError "list indices must be integers or slices, not str"
  | PStr _ => raise TypeError "string indices must be integers, not 'str'"
  | _ =>
      raise TypeError ("'" ++ type_name v ++ "' object is not subscriptable")
  end.

(** [v.get(key, default)] *)
Definition py_get (v : pyval) (key : string) (default : pyval)
  : result pyval :=
  match v with
  | PDict d =>
      Ok (match lookup key d with Some x => x | None => default end)
  | _ =>
      raise AttributeError
        ("'" ++ type_name v ++ "' object has no attribute 'get'")
  end.

Definition chars_of (s : string) : list pyval :=
  map PStr (utf8_chars (list_ascii_of_string s)).

(** The items a [for] loop over [v] visits. *)
Definition py_iter (v : pyval) : result (list pyval) :=
  match v with
  | PList l => Ok l
  | PDict d => Ok (map (fun kv => PStr (fst kv)) d)
  | PStr s => Ok (chars_of s)
  | _ => raise TypeError ("'" ++ type_name v ++ "' object is not iterable")
  end.

(** [len(v)] *)
Definition py_len (v : pyval) : result Z :=
  match v with
  | PList l => Ok (Z.of_nat (List.length l))
  | PDict d => Ok (Z.of_nat (List.length d))
  | PStr s => Ok (Z.of_nat (List.length (chars_of s)))
  | _ =>
      raise TypeError ("object of type '" ++ type_name v ++ "' has no len()")
  end.

(** [v[i]] for a non-negative integer [i].  A dict decoded from JSON has
    string keys only, so an integer key is never found. *)
Definition py_getitem_nat (v : pyval) (i : nat) : result pyval :=
  match v with
  | PList l =>
      match nth_error l i with
      | Some x => Ok x
      | None => raise IndexError "list index out of range"
      end
  | PStr s =>
      match nth_error (chars_of s) i with
      | Some x => Ok x
      | None => raise IndexError "string index out of range"
      end
  | PDict _ => raise KeyError (Z_to_string (Z.of_nat i))
  | _ =>
      raise TypeError ("'" ++ type_name v ++ "' object is not subscriptable")
  end.

(** [x / y] on floats: Python raises where IEEE 754 returns an infinity or
    a NaN for a zero divisor. *)
Definition py_truediv (x y : pyfloat) : result pyfloat :=
  if float_truthy y then Ok (fdiv x y)
  else raise ZeroDivisionError "float division by zero".

(** [v / 1000]: true division of ints is correctly rounded. *)
Definition py_div_1000 (v : pyval) : result pyfloat :=
  let int_case (z : Z) :=
    match fround (z <? 0) (Z.abs z * unit_scale) 1000 with
    | Finf _ =>
        raise OverflowError "integer division result too large for a float"
    | x => Ok x
    end in
  match v with
  | PInt z => int_case z
  | PBool b => int_case (if b then 1 else 0)
  | PFloat x => py_truediv x f1000
  | _ =>
      raise TypeError
        ("unsupported operand type(s) for /: '" ++ type_name v
         ++ "' and 'int'")
  end.

(** [min(l)] and [max(l)] of a non-empty list with first element [x]: the
    running candidate is replaced by an item that compares strictly below
    (above) it. *)
Definition py_min (x : pyfloat) (l : list pyfloat) : pyfloat :=
  fold_left (fun m y => if flt y m then y else m) l x.
Definition py_max (x : pyfloat) (l : list pyfloat) : pyfloat :=
  fold_left (fun m y => if fgt y m then y else m) l x.

(** The indices [range(0, n, step)] visits. *)
Definition range_step (n step : nat) : list nat :=
  map (fun k => (k * step)%nat) (seq 0 ((n + step - 1) / step)).

(** ** The world and the monad of effects

    [w_http k] is what the [k]-th HTTP exchange of the run produces: the
    decoded JSON body, or the exception that [requests.get],
    [raise_for_status] or [json] raises.  [w_clock k] is what the [k]-th
    call of [time.time()] returns, [w_now k] what the [k]-th call of
    [datetime.now()] returns, and [w_fromtimestamp] is the machine's
    [datetime.fromtimestamp] (it depends on the local time zone).
    [w_stdin] holds the lines the user will type; [w_requests] and
    [w_stdout] record the requests issued and what the terminal received
    (text as UTF-8), the latest last. *)

Record request : Type := mk_request {
  req_url : string;
  req_params : list (string * pyval);
  req_timeout : Z
}.

(** What the terminal sees: a line written by [print], text written without
    a line end (by [print(..., end="")] or as the prompt of [input]), and
    the pauses of [time.sleep]. *)
Inductive out_event : Type :=
| Print (line : string)
| Write (text : string)
| Prompt (text : string)
| Pause (seconds : Z).

Record datetime : Type := mk_datetime {
  dt_month : Z;
  dt_day : Z;
  dt_hour : Z;
  dt_minute : Z;
  dt_second : Z
}.

Record world : Type := mk_world {
  w_http : nat -> result pyval;
  w_requests : list request;
  w_clock : nat -> pyfloat;
  w_ticks : nat;
  w_fromtimestamp : pyfloat -> result datetime;
  w_now : nat -> datetime;
  w_nows : nat;
  w_stdin : list string;
  w_stdout : list out_event
}.

Definition M (A : Type) : Type := world -> result A * world.

Definition ret {A : Type} (a : A) : M A := fun w => (Ok a, w).

Definition bind {A B : Type} (m : M A) (k : A -> M B) : M B :=
  fun w =>
    match m w with
    | (Ok a, w') => k a w'
    | (Raise e, w') => (Raise e, w')
    end.

Declare Scope py_scope.
Delimit Scope py_scope with py.
Notation "x <- m ;; k" := (bind m (fun x => k))
  (at level 61, m at next level, right associativity) : py_scope.
Notation "m ;; k" := (bind m (fun _ => k))
  (at level 61, right associativity) : py_scope.
Local Open Scope py_scope.

Definition lift {A : Type} (r : result A) : M A := fun w => (r, w).

(** [try: body except ...]: [handler e] is the body of the first clause
    that matches [e], or [None] when no clause does. *)
Definition try_except {A : Type} (body : M A) (handler : exn -> option (M A))
  : M A :=
  fun w =>
    match body w with
    | (Ok a, w') => (Ok a, w')
    | (Raise e, w') =>
        match handler e with
        | Some h => h w'
        | None => (Raise e, w')
        end
    end.

Definition emit (o : out_event) : M unit :=
  fun w =>
    (Ok tt, mk_world (w_http w) (w_requests w) (w_clock w) (w_ticks w)
                     (w_fromtimestamp w) (w_now w) (w_nows w) (w_stdin w)
                     (w_stdout w ++ [o])).

Definition print (s : string) : M unit := emit (Print s).

(** [time.sleep(seconds)] *)
Definition sleep (seconds : Z) : M unit := emit (Pause seconds).

(** Reading one line of the standard input. *)
Definition read_line : M string :=
  fun w =>
    match w_stdin w with
    | [] => (raise EOFError "EOF when reading a line", w)
    | l :: r =>
        (Ok l, mk_world (w_http w) (w_requests w) (w_clock w) (w_ticks w)
                        (w_fromtimestamp w) (w_now w) (w_nows w) r
                        (w_stdout w))
    end.

(** [input(prompt)] *)
Definition input (prompt : string) : M string :=
  emit (Prompt prompt) ;; read_line.

(** [time.time()] *)
Definition time_time : M pyfloat :=
  fun w =>
    (Ok (w_clock w (w_ticks w)),
     mk_world (w_http w) (w_requests w) (w_clock w) (S (w_ticks w))
              (w_fromtimestamp w) (w_now w) (w_nows w) (w_stdin w)
              (w_stdout w)).

(** [datetime.now()] *)
Definition datetime_now : M datetime :=
  fun w =>
    (Ok (w_now w (w_nows w)),
     mk_world (w_http w) (w_requests w) (w_clock w) (w_ticks w)
              (w_fromtimestamp w) (w_now w) (S (w_nows w)) (w_stdin w)
              (w_stdout w)).

(** [requests.get(url, params=params, timeout=timeout)] followed by
    [raise_for_status()] and [json()]. *)
Definition http_json (url : string) (params : list (string * pyval))
    (timeout : Z) : M pyval :=
  fun w =>
    (w_http w (List.length (w_requests w)),
     mk_world (w_http w) (w_requests w ++ [mk_request url params timeout])
              (w_clock w) (w_ticks w) (w_fromtimestamp w) (w_now w)
              (w_nows w) (w_stdin w) (w_stdout w)).

(** [datetime.fromtimestamp(t)] *)
Definition fromtimestamp (t : pyfloat) : M datetime :=
  fun w => (w_fromtimestamp w t, w).

(** The [strftime] directives the program uses print two digits each. *)
Definition pad2 (z : Z) : string :=
  if z <? 10 then "0" ++ Z_to_string z else Z_to_string z.

(** [strftime('%H:%M')], [strftime('%H:%M:%S')], [strftime('%d/%m')] and
    [strftime('%d/%m %H:%M')] *)
Definition strftime_HM (d : datetime) : string :=
  pad2 (dt_hour d) ++ ":" ++ pad2 (dt_minute d).
Definition strftime_HMS (d : datetime) : string :=
  strftime_HM d ++ ":" ++ pad2 (dt_second d).
Definition strftime_dm (d : datetime) : string :=
  pad2 (dt_day d) ++ "/" ++ pad2 (dt_month d).
Definition strftime_dm_HM (d : datetime) : string :=
  strftime_dm d ++ " " ++ strftime_HM d.

(** ** class BitcoinConverterBinance *)

Definition BTC : string := esc ++ "[38;5;208m".
Definition reset : string := esc ++ "[0m".

Definition base_url : string := "https://api.binance.com/api/v3".
Definition symbol : string := "BTCUSDT".

Definition rule (n : nat) : string := repeat_string "=" n.

(** [f"{x:,.2f}"], [f"{x:+,.2f}"], [f"{x:+.2f}"] and [f"{x:.8f}"] *)
Definition fmt_money (x : pyfloat) : string := format_f false true 2 x.
Definition fmt_signed_money (x : pyfloat) : string := format_f true true 2 x.
Definition fmt_signed (x : pyfloat) : string := format_f true false 2 x.
Definition fmt_btc (x : pyfloat) : string := format_f false false 8 x.

(** *** _get_alternative_price *)

Definition _get_alternative_price : M (option pyfloat) :=
  try_except
    (data <- http_json (base_url ++ "/ticker/24hr")
                       [("symbol", PStr symbol)] 10 ;;
     has_last <- lift (py_contains "lastPrice" data) ;;
     if has_last then
       v <- lift (py_getitem_str data "lastPrice") ;;
       x <- lift (py_float v) ;;
       ret (Some x)
     else
       has_bid <- lift (py_contains "bidPrice" data) ;;
       has_ask <- (if has_bid then lift (py_contains "askPrice" data)
                   else ret false) ;;
       if has_ask then
         (* Average between bid and ask *)
         b <- lift (py_getitem_str data "bidPrice") ;;
         bid <- lift (py_float b) ;;
         a <- lift (py_getitem_str data "askPrice") ;;
         ask <- lift (py_float a) ;;
         mid <- lift (py_truediv (fadd bid ask) f2) ;;
         ret (Some mid)
       else ret None)
    (fun _ => Some (ret None)).

(** *** get_current_price *)

Definition get_current_price : M (option pyfloat) :=
  try_except
    (data <- http_json (base_url ++ "/ticker/price")
                       [("symbol", PStr symbol)] 10 ;;
     has_price <- lift (py_contains "price" data) ;;
     if has_price then
       v <- lift (py_getitem_str data "price") ;;
       x <- lift (py_float v) ;;
       ret (Some x)
     else ret None)
    (fun e =>
       if is_RequestException e then
         Some (print ("Connection error to Binance: " ++ exn_msg e) ;;
               (* Try alternative endpoint *)
               _get_alternative_price)
       else if is_KeyError e || is_ValueError e || is_JSONDecodeError e then
         Some (print ("Error processing data: " ++ exn_msg e) ;;
               ret None)
       else
         Some (print ("Error getting current price: " ++ exn_msg e) ;;
               ret None)).

(** *** get_historical_data *)

(** The interval and the limit chosen for a range of [days] days. *)
Definition interval_and_limit (days : Z) : string * Z :=
  if days <=? 1 then ("15m", 96)
  else if days <=? 7 then ("1h", 168)
  else if days <=? 30 then ("4h", 180)
  else ("1d", Z.min days 1000).

(** The loop over the candles: an item of at least six elements gives the
    pair of its element 0 and of the float of its element 4; shorter items
    are passed over. *)
Fixpoint format_candles (items : list pyval)
  : result (list (pyval * pyfloat)) :=
  match items with
  | [] => Ok []
  | candle :: rest =>
      rbind (py_len candle) (fun n =>
      if 6 <=? n then
        rbind (py_getitem_nat candle 0) (fun timestamp =>
        rbind (py_getitem_nat candle 4) (fun close =>
        rbind (py_float close) (fun price =>
        rbind (format_candles rest) (fun historical =>
        Ok ((timestamp, price) :: historical)))))
      else format_candles rest)
  end.

Definition get_historical_data (days : Z)
  : M (option (list (pyval * pyfloat))) :=
  try_except
    (now <- time_time ;;
     end_time <- lift (int_of_float (fmul now f1000)) ;;
     let start_time := end_time - days * 24 * 60 * 60 * 1000 in
     let '(interval, limit) := interval_and_limit days in
     data <- http_json (base_url ++ "/klines")
                       [("symbol", PStr symbol);
                        ("interval", PStr interval);
                        ("startTime", PInt start_time);
                        ("endTime", PInt end_time);
                        ("limit", PInt limit)] 15 ;;
     items <- lift (py_iter data) ;;
     historical <- lift (format_candles items) ;;
     ret (match historical with [] => None | _ => Some historical end))
    (fun e =>
       if is_RequestException e then
         Some (print ("Historical data connection error to Binance: "
                      ++ exn_msg e) ;;
               ret None)
       else if is_KeyError e || is_ValueError e || is_IndexError e
               || is_JSONDecodeError e then
         Some (print ("Error processing historical data: " ++ exn_msg e) ;;
               ret None)
       else
         Some (print ("Error getting historical data: " ++ exn_msg e) ;;
               ret None)).

(** *** get_detailed_price_info *)

Definition get_detailed_price_info : M pyval :=
  try_except
    (http_json (base_url ++ "/ticker/24hr") [("symbol", PStr symbol)] 10)
    (fun _ => Some (ret PNone)).

(** A number that is a Python int or a Python float. *)
Inductive pynum : Type :=
| NInt (z : Z)
| NFloat (x : pyfloat).

(** [f"{n:+.2f}"]: an int is converted to a float first. *)
Definition fmt_signed_num (n : pynum) : string :=
  match n with
  | NInt z => fmt_signed (float_of_Z z)
  | NFloat x => fmt_signed x
  end.

(** [(variation / base) * 100 if base else 0] *)
Definition variation_percentage (variation base : pyfloat) : result pynum :=
  if float_truthy base then
    rbind (py_truediv variation base) (fun q => Ok (NFloat (fmul q f100)))
  else Ok (NInt 0).

(** *** _show_basic_24h_price *)

Definition change_line (period : string) (variation : pyfloat)
    (percentage : pynum) : string :=
  "📊 " ++ period ++ " Change: $" ++ fmt_signed_money variation
    ++ " (" ++ fmt_signed_num percentage ++ "%)".

Definition _show_basic_24h_price : M unit :=
  data <- get_historical_data 1 ;;
  match data with
  | None | Some [] =>
      print "Could not get historical data." ;;
      current_price <- get_current_price ;;
      match current_price with
      | Some p =>
          if float_truthy p then
            print (nl ++ " " ++ BTC ++ " 💰 Current price: $" ++ fmt_money p
                   ++ reset)
          else ret tt
      | None => ret tt
      end
  | Some ((t0, p0) :: rest) =>
      let prices := map snd rest in
      let current_price := last prices p0 in
      let price_min := py_min p0 prices in
      let price_max := py_max p0 prices in
      let initial_price := p0 in
      let variation := fsub current_price initial_price in
      percentage <- lift (variation_percentage variation initial_price) ;;
      print (nl ++ " " ++ BTC ++ "💰 Current price: $"
             ++ fmt_money current_price ++ " " ++ reset) ;;
      print ("📈 24h High: $" ++ fmt_money price_max) ;;
      print ("📉 24h Low: $" ++ fmt_money price_min) ;;
      print (change_line "24h" variation percentage)
  end.

(** *** show_textual_24h_price *)

Fixpoint for_each {A : Type} (l : list A) (body : A -> M unit) : M unit :=
  match l with
  | [] => ret tt
  | a :: r => body a ;; for_each r body
  end.

Definition block : string := "█".

(** [int(((price - price_min_chart) / price_range) * 20)] *)
Definition chart_height (price price_min price_range : pyfloat) : result Z :=
  rbind (py_truediv (fsub price price_min) price_range)
        (fun q => int_of_float (fmul q f20)).

(** ["█" * (height + 1)] *)
Definition bar (height : Z) : string :=
  repeat_string block (Z.to_nat (height + 1)).

Definition chart_line (timestamp : string) (height : Z) (price : pyfloat)
  : string :=
  BTC ++ " " ++ timestamp ++ ": " ++ bar height ++ " $" ++ fmt_money price
    ++ " " ++ reset.

(** One turn of the chart loop, for the index [i]. *)
Definition chart_row (data : list (pyval * pyfloat))
    (price_min price_range : pyfloat) (i : nat) : M unit :=
  match nth_error data i with
  | None => lift (raise IndexError "list index out of range")
  | Some (t, price) =>
      height <- lift (chart_height price price_min price_range) ;;
      seconds <- lift (py_div_1000 t) ;;
      date <- fromtimestamp seconds ;;
      let timestamp := strftime_HM date in
      print (chart_line timestamp height price)
  end.

Definition show_chart (data : list (pyval * pyfloat)) : M unit :=
  (* Show simple ASCII chart *)
  print (nl ++ "📊 SIMPLE CHART (ASCII):") ;;
  print (repeat_string "-" 50) ;;
  match map snd data with
  | p0 :: ((_ :: _) as rest) =>
      let price_min_chart := py_min p0 rest in
      let price_max_chart := py_max p0 rest in
      let price_range := fsub price_max_chart price_min_chart in
      if fgt price_range f0 then
        (* Show only some points for readability *)
        let step := Nat.max 1 (List.length data / 12) in
        for_each (range_step (List.length data) step)
                 (chart_row data price_min_chart price_range)
      else ret tt
  | _ => print "Insufficient data to display chart"
  end.

Definition trend_line (variation : pyfloat) : string :=
  if fgt variation f0 then "📈 Trend: ▲ BULLISH"
  else if flt variation f0 then "📉 Trend: ▼ BEARISH"
  else "➡ Trend: STABLE".

(** [float(data.get(key, 0))] *)
Definition read_field (data : pyval) (key : string) : result pyfloat :=
  rbind (py_get data key (PInt 0)) py_float.

Definition field (data : pyval) (key : string) : M pyfloat :=
  lift (read_field data key).

(** The body of the [try] of [show_textual_24h_price]. *)
Definition show_detailed (detailed_data : pyval) : M unit :=
  current_price <- field detailed_data "lastPrice" ;;
  open_price <- field detailed_data "openPrice" ;;
  high_price <- field detailed_data "highPrice" ;;
  low_price <- field detailed_data "lowPrice" ;;
  let variation := fsub current_price open_price in
  percentage <- lift (variation_percentage variation open_price) ;;
  print (nl ++ "💰 Current price: $" ++ fmt_money current_price) ;;
  print ("📈 24h High: $" ++ fmt_money high_price) ;;
  print ("📉 24h Low: $" ++ fmt_money low_price) ;;
  print (change_line "24h" variation percentage) ;;
  volume <- field detailed_data "volume" ;;
  print ("📈 24h Volume: " ++ fmt_money volume ++ " BTC") ;;
  print (trend_line variation) ;;
  (* Get historical data for chart *)
  data <- get_historical_data 1 ;;
  match data with
  | Some ((_ :: _) as points) => show_chart points
  | _ => ret tt
  end.

Definition show_textual_24h_price : M unit :=
  print (nl ++ rule 60) ;;
  print (BTC ++ " BITCOIN PRICE🪙 - LAST 24 HOURS " ++ reset) ;;
  print (rule 60) ;;
  (* Get detailed 24-hour data *)
  detailed_data <- get_detailed_price_info ;;
  (if truthy detailed_data then
     try_except
       (show_detailed detailed_data)
       (fun e =>
          if is_KeyError e || is_ValueError e then
            Some (print ("Error processing detailed data: " ++ exn_msg e) ;;
                  (* Fallback to basic method *)
                  _show_basic_24h_price)
          else None)
   else
     print "Could not get detailed data from Binance." ;;
     _show_basic_24h_price) ;;
  print (rule 60).

(** *** convert_bitcoin_to_usd *)

(** Lines 286-301: the price the conversion uses, given what
    [get_current_price] returned. *)
Definition choose_price (price_btc : option pyfloat) : M pyfloat :=
  let unavailable :=
    print "⚠ Could not get current price from Binance." ;;
    print "   Service may be temporarily unavailable." ;;
    answer <- input (nl ++ "Use reference price of $50,000? (y/n): ") ;;
    let use_default := lower answer in
    if (use_default =? "y")%string then
      print (nl ++ "Using reference price: $" ++ fmt_money f50000) ;;
      ret f50000
    else
      try_except
        (typed <- input (nl ++ "Enter price manually: $") ;;
         lift (float_of_string typed))
        (fun e =>
           if is_ValueError e then
             Some (print "Invalid price. Using $50,000 as default." ;;
                   ret f50000)
           else None) in
  match price_btc with
  | None => unavailable
  | Some p =>
      if float_truthy p then
        print (nl ++ " " ++ BTC ++ " ✅ Current price: 1 BTC🪙 = $"
               ++ fmt_money p ++ " " ++ reset) ;;
        print "   Source: Binance API" ;;
        ret p
      else unavailable
  end.

Definition amount_prompt : string :=
  nl ++ BTC ++ " Enter amount of Bitcoin🪙: " ++ reset.

(** One turn of the [while True] loop: [Some] amount on [break], [None]
    when the loop goes round again. *)
Definition amount_turn : M (option pyfloat) :=
  try_except
    (amount <- input amount_prompt ;;
     amount_btc <- lift (float_of_string amount) ;;
     if fle amount_btc f0 then
       print "Error: Amount must be greater than 0" ;;
       ret None
     else ret (Some amount_btc))
    (fun e =>
       if is_ValueError e then
         Some (print "Error: Enter a valid number" ;; ret None)
       else None).

(** The loop.  Every turn reads one line, so it makes at most one turn per
    line of [pending] (the lines not read yet) and one more, which finds
    the input exhausted. *)
Fixpoint amount_loop (pending : list string) : M pyfloat :=
  r <- amount_turn ;;
  match r with
  | Some amount_btc => ret amount_btc
  | None =>
      match pending with
      | [] => lift (raise EOFError "EOF when reading a line")
      | _ :: rest => amount_loop rest
      end
  end.

Definition read_amount : M pyfloat :=
  fun w => amount_loop (w_stdin w) w.

Definition total_line (result : pyfloat) : string :=
  BTC ++ "💵 Total value: $" ++ fmt_money result ++ " USD " ++ reset.

(** Lines 303-326: the amount loop, the product and the result screen. *)
Definition show_conversion (price_btc : pyfloat) : M unit :=
  amount_btc <- read_amount ;;
  let result := fmul amount_btc price_btc in
  print (nl ++ rule 50) ;;
  print "RESULT:" ;;
  print (rule 50) ;;
  print (BTC ++ "📊 Bitcoin amount: " ++ fmt_btc amount_btc ++ " BTC "
         ++ reset) ;;
  print (BTC ++ "💰 Current price: $" ++ fmt_money price_btc ++ " USD/BTC "
         ++ reset) ;;
  print (total_line result) ;;
  print (rule 50) ;;
  _ <- input (nl ++ "Press Enter to continue...") ;;
  ret tt.

Definition converter_banner : M unit :=
  print (nl ++ rule 50) ;;
  print (BTC ++ "🪙BITCOIN TO USD CONVERTER (Binance)🪙 " ++ reset) ;;
  print (rule 50).

Definition convert_bitcoin_to_usd : M unit :=
  converter_banner ;;
  price_btc <- get_current_price ;;
  price_btc <- choose_price price_btc ;;
  show_conversion price_btc.

(** *** show_textual_5days_price *)

Fixpoint map_M {A B : Type} (f : A -> M B) (l : list A) : M (list B) :=
  match l with
  | [] => ret []
  | a :: r => b <- f a ;; bs <- map_M f r ;; ret (b :: bs)
  end.

(** [prices_by_day[day_key].append(price)], the key entering the dict, at
    its end, when it is new. *)
Fixpoint add_to_day (day_key : string) (price : pyfloat)
    (prices_by_day : list (string * list pyfloat))
  : list (string * list pyfloat) :=
  match prices_by_day with
  | [] => [(day_key, [price])]
  | (k, ps) :: r =>
      if (k =? day_key)%string then (k, (ps ++ [price])%list) :: r
      else (k, ps) :: add_to_day day_key price r
  end.

Definition group_by_day (dates : list datetime) (prices : list pyfloat)
  : list (string * list pyfloat) :=
  fold_left (fun d dp => add_to_day (strftime_dm (fst dp)) (snd dp) d)
            (combine dates prices) [].

(** [sum(l)] of floats as CPython up to 3.11 computes it, adding from the
    left starting at zero.  Later versions compensate the rounding errors;
    the embedding therefore takes the summation as a parameter. *)
Definition sum_left (l : list pyfloat) : pyfloat := fold_left fadd l f0.

Section WithSum.

Variable py_sum : list pyfloat -> pyfloat.

(** [sum(day_prices) / len(day_prices)] *)
Definition average (day_prices : list pyfloat) : result pyfloat :=
  rbind (float_of_int (Z.of_nat (List.length day_prices)))
        (fun n => py_truediv (py_sum day_prices) n).

Definition daily_summary (dates : list datetime) (prices : list pyfloat)
  : M unit :=
  if (5 <=? List.length prices)%nat then
    (* Group by approximate day *)
    let prices_by_day := group_by_day dates prices in
    for_each (skipn (List.length prices_by_day - 5) prices_by_day)
      (fun entry =>
         match snd entry with
         | [] => ret tt
         | day_prices =>
             average_price <- lift (average day_prices) ;;
             print (fst entry ++ ": $" ++ fmt_money average_price
                    ++ " (average)")
         end)
  else
    (* Show available points *)
    let step := Nat.max 1 (List.length prices / 5) in
    for_each (range_step (List.length prices) step)
      (fun i =>
         match nth_error dates i, nth_error prices i with
         | Some date, Some price =>
             print (strftime_dm_HM date ++ ": $" ++ fmt_money price)
         | _, _ => lift (raise IndexError "list index out of range")
         end).

Definition show_textual_5days_price : M unit :=
  print (nl ++ rule 60) ;;
  print (BTC ++ "🪙BITCOIN PRICE - LAST 5 DAYS🪙" ++ reset) ;;
  print (rule 60) ;;
  data <- get_historical_data 5 ;;
  match data with
  | None | Some [] =>
      print "Could not get data from Binance." ;;
      current_price <- get_current_price ;;
      match current_price with
      | Some p =>
          if float_truthy p then
            print (nl ++ "💰 Current price: $" ++ fmt_money p)
          else ret tt
      | None => ret tt
      end ;;
      print (rule 60)
  | Some (((_, p0) :: rest) as points) =>
      let prices := map snd points in
      dates <- map_M (fun item =>
                        seconds <- lift (py_div_1000 (fst item)) ;;
                        fromtimestamp seconds) points ;;
      let current_price := last prices p0 in
      let price_min := py_min p0 (map snd rest) in
      let price_max := py_max p0 (map snd rest) in
      let initial_price := p0 in
      let variation := fsub current_price initial_price in
      percentage <- lift (variation_percentage variation initial_price) ;;
      print (nl ++ BTC ++ "💰 Current price: $" ++ fmt_money current_price
             ++ " " ++ reset) ;;
      print ("📈 5-Day High: $" ++ fmt_money price_max) ;;
      print ("📉 5-Day Low: $" ++ fmt_money price_min) ;;
      print (change_line "5-Day" variation percentage) ;;
      (* Show daily summary *)
      print (nl ++ "📅 DAILY SUMMARY:") ;;
      print (repeat_string "-" 50) ;;
      daily_summary dates prices ;;
      print (rule 60)
  end.

(** ** show_simple_menu *)

(** The screen drawn at the start of every turn of the menu. *)
Definition menu_screen : M unit :=
  (* Clear screen *)
  emit (Write (esc ++ "c")) ;;
  print (rule 60) ;;
  print (" " ++ BTC ++ "     🪙BITCOIN TRACKER & CONVERTER🪙 " ++ reset) ;;
  print (rule 60) ;;
  print "Data source: Binance.com" ;;
  print "Pair: BTC/USDT" ;;
  print (rule 60) ;;
  price <- get_current_price ;;
  match price with
  | Some p =>
      if float_truthy p then
        print (nl ++ " " ++ BTC ++ "💰 Current Bitcoin🪙 price: $"
               ++ fmt_money p ++ " 💸USD" ++ reset) ;;
        now <- datetime_now ;;
        print ("   📅 Last update: " ++ strftime_HMS now)
      else
        print (nl ++ "⚠ Could not get current price from Binance") ;;
        print "   Check your internet connection or try again later"
  | None =>
      print (nl ++ "⚠ Could not get current price from Binance") ;;
      print "   Check your internet connection or try again later"
  end ;;
  print (nl ++ "MAIN MENU:") ;;
  print "1. 📊 Price and 24-hour analysis" ;;
  print "2. 📈 5-day analysis" ;;
  print "3. 🪙💱💸 Bitcoin to USD converter" ;;
  print "4. 🔄 Update price" ;;
  print "5. 🚪 Exit" ;;
  print (nl ++ rule 60).

Definition update_price : M unit :=
  print (nl ++ "Updating price from Binance🪙...") ;;
  new_price <- get_current_price ;;
  match new_price with
  | Some p =>
      if float_truthy p then
        print ("✅ New price: $" ++ fmt_money p) ;;
        now <- datetime_now ;;
        print ("🕐 " ++ strftime_HMS now)
      else print "❌ Could not update price"
  | None => print "❌ Could not update price"
  end ;;
  sleep 2.

Definition farewell : M unit :=
  print (nl ++ "Thank you for using Bitcoin Tracker!") ;;
  print "Powered by Binance API" ;;
  print ("See you soon! 👋" ++ nl).

(** One turn of the menu loop; [true] on [break]. *)
Definition menu_turn : M bool :=
  menu_screen ;;
  option <- input (nl ++ "Select an option (1-5): ") ;;
  if (option =? "1")%string then
    show_textual_24h_price ;;
    _ <- input (nl ++ "Press Enter to continue...") ;;
    ret false
  else if (option =? "2")%string then
    show_textual_5days_price ;;
    _ <- input (nl ++ "Press Enter to continue...") ;;
    ret false
  else if (option =? "3")%string then
    convert_bitcoin_to_usd ;;
    ret false
  else if (option =? "4")%string then
    update_price ;;
    ret false
  else if (option =? "5")%string then
    farewell ;;
    ret true
  else
    print (nl ++ "❌ Invalid option") ;;
    sleep 1 ;;
    ret false.

(** The loop.  Every turn reads at least one line, so it makes at most one
    turn per line of [pending] (the lines not read yet) and one more, which
    finds the input exhausted. *)
Fixpoint menu_loop (pending : list string) : M unit :=
  stop <- menu_turn ;;
  if stop then ret tt
  else
    match pending with
    | [] => lift (raise EOFError "EOF when reading a line")
    | _ :: rest => menu_loop rest
    end.

Definition show_simple_menu : M unit :=
  fun w => menu_loop (w_stdin w) w.

(** The body of the [__main__] block, [requests] being installed. *)
Definition main : M unit :=
  print "Starting 🪙Bitcoin Tracker with Binance API..." ;;
  print "Connecting to Binance..." ;;
  sleep 1 ;;
  show_simple_menu.

End WithSum.

(** ** Vocabulary of the statements *)

Definition in_range (x : pyfloat) (bound : Z) : Prop :=
  match x with
  | Ffin s u => 0 <= u <= bound /\ (s = true -> u = 0)
  | _ => False
  end.

Definition out_extends (w w' : world) : Prop :=
  exists l, w_stdout w' = (w_stdout w ++ l)%list.

Definition appends {A : Type} (m : M A) : Prop :=
  forall w, out_extends w (snd (m w)).

Definition klines_request (days end_time : Z) : request :=
  mk_request (base_url ++ "/klines")
    [("symbol", PStr symbol);
     ("interval", PStr (fst (interval_and_limit days)));
     ("startTime", PInt (end_time - days * 24 * 60 * 60 * 1000));
     ("endTime", PInt end_time);
     ("limit", PInt (snd (interval_and_limit days)))] 15.

Definition network_down : result pyval :=
  Raise (mk_exn RequestException "connection refused").

(** A world given by the HTTP outcomes in the order they occur (the
    network being down once they are used up) and by the lines typed. *)
Definition scripted (http : list (result pyval)) (stdin : list string)
  : world :=
  mk_world (fun k => nth k http network_down) []
           (fun _ => float_of_Z 1700000000) 0
           (fun _ => Ok (mk_datetime 11 14 22 13 20))
           (fun _ => mk_datetime 11 14 22 13 20) 0 stdin [].

(** What [_get_alternative_price] makes of the outcome of its request. *)
Definition alternative_of (ticker : result pyval) : option pyfloat :=
  match ticker with
  | Ok (PDict d) =>
      match lookup "lastPrice" d with
      | Some v =>
          match py_float v with Ok x => Some x | Raise _ => None end
      | None =>
          match lookup "bidPrice" d, lookup "askPrice" d with
          | Some b, Some a =>
              match py_float b, py_float a with
              | Ok x, Ok y => Some (fdiv (fadd x y) f2)
              | _, _ => None
              end
          | _, _ => None
          end
      end
  | _ => None
  end.

(** A kline as Binance sends it, with its open time and closing price. *)
Definition candle (open_time : Z) (close : string) : pyval :=
  PList [PInt open_time; PStr "1.0"; PStr "3.0"; PStr "0.5"; PStr close;
         PStr "10.0"].

Definition ticker_bad_high : pyval :=
  PDict [("lastPrice", PStr "100"); ("openPrice", PStr "90");
         ("highPrice", PStr "n/a"); ("lowPrice", PStr "89")].

Definition ticker_good : pyval :=
  PDict [("lastPrice", PStr "100"); ("openPrice", PStr "90");
         ("highPrice", PStr "101"); ("lowPrice", PStr "89");
         ("volume", PStr "1234.5")].

(** A row of the chart: its time label, its height and its price. *)
Definition chart_entry : Type := string * Z * pyfloat.

Definition entry_line (r : chart_entry) : out_event :=
  let '(timestamp, height, price) := r in
  Print (chart_line timestamp height price).

Definition entry_height (r : chart_entry) : Z := snd (fst r).

Definition two_points : list (pyval * pyfloat) :=
  [(PInt 0, float_of_Z 1); (PInt 900000, float_of_Z 2)].

(** What the loop over the candles keeps: [candles_of items l] when every
    item has a length, the items of fewer than six elements are passed
    over, and each other item gives the pair of its element 0 and of the
    float of its element 4. *)
Inductive candles_of : list pyval -> list (pyval * pyfloat) -> Prop :=
| candles_done : candles_of [] []
| candles_skip (item : pyval) (n : Z) (rest : list pyval)
    (l : list (pyval * pyfloat)) :
    py_len item = Ok n -> n < 6 ->
    candles_of rest l -> candles_of (item :: rest) l
| candles_keep (item : pyval) (n : Z) (t c : pyval) (p : pyfloat)
    (rest : list pyval) (l : list (pyval * pyfloat)) :
    py_len item = Ok n -> 6 <= n ->
    py_getitem_nat item 0 = Ok t ->
    py_getitem_nat item 4 = Ok c ->
    py_float c = Ok p ->
    candles_of rest l -> candles_of (item :: rest) ((t, p) :: l).

(** The spec's words: a well-formed candle is an array of at least six
    elements whose closing price (element 4) is a number; a well-formed
    response is an array of well-formed candles. *)
Definition spec_well_formed_candle (c : pyval) : Prop :=
  exists l close p,
    c = PList l /\ (6 <= List.length l)%nat
    /\ nth_error l 4 = Some close /\ py_float close = Ok p.

Definition spec_well_formed_response (r : result pyval) : Prop :=
  exists l, r = Ok (PList l) /\ Forall spec_well_formed_candle l.

Definition truncated_candle : pyval := PList [PInt 1; PStr "2"; PStr "3"].

(** The world after [evs] is written and the input is down to [stdin]. *)
Definition after_io (w : world) (evs : list out_event) (stdin : list string)
  : world :=
  mk_world (w_http w) (w_requests w) (w_clock w) (w_ticks w)
           (w_fromtimestamp w) (w_now w) (w_nows w) stdin
           (w_stdout w ++ evs).

(** [get_current_price] gave nothing the converter takes for a price:
    [None], or a zero. *)
Definition price_unavailable (price : option pyfloat) : Prop :=
  match price with
  | None => True
  | Some p => float_truthy p = false
  end.

Definition unavailable_notice : list out_event :=
  [Print "⚠ Could not get current price from Binance.";
   Print "   Service may be temporarily unavailable.";
   Prompt (nl ++ "Use reference price of $50,000? (y/n): ")].

Definition manual_prompt : out_event := Prompt (nl ++ "Enter price manually: $").

(** A computation keeps the relation [R] between the world it starts in and
    the world it leaves. *)
Definition respects (R : world -> world -> Prop) {A : Type} (m : M A)
  : Prop :=
  forall w, R w (snd (m w)).

(** The lines still to be read are the same in both worlds. *)
Definition same_stdin (w w' : world) : Prop := w_stdin w' = w_stdin w.

(** A computation that never raises. *)
Definition returns {A : Type} (m : M A) : Prop :=
  forall w, exists a, fst (m w) = Ok a.

Definition spot_request : request :=
  mk_request (base_url ++ "/ticker/price") [("symbol", PStr symbol)] 10.

Definition ticker_request : request :=
  mk_request (base_url ++ "/ticker/24hr") [("symbol", PStr symbol)] 10.

(** The spot-price request failed with a network error. *)
Definition network_failure (spot : result pyval) : bool :=
  match spot with
  | Raise e => is_RequestException e
  | Ok _ => false
  end.

(** What the ticker request produced is no data for the 24-hour screen: an
    error, or a value that is false as a condition. *)
Definition no_details (ticker : result pyval) : Prop :=
  match ticker with
  | Ok data => truthy data = false
  | Raise _ => True
  end.

Definition banner_24h : list out_event :=
  [Print (nl ++ rule 60);
   Print (BTC ++ " BITCOIN PRICE🪙 - LAST 24 HOURS " ++ reset);
   Print (rule 60)].

Definition chart_heading : list out_event :=
  [Print (nl ++ "📊 SIMPLE CHART (ASCII):"); Print (repeat_string "-" 50)].

(** An entry the amount loop turns down: no float, or a float [v] with
    [v <= 0]. *)
Definition rejected (s : string) : Prop :=
  match parse_float s with
  | None => True
  | Some v => fle v f0 = true
  end.

(** What the loop writes for such an entry. *)
Definition rejection (s : string) : list out_event :=
  [Prompt amount_prompt;
   Print (match parse_float s with
          | None => "Error: Enter a valid number"
          | Some _ => "Error: Amount must be greater than 0"
          end)].

Definition banner_5days : list out_event :=
  [Print (nl ++ rule 60);
   Print (BTC ++ "🪙BITCOIN PRICE - LAST 5 DAYS🪙" ++ reset);
   Print (rule 60)].

(** The dates of the points: [datetime.fromtimestamp(item[0]/1000)] for
    each of them, as [show_textual_5days_price] computes them. *)
Definition dates_of (points : list (pyval * pyfloat)) : M (list datetime) :=
  map_M (fun item =>
           bind (lift (py_div_1000 (fst item))) (fun seconds =>
           fromtimestamp seconds)) points.

(** An entry that is none of the five options of the menu. *)
Definition invalid_option (s : string) : Prop :=
  s <> "1" /\ s <> "2" /\ s <> "3" /\ s <> "4" /\ s <> "5".

Definition invalid_notice : list out_event :=
  [Print (nl ++ "❌ Invalid option"); Pause 1].

Definition farewell_lines : list out_event :=
  [Print (nl ++ "Thank you for using Bitcoin Tracker!");
   Print "Powered by Binance API";
   Print ("See you soon! 👋" ++ nl)].

Definition option_prompt : out_event :=
  Prompt (nl ++ "Select an option (1-5): ").

Lemma unit_scale_pos : 0 < unit_scale.
Proof. reflexivity. Qed.

(** [rne a b] is within one half of [a / b], and even whenever it is
    exactly one half away. *)
Lemma rne_spec (a b : Z) :
  0 <= a -> 0 < b ->
  let r := rne a b in
  0 <= r
  /\ (2 * a < (2 * r + 1) * b \/ (2 * a = (2 * r + 1) * b /\ Z.even r = true))
  /\ ((2 * r - 1) * b < 2 * a \/ (2 * a = (2 * r - 1) * b /\ Z.even r = true)).
Proof.
  intros Ha Hb. unfold rne.
  pose proof (Z.div_mod a b ltac:(lia)) as Hdm.
  pose proof (Z.mod_pos_bound a b Hb) as Hm.
  pose proof (Z.div_pos a b Ha Hb) as Hq.
  set (q := a / b) in *. set (m := a mod b) in *.
  destruct (Z.compare_spec (2 * m) b) as [E | L | G]; cbv zeta.
  - destruct (Z.even q) eqn:Ev.
    + split; [lia|]. split; [right; split; [nia | exact Ev] | left; nia].
    + assert (Z.even (q + 1) = true) as Ev'.
      { rewrite Z.even_add, Ev. reflexivity. }
      split; [lia|]. split; [left; nia | right; split; [nia | exact Ev']].
  - split; [lia|]. split; left; nia.
  - split; [lia|]. split; left; nia.
Qed.

Lemma rne_mono (a1 b1 a2 b2 : Z) :
  0 <= a1 -> 0 < b1 -> 0 <= a2 -> 0 < b2 ->
  a1 * b2 <= a2 * b1 ->
  rne a1 b1 <= rne a2 b2.
Proof.
  intros Ha1 Hb1 Ha2 Hb2 Hle.
  destruct (rne_spec a1 b1 Ha1 Hb1) as (_ & _ & Hlo).
  destruct (rne_spec a2 b2 Ha2 Hb2) as (_ & Hup & _).
  set (r1 := rne a1 b1) in *. set (r2 := rne a2 b2) in *.
  destruct (Z_le_gt_dec r1 r2) as [|Hgt]; [assumption | exfalso].
  assert (0 < b1 * b2) as Hbb by nia.
  assert ((2 * r1 - 1) * (b1 * b2) <= (2 * r2 + 1) * (b1 * b2)) as Hchain.
  { assert ((2 * r1 - 1) * b1 * b2 <= 2 * a1 * b2) by (destruct Hlo; nia).
    assert (2 * a2 * b1 <= (2 * r2 + 1) * b2 * b1) by (destruct Hup; nia).
    nia. }
  assert (r1 = r2 + 1) as Er by nia.
  assert (2 * a1 * b2 = (2 * r1 - 1) * b1 * b2 /\
          2 * a2 * b1 = (2 * r2 + 1) * b2 * b1) as [E1 E2].
  { assert ((2 * r1 - 1) * b1 * b2 <= 2 * a1 * b2) by (destruct Hlo; nia).
    assert (2 * a2 * b1 <= (2 * r2 + 1) * b2 * b1) by (destruct Hup; nia).
    subst r1. split; nia. }
  assert (Z.even r1 = true) as Ev1 by (destruct Hlo as [|[_ ?]]; [nia | assumption]).
  assert (Z.even r2 = true) as Ev2 by (destruct Hup as [|[_ ?]]; [nia | assumption]).
  rewrite Er, Z.even_add, Ev2 in Ev1. discriminate.
Qed.

Lemma grid_exp_spec (n d : Z) :
  0 <= n -> 0 < d ->
  let e := grid_exp n d in
  0 <= e
  /\ n < 2 ^ 53 * (d * 2 ^ e)
  /\ (e = 0 \/ 2 ^ 52 * (d * 2 ^ e) <= n).
Proof.
  intros Hn Hd. unfold grid_exp.
  pose proof (Z.div_mod n d ltac:(lia)) as Hdm.
  pose proof (Z.mod_pos_bound n d Hd) as Hm.
  pose proof (Z.div_pos n d Hn Hd) as Hq.
  set (f := n / d) in *. set (m := n mod d) in *.
  assert (0 < 2 ^ 53) as P53 by reflexivity.
  destruct (Z.eq_dec f 0) as [E0 | N0].
  - rewrite E0 in *. change (Z.log2 0) with 0. rewrite Z.max_l by lia.
    change (2 ^ 0) with 1. split; [lia|]. split; [lia | left; reflexivity].
  - pose proof (Z.log2_spec f ltac:(lia)) as [Hlo Hhi].
    pose proof (Z.log2_nonneg f) as HL.
    set (L := Z.log2 f) in *.
    destruct (Z_le_gt_dec L 52) as [Hs | Hb].
    + rewrite Z.max_l by lia. split; [lia|].
      split; [| left; reflexivity].
      assert (2 ^ Z.succ L <= 2 ^ 53) by (apply Z.pow_le_mono_r; lia).
      change (2 ^ 0) with 1. nia.
    + rewrite Z.max_r by lia. split; [lia|].
      assert (2 ^ L = 2 ^ 52 * 2 ^ (L - 52)) as EL.
      { rewrite <- Z.pow_add_r by lia. f_equal. lia. }
      assert (2 ^ Z.succ L = 2 ^ 53 * 2 ^ (L - 52)) as ES.
      { rewrite <- Z.pow_add_r by lia. f_equal. lia. }
      assert (0 < 2 ^ (L - 52)) by (apply Z.pow_pos_nonneg; lia).
      set (t := 2 ^ (L - 52)) in *.
      split; [| right]; nia.
Qed.

Lemma rne_le_of_lt (a b k : Z) :
  0 <= a -> 0 < b -> 0 <= k -> a <= k * b -> rne a b <= k.
Proof.
  intros Ha Hb Hk H.
  destruct (rne_spec a b Ha Hb) as (_ & _ & Hlo).
  set (r := rne a b) in *. destruct Hlo; nia.
Qed.

Lemma rne_ge_of_le (a b k : Z) :
  0 <= a -> 0 < b -> 0 <= k -> k * b <= a -> k <= rne a b.
Proof.
  intros Ha Hb Hk H.
  destruct (rne_spec a b Ha Hb) as (_ & Hup & _).
  set (r := rne a b) in *. destruct Hup; nia.
Qed.

Lemma round_units_nonneg (n d : Z) :
  0 <= n -> 0 < d -> 0 <= round_units n d.
Proof.
  intros Hn Hd. unfold round_units.
  destruct (grid_exp_spec n d Hn Hd) as (He & _).
  set (e := grid_exp n d) in *.
  assert (0 < 2 ^ e) by (apply Z.pow_pos_nonneg; lia).
  destruct (rne_spec n (d * 2 ^ e) Hn ltac:(nia)) as (Hr & _).
  nia.
Qed.

(** Rounding to 53 bits is monotone. *)
Lemma round_units_mono (n1 d1 n2 d2 : Z) :
  0 <= n1 -> 0 < d1 -> 0 <= n2 -> 0 < d2 ->
  n1 * d2 <= n2 * d1 ->
  round_units n1 d1 <= round_units n2 d2.
Proof.
  intros Hn1 Hd1 Hn2 Hd2 Hle. unfold round_units.
  destruct (grid_exp_spec n1 d1 Hn1 Hd1) as (He1 & Hup1 & Hlo1).
  destruct (grid_exp_spec n2 d2 Hn2 Hd2) as (He2 & Hup2 & Hlo2).
  set (e1 := grid_exp n1 d1) in *. set (e2 := grid_exp n2 d2) in *.
  assert (0 < 2 ^ e1) as P1 by (apply Z.pow_pos_nonneg; lia).
  assert (0 < 2 ^ e2) as P2 by (apply Z.pow_pos_nonneg; lia).
  assert (0 < 2 ^ 52) as P52 by reflexivity.
  assert (2 ^ 53 = 2 * 2 ^ 52) as E53 by reflexivity.
  destruct (Z.lt_trichotomy e1 e2) as [Hlt | [Heq | Hgt]].
  - (* the second operand sits on a coarser grid *)
    assert (rne n1 (d1 * 2 ^ e1) <= 2 ^ 53) as B1.
    { apply rne_le_of_lt; nia. }
    assert (2 ^ 52 <= rne n2 (d2 * 2 ^ e2)) as B2.
    { apply rne_ge_of_le; first [nia | destruct Hlo2; [lia | nia]]. }
    assert (2 * 2 ^ e1 <= 2 ^ e2) as Hp.
    { replace (2 * 2 ^ e1) with (2 ^ (e1 + 1)).
      - apply Z.pow_le_mono_r; lia.
      - rewrite Z.pow_add_r by lia. change (2 ^ 1) with 2. lia. }
    set (r1 := rne n1 (d1 * 2 ^ e1)) in *.
    set (r2 := rne n2 (d2 * 2 ^ e2)) in *.
    nia.
  - rewrite Heq in *.
    apply Z.mul_le_mono_nonneg_r; [lia|].
    apply rne_mono; nia.
  - exfalso.
    assert (2 * 2 ^ e2 <= 2 ^ e1) as Hp.
    { replace (2 * 2 ^ e2) with (2 ^ (e2 + 1)).
      - apply Z.pow_le_mono_r; lia.
      - rewrite Z.pow_add_r by lia. change (2 ^ 1) with 2. lia. }
    destruct Hlo1 as [E0 | Hlo1]; [lia|].
    set (t1 := 2 ^ e1) in *. set (t2 := 2 ^ e2) in *.
    set (c := 2 ^ 52) in *.
    assert (c * (d1 * t1) * d2 <= n1 * d2) by nia.
    assert (n2 * d1 < 2 ^ 53 * (d2 * t2) * d1) by nia.
    rewrite E53 in *.
    assert (c * d1 * d2 * t1 < 2 * c * d1 * d2 * t2) by nia.
    assert (0 < c * d1 * d2) by nia.
    nia.
Qed.

Lemma round_units_zero (d : Z) : 0 < d -> round_units 0 d = 0.
Proof.
  intros Hd.
  pose proof (round_units_nonneg 0 d ltac:(lia) Hd).
  pose proof (round_units_mono 0 d 0 1 ltac:(lia) Hd ltac:(lia) ltac:(lia)
                ltac:(lia)) as H1.
  change (round_units 0 1) with 0 in H1. lia.
Qed.

Lemma round_units_one : round_units unit_scale 1 = unit_scale.
Proof. vm_compute. reflexivity. Qed.

Lemma round_units_twenty : round_units (20 * unit_scale) 1 = 20 * unit_scale.
Proof. vm_compute. reflexivity. Qed.

Lemma f20_units : f20 = Ffin false (20 * unit_scale).
Proof. vm_compute. reflexivity. Qed.

Lemma unit_scale_lt_overflow : 20 * unit_scale < overflow_units.
Proof. reflexivity. Qed.

Lemma signed_units_negb (s : bool) (u : Z) :
  signed_units (negb s) u = - signed_units s u.
Proof. destruct s; cbn; lia. Qed.

Lemma fle_finite (s t : bool) (u v : Z) :
  fle (Ffin s u) (Ffin t v) = true <-> signed_units s u <= signed_units t v.
Proof.
  unfold fle, fcompare.
  destruct (Z.compare_spec (signed_units s u) (signed_units t v));
    split; intros; try lia; try reflexivity; discriminate.
Qed.

Lemma flt_finite (s t : bool) (u v : Z) :
  flt (Ffin s u) (Ffin t v) = true <-> signed_units s u < signed_units t v.
Proof.
  unfold flt, fcompare.
  destruct (Z.compare_spec (signed_units s u) (signed_units t v));
    split; intros; try lia; try reflexivity; discriminate.
Qed.

Lemma fround_cases (s : bool) (n d : Z) :
  (fround s n d = Finf s /\ overflow_units <= round_units n d)
  \/ (fround s n d = Ffin s (round_units n d)
      /\ round_units n d < overflow_units).
Proof.
  unfold fround. destruct (Z.leb_spec overflow_units (round_units n d));
    [left | right]; split; auto.
Qed.

(** The difference of two finite floats, in terms of their signed units. *)
Lemma fsub_finite (s t : bool) (u v : Z) :
  fsub (Ffin s u) (Ffin t v) =
  let z := signed_units s u - signed_units t v in
  if z =? 0 then Ffin (s && negb t) 0 else fround (z <? 0) (Z.abs z) 1.
Proof.
  unfold fsub, fneg, fadd. rewrite signed_units_negb.
  replace (signed_units s u + - signed_units t v)
    with (signed_units s u - signed_units t v) by lia.
  reflexivity.
Qed.

(** With the range positive, it is infinite, or finite and no smaller than
    the distance of any price from the minimum. *)
Lemma fsub_in_range (p mn mx : pyfloat) :
  fle mn p = true -> fle p mx = true ->
  fgt (fsub mx mn) f0 = true ->
  fsub mx mn = Finf false
  \/ exists ur, fsub mx mn = Ffin false ur /\ 0 < ur
                /\ in_range (fsub p mn) ur.
Proof.
  intros Hlo Hhi Hpos.
  destruct mn as [| sn | sn un]; [cbn in Hlo; discriminate Hlo | |].
  - (* the minimum is infinite *)
    destruct mx as [| sx | sx ux].
    + destruct p; cbn in Hhi; discriminate Hhi.
    + destruct sx, sn; cbn in Hpos; try discriminate Hpos. left. reflexivity.
    + destruct sn; cbn in Hpos; try discriminate Hpos. left. reflexivity.
  - destruct mx as [| sx | sx ux].
    + destruct p; cbn in Hhi; discriminate Hhi.
    + destruct sx; cbn in Hpos; try discriminate Hpos. left. reflexivity.
    + destruct p as [| sp | sp up]; [cbn in Hlo; discriminate Hlo | |].
      { destruct sp; cbn in Hlo, Hhi; discriminate. }
      apply fle_finite in Hlo. apply fle_finite in Hhi.
      rewrite (fsub_finite sx sn ux un) in *.
      rewrite (fsub_finite sp sn up un). cbv zeta in *.
      set (a := signed_units sn un) in *.
      set (b := signed_units sp up) in *.
      set (c := signed_units sx ux) in *.
      destruct (Z.eqb_spec (c - a) 0) as [E | NE].
      { apply flt_finite in Hpos.
        destruct (sx && negb sn); cbn in Hpos; lia. }
      assert (0 < c - a) as Hz by lia.
      replace (c - a <? 0) with false in * by (symmetry; apply Z.ltb_ge; lia).
      rewrite Z.abs_eq in * by lia.
      destruct (fround_cases false (c - a) 1) as [[E _] | [E Hfin]];
        rewrite E in *; [left; reflexivity | right].
      exists (round_units (c - a) 1). split; [reflexivity|].
      split.
      { apply flt_finite in Hpos. cbn in Hpos. exact Hpos. }
      destruct (Z.eqb_spec (b - a) 0) as [E0 | NE0].
      { unfold in_range. split; [|reflexivity].
        pose proof (round_units_nonneg (c - a) 1). lia. }
      replace (b - a <? 0) with false by (symmetry; apply Z.ltb_ge; lia).
      rewrite Z.abs_eq by lia.
      pose proof (round_units_mono (b - a) 1 (c - a) 1) as Hm.
      pose proof (round_units_nonneg (b - a) 1).
      destruct (fround_cases false (b - a) 1) as [[_ Ho] | [E' _]];
        [lia|].
      rewrite E'. unfold in_range. split; [lia | discriminate].
Qed.

Lemma fdiv_in_range (x : pyfloat) (ur : Z) :
  0 < ur -> in_range x ur ->
  exists q, py_truediv x (Ffin false ur) = Ok q /\ in_range q unit_scale.
Proof.
  intros Hur Hx. destruct x as [| |s u]; try contradiction.
  destruct Hx as [Hu Hs].
  unfold py_truediv, float_truthy, fdiv.
  destruct (Z.eqb_spec ur 0) as [|_]; [lia|]. cbn [negb].
  rewrite xorb_false_r.
  pose proof unit_scale_pos as HS.
  pose proof (round_units_mono (u * unit_scale) ur unit_scale 1
                ltac:(nia) Hur ltac:(lia) ltac:(lia) ltac:(nia)) as Hm.
  rewrite round_units_one in Hm.
  pose proof (round_units_nonneg (u * unit_scale) ur ltac:(nia) Hur).
  pose proof unit_scale_lt_overflow.
  destruct (fround_cases s (u * unit_scale) ur) as [[_ Ho] | [E _]]; [lia|].
  eexists. split; [rewrite E; reflexivity|].
  unfold in_range. split; [lia|]. intros ->. rewrite (Hs eq_refl).
  apply round_units_zero. exact Hur.
Qed.

Lemma fmul_in_range (q : pyfloat) :
  in_range q unit_scale -> in_range (fmul q f20) (20 * unit_scale).
Proof.
  intros Hq. destruct q as [| |s u]; try contradiction.
  destruct Hq as [Hu Hs]. rewrite f20_units. unfold fmul.
  rewrite xorb_false_r.
  pose proof unit_scale_pos as HS.
  pose proof (round_units_mono (u * (20 * unit_scale)) unit_scale
                (20 * unit_scale) 1
                ltac:(nia) HS ltac:(lia) ltac:(lia) ltac:(nia)) as Hm.
  rewrite round_units_twenty in Hm.
  pose proof (round_units_nonneg (u * (20 * unit_scale)) unit_scale
                ltac:(nia) HS).
  pose proof unit_scale_lt_overflow.
  destruct (fround_cases s (u * (20 * unit_scale)) unit_scale)
    as [[_ Ho] | [E _]]; [lia|].
  rewrite E. unfold in_range. split; [lia|]. intros ->. rewrite (Hs eq_refl).
  apply round_units_zero. exact HS.
Qed.

Lemma int_in_range (t : pyfloat) (h : Z) :
  in_range t (20 * unit_scale) -> int_of_float t = Ok h -> 0 <= h <= 20.
Proof.
  intros Ht Hh. destruct t as [| |s u]; try contradiction.
  destruct Ht as [Hu Hs]. unfold int_of_float in Hh. injection Hh as <-.
  pose proof unit_scale_pos as HS.
  assert (0 <= u / unit_scale <= 20) as Hq.
  { split; [apply Z.div_pos; lia|].
    apply Z.div_le_upper_bound; lia. }
  destruct s; unfold signed_units; [|lia].
  rewrite (Hs eq_refl). change (0 / unit_scale) with 0. lia.
Qed.

(** The height of a bar lies between 0 and 20 whenever it is computed. *)
Lemma chart_height_bounds (p mn mx : pyfloat) (h : Z) :
  fle mn p = true -> fle p mx = true ->
  fgt (fsub mx mn) f0 = true ->
  chart_height p mn (fsub mx mn) = Ok h ->
  0 <= h <= 20.
Proof.
  intros Hlo Hhi Hpos Hh. unfold chart_height in Hh.
  destruct (fsub_in_range p mn mx Hlo Hhi Hpos) as [E | (ur & E & Hur & Hx)].
  - rewrite E in Hh. unfold py_truediv, float_truthy, rbind in Hh.
    destruct (fsub p mn) as [| |s u]; unfold fdiv in Hh.
    + discriminate Hh.
    + discriminate Hh.
    + apply (int_in_range (fmul (Ffin (xorb s false) 0) f20)); [|exact Hh].
      apply fmul_in_range. unfold in_range. pose proof unit_scale_pos.
      split; [lia | reflexivity].
  - rewrite E in Hh.
    destruct (fdiv_in_range _ ur Hur Hx) as (q & Eq & Hq).
    rewrite Eq in Hh. unfold rbind in Hh.
    apply (int_in_range (fmul q f20)); [|exact Hh].
    apply fmul_in_range. exact Hq.
Qed.

(** *** The order on floats *)

Lemma fle_spec (x y : pyfloat) :
  fle x y = true <->
  match x, y with
  | Fnan, _ | _, Fnan => False
  | Finf s, Finf t => s = true \/ t = false
  | Finf s, Ffin _ _ => s = true
  | Ffin _ _, Finf t => t = false
  | Ffin s u, Ffin t v => signed_units s u <= signed_units t v
  end.
Proof.
  destruct x as [|s|s u], y as [|t|t v]; unfold fle, fcompare;
    try (split; [discriminate | contradiction]).
  - destruct s, t; cbn; intuition discriminate.
  - destruct s; cbn; intuition discriminate.
  - destruct t; cbn; intuition discriminate.
  - apply fle_finite.
Qed.

Lemma flt_spec (x y : pyfloat) :
  flt x y = true <->
  match x, y with
  | Fnan, _ | _, Fnan => False
  | Finf s, Finf t => s = true /\ t = false
  | Finf s, Ffin _ _ => s = true
  | Ffin _ _, Finf t => t = false
  | Ffin s u, Ffin t v => signed_units s u < signed_units t v
  end.
Proof.
  destruct x as [|s|s u], y as [|t|t v]; unfold flt, fcompare;
    try (split; [discriminate | contradiction]).
  - destruct s, t; cbn; intuition discriminate.
  - destruct s; cbn; intuition discriminate.
  - destruct t; cbn; intuition discriminate.
  - apply flt_finite.
Qed.

Lemma fle_trans (x y z : pyfloat) :
  fle x y = true -> fle y z = true -> fle x z = true.
Proof.
  rewrite !fle_spec.
  destruct x as [|a|a u], y as [|b|b v], z as [|c|c w];
    try contradiction; try lia;
    repeat match goal with b : bool |- _ => destruct b end;
    intuition (try discriminate; auto).
Qed.

Lemma flt_fle (x y : pyfloat) : flt x y = true -> fle x y = true.
Proof.
  rewrite flt_spec, fle_spec.
  destruct x as [|a|a u], y as [|b|b v]; try tauto; lia.
Qed.

Lemma fle_of_not_flt (x y : pyfloat) :
  x <> Fnan -> y <> Fnan -> flt x y = false -> fle y x = true.
Proof.
  intros Hx Hy H. apply fle_spec.
  assert (~ flt x y = true) as N by (rewrite H; discriminate).
  rewrite flt_spec in N.
  destruct x as [|a|a u], y as [|b|b v]; try congruence; try lia;
    repeat match goal with b : bool |- _ => destruct b end;
    try tauto; try reflexivity; exfalso; apply N; reflexivity.
Qed.

Lemma fle_refl (x : pyfloat) : x <> Fnan -> fle x x = true.
Proof.
  intros Hx. apply fle_spec. destruct x as [|a|a u]; try congruence.
  - destruct a; auto.
  - lia.
Qed.

Lemma fle_not_nan (x y : pyfloat) :
  fle x y = true -> x <> Fnan /\ y <> Fnan.
Proof.
  rewrite fle_spec. destruct x, y; try contradiction; split; discriminate.
Qed.

Lemma flt_not_nan (x y : pyfloat) :
  flt x y = true -> x <> Fnan /\ y <> Fnan.
Proof. intros H. apply fle_not_nan, flt_fle, H. Qed.

(** *** [min] and [max] *)

Lemma py_min_spec (l : list pyfloat) (c : pyfloat) :
  py_min c l <> Fnan ->
  c <> Fnan
  /\ fle (py_min c l) c = true
  /\ forall y, In y l -> y <> Fnan -> fle (py_min c l) y = true.
Proof.
  revert c. induction l as [|y l IH]; intros c Hr; cbn in *.
  - split; [exact Hr|]. split; [apply fle_refl; exact Hr | contradiction].
  - destruct (flt y c) eqn:Hlt.
    + destruct (IH y Hr) as (Hy & Hle & Hall).
      destruct (flt_not_nan _ _ Hlt) as [_ Hc].
      split; [exact Hc|]. split.
      * eapply fle_trans; [exact Hle | apply flt_fle; exact Hlt].
      * intros z [<- | Hz] Hn; [exact Hle | apply Hall; assumption].
    + destruct (IH c Hr) as (Hc & Hle & Hall).
      split; [exact Hc|]. split; [exact Hle|].
      intros z [<- | Hz] Hn; [| apply Hall; assumption].
      eapply fle_trans; [exact Hle|]. apply fle_of_not_flt; assumption.
Qed.

Lemma py_max_spec (l : list pyfloat) (c : pyfloat) :
  py_max c l <> Fnan ->
  c <> Fnan
  /\ fle c (py_max c l) = true
  /\ forall y, In y l -> y <> Fnan -> fle y (py_max c l) = true.
Proof.
  revert c. induction l as [|y l IH]; intros c Hr; cbn in *.
  - split; [exact Hr|]. split; [apply fle_refl; exact Hr | contradiction].
  - unfold fgt in *. destruct (flt c y) eqn:Hlt.
    + destruct (IH y Hr) as (Hy & Hle & Hall).
      destruct (flt_not_nan _ _ Hlt) as [Hc _].
      split; [exact Hc|]. split.
      * eapply fle_trans; [apply flt_fle; exact Hlt | exact Hle].
      * intros z [<- | Hz] Hn; [exact Hle | apply Hall; assumption].
    + destruct (IH c Hr) as (Hc & Hle & Hall).
      split; [exact Hc|]. split; [exact Hle|].
      intros z [<- | Hz] Hn; [| apply Hall; assumption].
      eapply fle_trans; [|exact Hle]. apply fle_of_not_flt; assumption.
Qed.

Lemma py_min_In (l : list pyfloat) (c : pyfloat) : In (py_min c l) (c :: l).
Proof.
  revert c. induction l as [|y l IH]; intros c; cbn; [auto|].
  destruct (flt y c); [specialize (IH y) | specialize (IH c)];
    cbn in IH; tauto.
Qed.

Lemma py_max_In (l : list pyfloat) (c : pyfloat) : In (py_max c l) (c :: l).
Proof.
  revert c. induction l as [|y l IH]; intros c; cbn; [auto|].
  destruct (fgt y c); [specialize (IH y) | specialize (IH c)];
    cbn in IH; tauto.
Qed.

Lemma fsub_nan_l (y : pyfloat) : fsub Fnan y = Fnan.
Proof. reflexivity. Qed.

Lemma fsub_nan_r (x : pyfloat) : fsub x Fnan = Fnan.
Proof. destruct x; reflexivity. Qed.

Lemma chart_height_nan (mn rg : pyfloat) (h : Z) :
  chart_height Fnan mn rg <> Ok h.
Proof.
  unfold chart_height, py_truediv. rewrite fsub_nan_l.
  destruct (float_truthy rg); cbn; discriminate.
Qed.

(** Every height the chart computes for a listed price lies in 0..20. *)
Lemma chart_height_of_prices (p0 : pyfloat) (rest : list pyfloat)
    (p : pyfloat) (h : Z) :
  let mn := py_min p0 rest in
  let mx := py_max p0 rest in
  fgt (fsub mx mn) f0 = true ->
  In p (p0 :: rest) ->
  chart_height p mn (fsub mx mn) = Ok h ->
  0 <= h <= 20.
Proof.
  intros mn mx Hpos Hin Hh.
  assert (mn <> Fnan /\ mx <> Fnan) as [Hmn Hmx].
  { split; intros E; rewrite E in Hpos;
      [rewrite fsub_nan_r in Hpos | rewrite fsub_nan_l in Hpos];
      discriminate Hpos. }
  assert (p <> Fnan) as Hp.
  { intros ->. exact (chart_height_nan _ _ _ Hh). }
  destruct (py_min_spec rest p0 Hmn) as (H0 & Hmin0 & Hmin).
  destruct (py_max_spec rest p0 Hmx) as (_ & Hmax0 & Hmax).
  apply (chart_height_bounds p mn mx h); auto.
  - destruct Hin as [<- | Hin]; [exact Hmin0 | apply Hmin; assumption].
  - destruct Hin as [<- | Hin]; [exact Hmax0 | apply Hmax; assumption].
Qed.

(** *** What a computation leaves of the world *)

Lemma out_extends_refl (w : world) : out_extends w w.
Proof. exists []. symmetry. apply app_nil_r. Qed.

Lemma out_extends_trans (w1 w2 w3 : world) :
  out_extends w1 w2 -> out_extends w2 w3 -> out_extends w1 w3.
Proof.
  intros [l1 H1] [l2 H2]. exists (l1 ++ l2)%list.
  rewrite H2, H1. symmetry. apply app_assoc.
Qed.

Lemma out_extends_In (w w' : world) (o : out_event) :
  out_extends w w' -> In o (w_stdout w) -> In o (w_stdout w').
Proof. intros [l ->] H. apply in_or_app. left. exact H. Qed.

Lemma appends_ret {A : Type} (a : A) : appends (ret a).
Proof. intros w. apply out_extends_refl. Qed.

Lemma appends_lift {A : Type} (r : result A) : appends (lift r).
Proof. intros w. apply out_extends_refl. Qed.

Lemma appends_bind {A B : Type} (m : M A) (k : A -> M B) :
  appends m -> (forall a, appends (k a)) -> appends (bind m k).
Proof.
  intros Hm Hk w. unfold bind. specialize (Hm w).
  destruct (m w) as [[a | e] w1]; cbn in *; [|exact Hm].
  eapply out_extends_trans; [exact Hm | apply Hk].
Qed.

Lemma appends_try_except {A : Type} (body : M A)
    (handler : exn -> option (M A)) :
  appends body ->
  (forall e h, handler e = Some h -> appends h) ->
  appends (try_except body handler).
Proof.
  intros Hb Hh w. unfold try_except. specialize (Hb w).
  destruct (body w) as [[a | e] w1]; cbn in *; [exact Hb|].
  destruct (handler e) as [h|] eqn:E; [|exact Hb].
  eapply out_extends_trans; [exact Hb | apply (Hh e h E)].
Qed.

Lemma appends_emit (o : out_event) : appends (emit o).
Proof. intros w. exists [o]. reflexivity. Qed.

Lemma appends_print (s : string) : appends (print s).
Proof. apply appends_emit. Qed.

Lemma appends_sleep (z : Z) : appends (sleep z).
Proof. apply appends_emit. Qed.

Lemma appends_read_line : appends read_line.
Proof.
  intros w. unfold read_line.
  destruct (w_stdin w); exists []; symmetry; apply app_nil_r.
Qed.

Lemma appends_input (s : string) : appends (input s).
Proof.
  apply appends_bind; [apply appends_emit | intros; apply appends_read_line].
Qed.

Lemma appends_time_time : appends time_time.
Proof. intros w. exists []. symmetry. apply app_nil_r. Qed.

Lemma appends_datetime_now : appends datetime_now.
Proof. intros w. exists []. symmetry. apply app_nil_r. Qed.

Lemma appends_http_json u p t : appends (http_json u p t).
Proof. intros w. exists []. symmetry. apply app_nil_r. Qed.

Lemma appends_fromtimestamp t : appends (fromtimestamp t).
Proof. intros w. apply out_extends_refl. Qed.

Lemma appends_for_each {A : Type} (l : list A) (body : A -> M unit) :
  (forall a, appends (body a)) -> appends (for_each l body).
Proof.
  intros Hb. induction l as [|a l IH]; cbn.
  - apply appends_ret.
  - apply appends_bind; [apply Hb | intros; exact IH].
Qed.

Lemma appends_map_M {A B : Type} (f : A -> M B) (l : list A) :
  (forall a, appends (f a)) -> appends (map_M f l).
Proof.
  intros Hf. induction l as [|a l IH]; cbn.
  - apply appends_ret.
  - apply appends_bind; [apply Hf | intros].
    apply appends_bind; [exact IH | intros; apply appends_ret].
Qed.

Create HintDb appends discriminated.
#[export] Hint Resolve appends_ret appends_lift appends_emit appends_print
  appends_sleep appends_read_line appends_input appends_time_time
  appends_datetime_now appends_http_json appends_fromtimestamp : appends.

(** Decompose a program into its binds, branches and handlers. *)
Ltac appends_step :=
  match goal with
  | |- appends (bind _ _) => apply appends_bind; [|intro]
  | |- appends (try_except _ _) =>
      apply appends_try_except;
      [| let e := fresh "e" in let h := fresh "h" in let H := fresh "H" in
         intros e h H;
         repeat match type of H with
                | (if ?c then _ else _) = Some _ => destruct c
                end;
         first [discriminate H | injection H as <-]]
  | |- appends (for_each _ _) => apply appends_for_each; intro
  | |- appends (map_M _ _) => apply appends_map_M; intro
  | |- appends (match ?x with _ => _ end) => destruct x
  | |- appends (let '(_, _) := ?x in _) => destruct x
  | |- appends _ => solve [auto with appends]
  end.

Ltac appends_auto := repeat appends_step.

Lemma appends_get_alternative_price : appends _get_alternative_price.
Proof. unfold _get_alternative_price. appends_auto. Qed.

Lemma appends_get_current_price : appends get_current_price.
Proof.
  unfold get_current_price. appends_auto.
  apply appends_get_alternative_price.
Qed.

Lemma appends_get_historical_data (days : Z) :
  appends (get_historical_data days).
Proof. unfold get_historical_data. appends_auto. Qed.

Lemma appends_get_detailed_price_info : appends get_detailed_price_info.
Proof. unfold get_detailed_price_info. appends_auto. Qed.

#[export] Hint Resolve appends_get_alternative_price
  appends_get_current_price appends_get_historical_data
  appends_get_detailed_price_info : appends.

Lemma appends_show_basic : appends _show_basic_24h_price.
Proof. unfold _show_basic_24h_price. appends_auto. Qed.

Lemma appends_chart_row d mn rg i : appends (chart_row d mn rg i).
Proof. unfold chart_row. appends_auto. Qed.

Lemma appends_show_chart d : appends (show_chart d).
Proof.
  unfold show_chart. appends_auto; apply appends_chart_row.
Qed.

#[export] Hint Resolve appends_show_basic appends_show_chart : appends.

Lemma appends_field d k : appends (field d k).
Proof. apply appends_lift. Qed.
#[export] Hint Resolve appends_field : appends.

Lemma appends_show_detailed d : appends (show_detailed d).
Proof. unfold show_detailed. appends_auto. Qed.
#[export] Hint Resolve appends_show_detailed : appends.

Lemma appends_show_textual_24h_price : appends show_textual_24h_price.
Proof. unfold show_textual_24h_price. appends_auto. Qed.

(** Case analysis on whatever a run branches on. *)
Ltac run_cases :=
  repeat match goal with
         | |- context [match ?x with _ => _ end] =>
             lazymatch x with
             | context [match _ with _ => _ end] => fail
             | _ => destruct x eqn:?; cbn
             end
         end.

(** C5: for every positive number of days, [get_historical_data] picks the
    interval and the limit by the day range (15m/96 up to one day, 1h/168
    up to seven, 4h/180 up to thirty, 1d/min(days, 1000) beyond), the limit
    never exceeds 1000, and the request it issues carries that pair. *)
Theorem C5_interval_and_limit_by_day_range (days : Z) :
  0 < days ->
  (days <= 1 -> interval_and_limit days = ("15m", 96))
  /\ (1 < days <= 7 -> interval_and_limit days = ("1h", 168))
  /\ (7 < days <= 30 -> interval_and_limit days = ("4h", 180))
  /\ (30 < days -> interval_and_limit days = ("1d", Z.min days 1000))
  /\ snd (interval_and_limit days) <= 1000
  /\ forall w end_time,
       int_of_float (fmul (w_clock w (w_ticks w)) f1000) = Ok end_time ->
       w_requests (snd (get_historical_data days w))
       = (w_requests w ++ [klines_request days end_time])%list.
Proof.
  intros Hpos. unfold interval_and_limit.
  repeat split; intros.
  - destruct (Z.leb_spec days 1); [reflexivity | lia].
  - destruct (Z.leb_spec days 1); [lia|].
    destruct (Z.leb_spec days 7); [reflexivity | lia].
  - destruct (Z.leb_spec days 1); [lia|].
    destruct (Z.leb_spec days 7); [lia|].
    destruct (Z.leb_spec days 30); [reflexivity | lia].
  - destruct (Z.leb_spec days 1); [lia|].
    destruct (Z.leb_spec days 7); [lia|].
    destruct (Z.leb_spec days 30); [lia | reflexivity].
  - destruct (days <=? 1); [cbn; lia|].
    destruct (days <=? 7); [cbn; lia|].
    destruct (days <=? 30); cbn; lia.
  - unfold get_historical_data, klines_request, try_except, bind, time_time,
      lift, http_json, ret, print, emit.
    cbn. rewrite H. fold (interval_and_limit days).
    destruct (interval_and_limit days) as [interval limit]. cbn.
    run_cases; reflexivity.
Qed.

Lemma C5_witness :
  interval_and_limit 5 = ("1h", 168)
  /\ interval_and_limit 400 = ("1d", 400)
  /\ w_requests (snd (get_historical_data 5 (scripted [] [])))
     = [klines_request 5 1700000000000].
Proof.
  destruct (C5_interval_and_limit_by_day_range 5 ltac:(lia))
    as (_ & H7 & _ & _ & _ & Hreq).
  destruct (C5_interval_and_limit_by_day_range 400 ltac:(lia))
    as (_ & _ & _ & H400 & _).
  split; [apply H7; lia|]. split; [apply H400; lia|].
  apply (Hreq (scripted [] []) 1700000000000). vm_compute. reflexivity.
Defined.

Lemma f2_truthy : float_truthy f2 = true.
Proof. vm_compute. reflexivity. Qed.

Lemma py_truediv_f2 (x : pyfloat) : py_truediv x f2 = Ok (fdiv x f2).
Proof. unfold py_truediv. rewrite f2_truthy. reflexivity. Qed.

(** [_get_alternative_price] always returns. *)
Lemma get_alternative_price_returns (w : world) :
  exists r, fst (_get_alternative_price w) = Ok r.
Proof.
  unfold _get_alternative_price, try_except.
  match goal with
  | |- context [match ?b w with _ => _ end] => destruct (b w) as [[r | e] w1]
  end; cbn; eauto.
Qed.

Lemma get_alternative_price_dict (w : world) :
  match w_http w (List.length (w_requests w)) with
  | Ok (PDict _) | Raise _ =>
      fst (_get_alternative_price w)
      = Ok (alternative_of (w_http w (List.length (w_requests w))))
  | _ => True
  end.
Proof.
  unfold _get_alternative_price, try_except, bind, http_json, lift, ret,
    alternative_of.
  destruct (w_http w (List.length (w_requests w))) as [[| | | | | |d] | e];
    cbn; auto.
  destruct (lookup "lastPrice" d) as [v|]; cbn.
  - destruct (py_float v); reflexivity.
  - destruct (lookup "bidPrice" d) as [b|]; cbn; [|reflexivity].
    destruct (lookup "askPrice" d) as [a|]; cbn; [|reflexivity].
    destruct (py_float b) as [x|]; cbn; [|reflexivity].
    destruct (py_float a) as [y|]; cbn; [|reflexivity].
    rewrite py_truediv_f2. reflexivity.
Qed.

(** C3: [get_current_price] never raises; when its spot-price request
    fails with a network error, its result is derived from the 24h ticker
    (the float of [lastPrice] when the ticker has one, otherwise the
    midpoint of [bidPrice] and [askPrice]), and it is [None] when the
    fallback fails too. *)
Theorem C3_get_current_price_fallback (w : world) :
  let spot := w_http w (List.length (w_requests w)) in
  let ticker := w_http w (S (List.length (w_requests w))) in
  (exists r, fst (get_current_price w) = Ok r)
  /\ (forall e, spot = Raise e -> is_RequestException e = true ->
      (forall d v, ticker = Ok (PDict d) -> lookup "lastPrice" d = Some v ->
         fst (get_current_price w)
         = Ok (match py_float v with Ok x => Some x | Raise _ => None end))
      /\ (forall d b a, ticker = Ok (PDict d) ->
            lookup "lastPrice" d = None ->
            lookup "bidPrice" d = Some b -> lookup "askPrice" d = Some a ->
            fst (get_current_price w)
            = Ok (match py_float b, py_float a with
                  | Ok x, Ok y => Some (fdiv (fadd x y) f2)
                  | _, _ => None
                  end))
      /\ (forall e', ticker = Raise e' ->
            fst (get_current_price w) = Ok None)
      /\ (forall d, ticker = Ok (PDict d) ->
            lookup "lastPrice" d = None ->
            lookup "bidPrice" d = None \/ lookup "askPrice" d = None ->
            fst (get_current_price w) = Ok None)).
Proof.
  intros spot ticker. split.
  - unfold get_current_price, try_except.
    match goal with
    | |- context [match ?b w with _ => _ end] =>
        destruct (b w) as [[r | e] w1]
    end; cbn; [eauto|].
    destruct (is_RequestException e).
    + unfold bind, print, emit. cbn. apply get_alternative_price_returns.
    + destruct (is_KeyError e || is_ValueError e || is_JSONDecodeError e);
        cbn; eauto.
  - intros e Hspot Hreq.
    assert (forall t, ticker = t ->
              match t with Ok (PDict _) | Raise _ => True | _ => False end ->
              fst (get_current_price w) = Ok (alternative_of t)) as Halt.
    { intros t Ht Hshape.
      unfold get_current_price, try_except, bind at 1, http_json.
      fold spot. rewrite Hspot. cbn. rewrite Hreq.
      unfold bind, print, emit. cbn.
      match goal with
      | |- fst (_get_alternative_price ?w1) = _ =>
          pose proof (get_alternative_price_dict w1) as H1
      end.
      cbn in H1. rewrite length_app, Nat.add_comm in H1. cbn in H1.
      fold ticker in H1. rewrite Ht in *.
      destruct t as [[| | | | | |d] | e']; try contradiction; exact H1. }
    repeat split.
    + intros d v Ht Hl. rewrite (Halt _ Ht I). cbn. rewrite Hl. reflexivity.
    + intros d b a Ht Hl Hb Ha. rewrite (Halt _ Ht I). cbn.
      rewrite Hl, Hb, Ha. reflexivity.
    + intros e' Ht. rewrite (Halt _ Ht I). reflexivity.
    + intros d Ht Hl Hba. rewrite (Halt _ Ht I). cbn. rewrite Hl.
      destruct Hba as [-> | ->]; [reflexivity|].
      destruct (lookup "bidPrice" d); reflexivity.
Qed.

Lemma C3_witness :
  fst (get_current_price
         (scripted [network_down;
                    Ok (PDict [("bidPrice", PStr "64999.0");
                               ("askPrice", PStr "65001.0")])] []))
  = Ok (Some (float_of_Z 65000))
  /\ fst (get_current_price (scripted [] [])) = Ok None.
Proof.
  split.
  - destruct (C3_get_current_price_fallback
                (scripted [network_down;
                           Ok (PDict [("bidPrice", PStr "64999.0");
                                      ("askPrice", PStr "65001.0")])] []))
      as (_ & H).
    destruct (H (mk_exn RequestException "connection refused")
                eq_refl eq_refl) as (_ & Hmid & _).
    rewrite (Hmid _ (PStr "64999.0") (PStr "65001.0") eq_refl eq_refl
                  eq_refl eq_refl).
    vm_compute. reflexivity.
  - destruct (C3_get_current_price_fallback (scripted [] [])) as (_ & H).
    destruct (H (mk_exn RequestException "connection refused")
                eq_refl eq_refl) as (_ & _ & Hboth & _).
    exact (Hboth (mk_exn RequestException "connection refused") eq_refl).
Defined.

Lemma try_except_extends_body {A : Type} (body : M A)
    (handler : exn -> option (M A)) (w : world) :
  (forall e h, handler e = Some h -> appends h) ->
  out_extends (snd (body w)) (snd (try_except body handler w)).
Proof.
  intros Hh. unfold try_except.
  destruct (body w) as [[a | e] w1]; cbn; [apply out_extends_refl|].
  destruct (handler e) as [h|] eqn:E; [|apply out_extends_refl].
  apply (Hh e h E).
Qed.

Lemma bind_extends_head {A B : Type} (m : M A) (k : A -> M B) (w : world) :
  (forall a, appends (k a)) ->
  out_extends (snd (m w)) (snd (bind m k w)).
Proof.
  intros Hk. unfold bind.
  destruct (m w) as [[a | e] w1]; cbn; [apply Hk | apply out_extends_refl].
Qed.

Lemma variation_percentage_eq (variation base : pyfloat) :
  variation_percentage variation base
  = Ok (if float_truthy base
        then NFloat (fmul (fdiv variation base) f100)
        else NInt 0).
Proof.
  unfold variation_percentage, py_truediv.
  destruct (float_truthy base); reflexivity.
Qed.

Lemma get_detailed_price_info_ok (w : world) (data : pyval) :
  w_http w (List.length (w_requests w)) = Ok data ->
  exists w', get_detailed_price_info w = (Ok data, w').
Proof.
  intros H. unfold get_detailed_price_info, try_except, http_json.
  rewrite H. eexists. reflexivity.
Qed.

(** The 24h change line is on the screen once [show_detailed] has read its
    four prices. *)
Lemma show_detailed_change_line (data : pyval) (w : world)
    (last open high low : pyfloat) :
  read_field data "lastPrice" = Ok last ->
  read_field data "openPrice" = Ok open ->
  read_field data "highPrice" = Ok high ->
  read_field data "lowPrice" = Ok low ->
  let variation := fsub last open in
  let percentage :=
    if float_truthy open then NFloat (fmul (fdiv variation open) f100)
    else NInt 0 in
  In (Print (change_line "24h" variation percentage))
     (w_stdout (snd (show_detailed data w))).
Proof.
  intros Hl Ho Hh Hw variation percentage.
  unfold show_detailed, field.
  unfold bind at 1, lift at 1. rewrite Hl.
  unfold bind at 1, lift at 1. rewrite Ho.
  unfold bind at 1, lift at 1. rewrite Hh.
  unfold bind at 1, lift at 1. rewrite Hw.
  fold variation.
  unfold bind at 1, lift at 1. rewrite variation_percentage_eq.
  fold percentage.
  unfold bind at 1, print at 1, emit at 1.
  unfold bind at 1, print at 1, emit at 1.
  unfold bind at 1, print at 1, emit at 1.
  match goal with
  | |- In _ (w_stdout (snd (bind ?m ?k ?w1))) =>
      apply (out_extends_In (snd (m w1)));
        [apply bind_extends_head; intro; appends_auto|]
  end.
  unfold print, emit. cbn. apply in_or_app. right. left. reflexivity.
Qed.

(** C1, as the code has it: when the ticker response is a non-empty object
    whose [lastPrice], [openPrice], [highPrice] and [lowPrice] (each read as
    0 when absent) all convert to floats, the 24-hour analysis displays the
    variation [lastPrice - openPrice] and the percentage
    [variation / openPrice * 100], the percentage being the integer 0 when
    [openPrice] is zero. *)
Theorem C1_change_line_displayed (w : world) (data : pyval)
    (last open high low : pyfloat) :
  w_http w (List.length (w_requests w)) = Ok data ->
  truthy data = true ->
  read_field data "lastPrice" = Ok last ->
  read_field data "openPrice" = Ok open ->
  read_field data "highPrice" = Ok high ->
  read_field data "lowPrice" = Ok low ->
  let variation := fsub last open in
  let percentage :=
    if float_truthy open then NFloat (fmul (fdiv variation open) f100)
    else NInt 0 in
  In (Print (change_line "24h" variation percentage))
     (w_stdout (snd (show_textual_24h_price w)))
  /\ (forall s, open = Ffin s 0 -> percentage = NInt 0).
Proof.
  intros Hhttp Htruthy Hl Ho Hh Hw variation percentage. split.
  - unfold show_textual_24h_price.
    unfold bind at 1, print at 1, emit at 1.
    unfold bind at 1, print at 1, emit at 1.
    unfold bind at 1, print at 1, emit at 1.
    unfold bind at 1.
    match goal with
    | |- context [get_detailed_price_info ?w1] =>
        destruct (get_detailed_price_info_ok w1 data Hhttp) as [w2 ->]
    end.
    rewrite Htruthy.
    match goal with
    | |- In _ (w_stdout (snd (bind ?m ?k ?w1))) =>
        apply (out_extends_In (snd (m w1)));
          [apply bind_extends_head; intro; appends_auto|]
    end.
    match goal with
    | |- In _ (w_stdout (snd (try_except ?b ?h ?w1))) =>
        apply (out_extends_In (snd (b w1)));
          [apply try_except_extends_body|]
    end.
    + intros e h H.
      destruct (is_KeyError e || is_ValueError e); [|discriminate H].
      injection H as <-. appends_auto.
    + apply (show_detailed_change_line data _ last open high low); assumption.
  - intros s ->. reflexivity.
Qed.

(** Proving that an event is not among those of a concrete screen. *)
Ltac not_on_screen H :=
  repeat (destruct H as [H | H]; [discriminate H|]); exact H.

(** C1 fails as stated: with [lastPrice] 100 and [openPrice] 90 but a
    [highPrice] that is no number, the analysis falls back to the klines
    and displays their change, +1.00 (+100.00%), not +10.00 (+11.11%). *)
Lemma C1_counterexample :
  let w := scripted [Ok ticker_bad_high;
                     Ok (PList [candle 0 "1.0"; candle 900000 "2.0"])] [] in
  let variation := fsub (float_of_Z 100) (float_of_Z 90) in
  let percentage := NFloat (fmul (fdiv variation (float_of_Z 90)) f100) in
  read_field ticker_bad_high "lastPrice" = Ok (float_of_Z 100)
  /\ read_field ticker_bad_high "openPrice" = Ok (float_of_Z 90)
  /\ change_line "24h" variation percentage
     = "📊 24h Change: $+10.00 (+11.11%)"
  /\ ~ In (Print (change_line "24h" variation percentage))
          (w_stdout (snd (show_textual_24h_price w)))
  /\ In (Print "📊 24h Change: $+1.00 (+100.00%)")
        (w_stdout (snd (show_textual_24h_price w))).
Proof.
  cbv zeta.
  split; [vm_compute; reflexivity|].
  split; [vm_compute; reflexivity|].
  split; [vm_compute; reflexivity|].
  split.
  - intros H. vm_compute in H. not_on_screen H.
  - vm_compute. tauto.
Qed.

Lemma C1_witness :
  In (Print "📊 24h Change: $+10.00 (+11.11%)")
     (w_stdout (snd (show_textual_24h_price
                       (scripted [Ok ticker_good] [])))).
Proof.
  destruct (C1_change_line_displayed (scripted [Ok ticker_good] [])
              ticker_good (float_of_Z 100) (float_of_Z 90)
              (float_of_Z 101) (float_of_Z 89))
    as [H _]; try (vm_compute; reflexivity).
  exact H.
Defined.

Lemma nth_error_In_snd {A B : Type} (l : list (A * B)) (i : nat) (a : A)
    (b : B) :
  nth_error l i = Some (a, b) -> In b (map snd l).
Proof.
  intros H. apply nth_error_In in H.
  change b with (snd (a, b)). apply in_map. exact H.
Qed.

(** The chart loop prints one line per turn it completes, each with a
    height between 0 and 20. *)
Lemma chart_rows_bounded (data : list (pyval * pyfloat)) (p0 : pyfloat)
    (rest : list pyfloat) (idxs : list nat) :
  map snd data = p0 :: rest ->
  let mn := py_min p0 rest in
  let mx := py_max p0 rest in
  fgt (fsub mx mn) f0 = true ->
  forall w, exists rows,
    w_stdout (snd (for_each idxs (chart_row data mn (fsub mx mn)) w))
    = (w_stdout w ++ map entry_line rows)%list
    /\ Forall (fun r => 0 <= entry_height r <= 20) rows.
Proof.
  intros Hdata mn mx Hpos.
  induction idxs as [|i idxs IH]; intros w.
  - exists []. cbn. split; [symmetry; apply app_nil_r | constructor].
  - cbn [for_each]. unfold bind at 1, chart_row at 1.
    destruct (nth_error data i) as [[t p]|] eqn:Hnth.
    2:{ exists []. cbn. split; [symmetry; apply app_nil_r | constructor]. }
    unfold bind at 1, lift at 1.
    destruct (chart_height p mn (fsub mx mn)) as [h|e] eqn:Hh.
    2:{ exists []. cbn. split; [symmetry; apply app_nil_r | constructor]. }
    unfold bind at 1, lift at 1.
    destruct (py_div_1000 t) as [secs|e].
    2:{ exists []. cbn. split; [symmetry; apply app_nil_r | constructor]. }
    unfold bind at 1, fromtimestamp at 1.
    destruct (w_fromtimestamp w secs) as [date|e].
    2:{ exists []. cbn. split; [symmetry; apply app_nil_r | constructor]. }
    unfold print, emit.
    match goal with
    | |- context [for_each idxs _ ?w1] => destruct (IH w1) as (rows & E & Hb)
    end.
    exists ((strftime_HM date, h, p) :: rows). split.
    + rewrite E. cbn [w_stdout map entry_line]. rewrite <- app_assoc.
      reflexivity.
    + constructor; [|exact Hb]. cbn.
      apply (chart_height_of_prices p0 rest p h Hpos); [|exact Hh].
      rewrite <- Hdata. eapply nth_error_In_snd. exact Hnth.
Qed.



Lemma format_candles_iff (items : list pyval) (l : list (pyval * pyfloat)) :
  format_candles items = Ok l <-> candles_of items l.
Proof.
  split.
  - revert l. induction items as [|item rest IH]; intros l H; cbn in H.
    + injection H as <-. constructor.
    + destruct (py_len item) as [n|e] eqn:Hn; cbn in H; [|discriminate H].
      destruct (Z.leb_spec 6 n) as [Hge | Hlt].
      * destruct (py_getitem_nat item 0) as [t|] eqn:H0; cbn in H;
          [|discriminate H].
        destruct (py_getitem_nat item 4) as [c|] eqn:H4; cbn in H;
          [|discriminate H].
        destruct (py_float c) as [p|] eqn:Hp; cbn in H; [|discriminate H].
        destruct (format_candles rest) as [l'|] eqn:Hr; cbn in H;
          [|discriminate H].
        injection H as <-. eapply candles_keep; eauto.
      * eapply candles_skip; eauto.
  - induction 1 as [| item n rest l Hn Hlt _ IH
                    | item n t c p rest l Hn Hge H0 H4 Hp _ IH]; cbn.
    + reflexivity.
    + rewrite Hn. cbn. destruct (Z.leb_spec 6 n); [lia | exact IH].
    + rewrite Hn. cbn. destruct (Z.leb_spec 6 n); [|lia].
      rewrite H0. cbn. rewrite H4. cbn. rewrite Hp. cbn. rewrite IH.
      reflexivity.
Qed.

Lemma get_historical_data_returns (days : Z) (w : world) :
  exists r, fst (get_historical_data days w) = Ok r.
Proof.
  unfold get_historical_data, try_except.
  match goal with
  | |- context [match ?b w with _ => _ end] => destruct (b w) as [[r | e] w1]
  end; cbn; [eauto|].
  destruct (is_RequestException e);
    [| destruct (is_KeyError e || is_ValueError e || is_IndexError e
                 || is_JSONDecodeError e)];
    unfold bind, print, emit, ret; cbn; eauto.
Qed.

(** C6, as the code has it: [get_historical_data] always returns, and it
    returns a list exactly when the clock reading converts to an integer,
    the response decodes to something iterable, every item of at least six
    elements has an element 4 that converts to a float, and at least one
    such item exists; the list is then non-empty and holds the pair
    (element 0, float of element 4) of each such item, the shorter items
    being passed over.  In every other case it returns [None]. *)
Theorem C6_get_historical_data_result (days : Z) (w : world) :
  (exists r, fst (get_historical_data days w) = Ok r)
  /\ forall l,
       fst (get_historical_data days w) = Ok (Some l)
       <-> (l <> []
            /\ (exists t,
                  int_of_float (fmul (w_clock w (w_ticks w)) f1000) = Ok t)
            /\ exists data items,
                 w_http w (List.length (w_requests w)) = Ok data
                 /\ py_iter data = Ok items
                 /\ candles_of items l).
Proof.
  split; [apply get_historical_data_returns|].
  intros l.
  unfold get_historical_data, try_except, bind, time_time, lift, http_json,
    ret, print, emit.
  cbn [fst snd w_http w_requests w_clock w_ticks].
  destruct (int_of_float (fmul (w_clock w (w_ticks w)) f1000)) as [t|e] eqn:Ht.
  2:{ split.
      - intros H. exfalso. revert H. run_cases; discriminate.
      - intros (_ & (t & Hc) & _). discriminate Hc. }
  destruct (interval_and_limit days) as [interval limit].
  cbn [fst snd w_http w_requests].
  destruct (w_http w (List.length (w_requests w))) as [data|e] eqn:Hd.
  2:{ split.
      - intros H. exfalso. revert H. run_cases; discriminate.
      - intros (_ & _ & data & items & Hc & _). discriminate Hc. }
  destruct (py_iter data) as [items|e] eqn:Hi.
  2:{ split.
      - intros H. exfalso. revert H. run_cases; discriminate.
      - intros (_ & _ & data' & items & Hc & Hi' & _).
        injection Hc as <-. rewrite Hi in Hi'. discriminate Hi'. }
  destruct (format_candles items) as [l'|e] eqn:Hf.
  2:{ split.
      - intros H. exfalso. revert H. run_cases; discriminate.
      - intros (_ & _ & data' & items' & Hc & Hi' & Hl).
        injection Hc as <-. rewrite Hi in Hi'. injection Hi' as <-.
        apply format_candles_iff in Hl. rewrite Hf in Hl. discriminate Hl. }
  apply format_candles_iff in Hf.
  destruct l' as [|c l']; cbn [fst].
  - split; [discriminate|].
    intros (Hne & _ & data' & items' & Hc & Hi' & Hl).
    injection Hc as <-. rewrite Hi in Hi'. injection Hi' as <-.
    apply format_candles_iff in Hl, Hf. rewrite Hf in Hl.
    injection Hl as <-. contradiction.
  - split.
    + intros H. injection H as <-. split; [discriminate|].
      split; [eauto|]. exists data, items. auto.
    + intros (_ & _ & data' & items' & Hc & Hi' & Hl).
      injection Hc as <-. rewrite Hi in Hi'. injection Hi' as <-.
      apply format_candles_iff in Hl, Hf. rewrite Hf in Hl.
      injection Hl as <-. reflexivity.
Qed.

(** C6 fails as stated: a response with a truncated candle among its
    candles is malformed, yet a list is returned, the truncated candle
    being passed over; and a response whose candles are strings, not one of
    them well formed, can give a list as well. *)
Lemma C6_counterexample :
  let mixed := Ok (PList [truncated_candle; candle 1700000000000 "1.5"]) in
  let strings := Ok (PList [PStr "1234567"]) in
  ~ spec_well_formed_response mixed
  /\ fst (get_historical_data 1 (scripted [mixed] []))
     = Ok (Some [(PInt 1700000000000, fdiv (float_of_Z 3) f2)])
  /\ ~ spec_well_formed_candle (PStr "1234567")
  /\ fst (get_historical_data 1 (scripted [strings] []))
     = Ok (Some [(PStr "1", float_of_Z 5)]).
Proof.
  cbv zeta. split; [|split; [|split]].
  - intros (l & E & Hall). injection E as <-.
    apply Forall_inv in Hall.
    destruct Hall as (l & close & p & E & Hlen & _).
    injection E as <-. cbn in Hlen. lia.
  - vm_compute. reflexivity.
  - intros (l & close & p & E & _). discriminate E.
  - vm_compute. reflexivity.
Qed.

Lemma C6_witness :
  exists t data items,
    int_of_float (fmul (float_of_Z 1700000000) f1000) = Ok t
    /\ nth 0 [Ok (PList [truncated_candle; candle 1700000000000 "1.5"])]
           network_down = Ok data
    /\ py_iter data = Ok items
    /\ candles_of items [(PInt 1700000000000, fdiv (float_of_Z 3) f2)].
Proof.
  destruct (C6_get_historical_data_result 1
              (scripted [Ok (PList [truncated_candle;
                                    candle 1700000000000 "1.5"])] []))
    as [_ H].
  destruct (proj1 (H [(PInt 1700000000000, fdiv (float_of_Z 3) f2)]))
    as (_ & (t & Ht) & data & items & Hd & Hi & Hl).
  - vm_compute. reflexivity.
  - exists t, data, items. auto.
Defined.

Lemma after_io_after_io w evs1 s1 evs2 s2 :
  after_io (after_io w evs1 s1) evs2 s2 = after_io w (evs1 ++ evs2) s2.
Proof. unfold after_io. cbn. rewrite <- app_assoc. reflexivity. Qed.

Lemma print_after_io (s : string) (w : world) (evs : list out_event)
    (stdin : list string) :
  print s (after_io w evs stdin)
  = (Ok tt, after_io w (evs ++ [Print s]) stdin).
Proof. unfold print, emit, after_io. cbn. rewrite <- app_assoc. reflexivity. Qed.

Lemma input_after_io (p l : string) (w : world) (evs : list out_event)
    (stdin : list string) :
  input p (after_io w evs (l :: stdin))
  = (Ok l, after_io w (evs ++ [Prompt p]) stdin).
Proof.
  unfold input, bind, emit, read_line, after_io. cbn.
  rewrite <- app_assoc. reflexivity.
Qed.

Lemma world_as_after_io (w : world) : w = after_io w [] (w_stdin w).
Proof. destruct w. unfold after_io. cbn. rewrite app_nil_r. reflexivity. Qed.

Lemma bind_eq {A B : Type} (m : M A) (k : A -> M B) (w w1 : world) (a : A) :
  m w = (Ok a, w1) -> bind m k w = k a w1.
Proof. intros H. unfold bind. rewrite H. reflexivity. Qed.

(** *** One turn of the amount loop *)

Lemma amount_turn_accept (w : world) evs (s : string) rest (v : pyfloat) :
  float_of_string s = Ok v -> fle v f0 = false ->
  amount_turn (after_io w evs (s :: rest))
  = (Ok (Some v), after_io w (evs ++ [Prompt amount_prompt]) rest).
Proof.
  intros Hs Hv. unfold amount_turn, try_except.
  rewrite (bind_eq _ _ _ _ _ (input_after_io _ _ _ _ _)).
  unfold bind, lift. rewrite Hs, Hv. reflexivity.
Qed.

Lemma amount_turn_not_positive (w : world) evs (s : string) rest
    (v : pyfloat) :
  float_of_string s = Ok v -> fle v f0 = true ->
  amount_turn (after_io w evs (s :: rest))
  = (Ok None,
     after_io w (evs ++ [Prompt amount_prompt;
                         Print "Error: Amount must be greater than 0"])
              rest).
Proof.
  intros Hs Hv. unfold amount_turn, try_except.
  rewrite (bind_eq _ _ _ _ _ (input_after_io _ _ _ _ _)).
  unfold bind at 1, lift. rewrite Hs, Hv.
  rewrite (bind_eq _ _ _ _ _ (print_after_io _ _ _ _)).
  unfold ret. rewrite <- app_assoc. reflexivity.
Qed.

Lemma amount_turn_not_a_number (w : world) evs (s : string) rest :
  parse_float s = None ->
  amount_turn (after_io w evs (s :: rest))
  = (Ok None,
     after_io w (evs ++ [Prompt amount_prompt;
                         Print "Error: Enter a valid number"]) rest).
Proof.
  intros Hs. unfold amount_turn, try_except.
  rewrite (bind_eq _ _ _ _ _ (input_after_io _ _ _ _ _)).
  unfold bind at 1, lift, float_of_string. rewrite Hs.
  cbn [raise is_ValueError exn_cls].
  rewrite (bind_eq _ _ _ _ _ (print_after_io _ _ _ _)).
  unfold ret. rewrite <- app_assoc. reflexivity.
Qed.

Lemma amount_turn_eof (w : world) evs :
  amount_turn (after_io w evs [])
  = (raise EOFError "EOF when reading a line",
     after_io w (evs ++ [Prompt amount_prompt]) []).
Proof.
  unfold amount_turn, try_except, bind, input, bind, emit, read_line,
    after_io. cbn. rewrite <- app_assoc. reflexivity.
Qed.

(** The loop accepts the first line it reads when that line is the text of
    a float [v] for which [v <= 0] is false. *)
Lemma read_amount_accept (w : world) evs (s : string) rest (v : pyfloat) :
  float_of_string s = Ok v -> fle v f0 = false ->
  read_amount (after_io w evs (s :: rest))
  = (Ok v, after_io w (evs ++ [Prompt amount_prompt]) rest).
Proof.
  intros Hs Hv. unfold read_amount. cbn [w_stdin after_io amount_loop].
  fold (after_io w evs (s :: rest)).
  rewrite (bind_eq _ _ _ _ _ (amount_turn_accept _ _ _ _ _ Hs Hv)).
  reflexivity.
Qed.

Lemma show_conversion_total (w : world) evs (s : string) rest
    (v price : pyfloat) :
  float_of_string s = Ok v -> fle v f0 = false ->
  In (Print (total_line (fmul v price)))
     (w_stdout (snd (show_conversion price (after_io w evs (s :: rest))))).
Proof.
  intros Hs Hv. unfold show_conversion.
  rewrite (bind_eq _ _ _ _ _ (read_amount_accept _ _ _ _ _ Hs Hv)).
  repeat rewrite (bind_eq _ _ _ _ _ (print_after_io _ _ _ _)).
  match goal with
  | |- In _ (w_stdout (snd (?m ?w1))) =>
      apply (out_extends_In w1);
        [assert (appends m) as Hm by appends_auto; apply Hm|]
  end.
  cbn [after_io w_stdout].
  apply in_or_app. right.
  repeat (apply in_or_app; first [right; left; reflexivity | left]).
Qed.

Lemma choose_price_unavailable (price : option pyfloat) :
  price_unavailable price -> choose_price price = choose_price None.
Proof.
  destruct price as [p|]; cbn; intros H; [|reflexivity].
  unfold choose_price. rewrite H. reflexivity.
Qed.

Lemma choose_price_manual (price : option pyfloat) (w : world) evs
    (answer typed : string) rest (p : pyfloat) :
  price_unavailable price ->
  lower answer <> "y" ->
  float_of_string typed = Ok p ->
  choose_price price (after_io w evs (answer :: typed :: rest))
  = (Ok p, after_io w (evs ++ unavailable_notice ++ [manual_prompt]) rest).
Proof.
  intros Hprice Hans Htyped.
  apply String.eqb_neq in Hans.
  rewrite (choose_price_unavailable price Hprice).
  unfold choose_price.
  repeat rewrite (bind_eq _ _ _ _ _ (print_after_io _ _ _ _)).
  rewrite (bind_eq _ _ _ _ _ (input_after_io _ _ _ _ _)).
  rewrite Hans. unfold try_except.
  rewrite (bind_eq _ _ _ _ _ (input_after_io _ _ _ _ _)).
  unfold lift. rewrite Htyped. unfold unavailable_notice, manual_prompt.
  rewrite <- !app_assoc. reflexivity.
Qed.

Lemma choose_price_invalid (price : option pyfloat) (w : world) evs
    (answer typed : string) rest :
  price_unavailable price ->
  lower answer <> "y" ->
  parse_float typed = None ->
  choose_price price (after_io w evs (answer :: typed :: rest))
  = (Ok f50000,
     after_io w (evs ++ unavailable_notice
                 ++ [manual_prompt;
                     Print "Invalid price. Using $50,000 as default."])
              rest).
Proof.
  intros Hprice Hans Htyped.
  apply String.eqb_neq in Hans.
  rewrite (choose_price_unavailable price Hprice).
  unfold choose_price.
  repeat rewrite (bind_eq _ _ _ _ _ (print_after_io _ _ _ _)).
  rewrite (bind_eq _ _ _ _ _ (input_after_io _ _ _ _ _)).
  rewrite Hans. unfold try_except.
  rewrite (bind_eq _ _ _ _ _ (input_after_io _ _ _ _ _)).
  unfold lift, float_of_string. rewrite Htyped.
  cbn [raise is_ValueError exn_cls].
  rewrite (bind_eq _ _ _ _ _ (print_after_io _ _ _ _)).
  unfold ret, unavailable_notice, manual_prompt.
  rewrite <- !app_assoc. reflexivity.
Qed.

Lemma run_from_stdin {A : Type} (m : M A) (w : world) (stdin : list string) :
  w_stdin w = stdin -> m w = m (after_io w [] stdin).
Proof. intros <-. rewrite <- world_as_after_io. reflexivity. Qed.

(** C9: the amount loop accepts a line that is the text of a float [v] for
    which [v <= 0] is false, and the total displayed is then [v] times the
    price; ["nan"] and ["inf"] are such lines, and their totals are NaN or
    an infinity. *)
Theorem C9_amount_accepted_unless_le_zero :
  (forall (w : world) (s : string) (rest : list string) (v : pyfloat),
     w_stdin w = s :: rest ->
     float_of_string s = Ok v ->
     fle v f0 = false ->
     fst (read_amount w) = Ok v
     /\ w_stdin (snd (read_amount w)) = rest
     /\ forall price,
          In (Print (total_line (fmul v price)))
             (w_stdout (snd (show_conversion price w))))
  /\ (float_of_string "nan" = Ok Fnan /\ fle Fnan f0 = false)
  /\ (float_of_string "inf" = Ok (Finf false) /\ fle (Finf false) f0 = false)
  /\ (forall price, fmul Fnan price = Fnan)
  /\ (forall price,
        fmul (Finf false) price = Fnan
        \/ exists s, fmul (Finf false) price = Finf s).
Proof.
  split; [|split; [|split; [|split]]].
  - intros w s rest v Hin Hs Hv.
    rewrite (run_from_stdin read_amount w _ Hin).
    rewrite (read_amount_accept w [] s rest v Hs Hv).
    split; [reflexivity|]. split; [reflexivity|].
    intros price. rewrite (run_from_stdin (show_conversion price) w _ Hin).
    apply show_conversion_total; assumption.
  - split; vm_compute; reflexivity.
  - split; vm_compute; reflexivity.
  - intros price. reflexivity.
  - intros [|s|s u]; unfold fmul; [left; reflexivity | right; eauto |].
    destruct (u =? 0); [left; reflexivity | right; eauto].
Qed.

Lemma C9_witness :
  fst (read_amount (scripted [] ["nan"])) = Ok Fnan
  /\ In (Print (total_line Fnan))
        (w_stdout (snd (show_conversion f50000 (scripted [] ["nan"])))).
Proof.
  destruct C9_amount_accepted_unless_le_zero as (H & _).
  destruct (H (scripted [] ["nan"]) "nan" [] Fnan eq_refl)
    as (H1 & _ & H3); try (vm_compute; reflexivity).
  split; [exact H1 | exact (H3 f50000)].
Defined.

(** C10: with the current price unavailable and the reference price
    declined, a manual entry that is not the text of a float is not asked
    for again: the price becomes 50000.0, the only lines read are the
    answer and the entry, and the conversion goes on with that price. *)
Theorem C10_invalid_manual_price_defaults (price : option pyfloat)
    (w : world) (answer typed : string) (rest : list string) :
  price_unavailable price ->
  w_stdin w = answer :: typed :: rest ->
  lower answer <> "y" ->
  parse_float typed = None ->
  fst (choose_price price w) = Ok f50000
  /\ w_stdin (snd (choose_price price w)) = rest
  /\ w_stdout (snd (choose_price price w))
     = (w_stdout w ++ unavailable_notice
        ++ [manual_prompt; Print "Invalid price. Using $50,000 as default."])%list
  /\ forall amount rest' v,
       rest = amount :: rest' ->
       float_of_string amount = Ok v -> fle v f0 = false ->
       In (Print (total_line (fmul v f50000)))
          (w_stdout (snd ((price_btc <- choose_price price ;;
                           show_conversion price_btc) w))).
Proof.
  intros Hprice Hin Hans Htyped.
  rewrite (run_from_stdin (choose_price price) w _ Hin).
  rewrite (choose_price_invalid price w [] answer typed rest
             Hprice Hans Htyped).
  split; [reflexivity|]. split; [reflexivity|]. split; [reflexivity|].
  intros amount rest' v -> Hs Hv.
  rewrite (run_from_stdin (bind _ _) w _ Hin).
  rewrite (bind_eq _ _ _ _ _
             (choose_price_invalid price w [] answer typed _
                Hprice Hans Htyped)).
  apply show_conversion_total; assumption.
Qed.

Lemma C10_witness :
  fst (choose_price None (scripted [] ["n"; "abc"; "2"])) = Ok f50000
  /\ In (Print (total_line (float_of_Z 100000)))
        (w_stdout (snd ((price_btc <- choose_price None ;;
                         show_conversion price_btc)
                          (scripted [] ["n"; "abc"; "2"])))).
Proof.
  destruct (C10_invalid_manual_price_defaults None
              (scripted [] ["n"; "abc"; "2"]) "n" "abc" ["2"] I eq_refl)
    as (H1 & _ & _ & H4); try (vm_compute; reflexivity).
  - discriminate.
  - split; [exact H1|].
    apply (H4 "2" [] (float_of_Z 2) eq_refl); vm_compute; reflexivity.
Defined.

(** C8: when [get_current_price] returns [None], the converter asks for a
    manual price once the reference price is declined, and takes the
    decimal typed as the price of the conversion. *)
Theorem C8_manual_price_entry (w w1 : world) (answer typed amount : string)
    (rest : list string) (p a : pyfloat) :
  get_current_price (snd (converter_banner w)) = (Ok None, w1) ->
  w_stdin w1 = answer :: typed :: amount :: rest ->
  lower answer <> "y" ->
  float_of_string typed = Ok p ->
  float_of_string amount = Ok a ->
  fle a f0 = false ->
  fst (choose_price None w1) = Ok p
  /\ In manual_prompt (w_stdout (snd (convert_bitcoin_to_usd w)))
  /\ In (Print (total_line (fmul a p)))
        (w_stdout (snd (convert_bitcoin_to_usd w))).
Proof.
  intros Hprice Hin Hans Htyped Hamount Hpos.
  assert (choose_price None w1
          = (Ok p, after_io w1 ([] ++ unavailable_notice ++ [manual_prompt])
                            (amount :: rest))) as Hchoose.
  { rewrite (run_from_stdin (choose_price None) w1 _ Hin).
    apply choose_price_manual; [exact I | assumption | assumption]. }
  split; [rewrite Hchoose; reflexivity|].
  assert (convert_bitcoin_to_usd w
          = show_conversion p
              (after_io w1 ([] ++ unavailable_notice ++ [manual_prompt])
                        (amount :: rest))) as Hrun.
  { unfold convert_bitcoin_to_usd. unfold bind at 1.
    destruct (converter_banner w) as [[[] | e] w0] eqn:Hb.
    - cbn [snd] in Hprice.
      rewrite (bind_eq _ _ _ _ _ Hprice).
      rewrite (bind_eq _ _ _ _ _ Hchoose). reflexivity.
    - exfalso. revert Hb. unfold converter_banner, bind, print, emit.
      discriminate. }
  rewrite Hrun. split.
  - match goal with
    | |- In _ (w_stdout (snd (?m ?w2))) =>
        apply (out_extends_In w2)
    end.
    + assert (appends (show_conversion p)) as Hm.
      { unfold show_conversion. appends_auto.
        intros w'. unfold read_amount.
        assert (forall l, appends (amount_loop l)) as Hl.
        { induction l as [|x l IH]; cbn [amount_loop]; appends_auto;
            unfold amount_turn; appends_auto. }
        apply Hl. }
      apply Hm.
    + cbn. apply in_or_app. right. repeat (first [left; reflexivity | right]).
  - apply show_conversion_total; assumption.
Qed.

Lemma C8_witness :
  In (Print (total_line (float_of_Z 128001)))
     (w_stdout (snd (convert_bitcoin_to_usd
                       (scripted [] ["n"; "64000.5"; "2"; ""])))).
Proof.
  destruct (C8_manual_price_entry
              (scripted [] ["n"; "64000.5"; "2"; ""])
              (snd (get_current_price
                      (snd (converter_banner
                              (scripted [] ["n"; "64000.5"; "2"; ""])))))
              "n" "64000.5" "2" [""]
              (fdiv (float_of_Z 128001) f2) (float_of_Z 2))
    as (_ & _ & H); try (vm_compute; reflexivity).
  - discriminate.
  - exact H.
Defined.

(** *** The float model against the hardware

    On these operands the operations of the model return what Rocq's
    primitive binary64 operations return. *)

Example fmul_agrees_with_hardware :
  fmul (of_prim 0x1.fbd03f35ba212p+15%float) (of_prim 0.5%float)
  = of_prim (0x1.fbd03f35ba212p+15 * 0.5)%float
  /\ fmul (of_prim 0x1.1c1e6a3b7c2d9p+1023%float) (of_prim 16%float)
     = of_prim (0x1.1c1e6a3b7c2d9p+1023 * 16)%float
  /\ fmul (of_prim 0x1.1c1e6a3b7c2d9p-1000%float)
          (of_prim 0x1.0000000000003p-60%float)
     = of_prim (0x1.1c1e6a3b7c2d9p-1000 * 0x1.0000000000003p-60)%float.
Proof. split; [|split]; vm_compute; reflexivity. Qed.

Example fdiv_agrees_with_hardware :
  fdiv (of_prim 1%float) (of_prim 3%float) = of_prim (1 / 3)%float
  /\ fdiv (of_prim 0x1.d6f3454p+26%float) (of_prim 0x1.5d2e3a1b2c3d4p-12%float)
     = of_prim (0x1.d6f3454p+26 / 0x1.5d2e3a1b2c3d4p-12)%float
  /\ fdiv (of_prim 0x1.1c1e6a3b7c2d9p-1020%float) (of_prim 1024%float)
     = of_prim (0x1.1c1e6a3b7c2d9p-1020 / 1024)%float.
Proof. split; [|split]; vm_compute; reflexivity. Qed.

Example fadd_fsub_agree_with_hardware :
  fadd (of_prim 0x1.999999999999ap-4%float) (of_prim 0x1.999999999999ap-3%float)
  = of_prim (0x1.999999999999ap-4 + 0x1.999999999999ap-3)%float
  /\ fsub (of_prim 0x1.999999999999ap-4%float)
          (of_prim 0x1.3333333333333p-2%float)
     = of_prim (0x1.999999999999ap-4 - 0x1.3333333333333p-2)%float
  /\ fadd (of_prim 0x1.fffffffffffffp+1023%float)
          (of_prim 0x1p+970%float)
     = of_prim (0x1.fffffffffffffp+1023 + 0x1p+970)%float.
Proof. split; [|split]; vm_compute; reflexivity. Qed.

Example parse_float_agrees_with_hardware :
  parse_float "65000.12345678" = Some (of_prim 0x1.fbd03f35ba212p+15%float)
  /\ parse_float " 1_000.5e-3 " = Some (of_prim 0x1.0020c49ba5e35p+0%float)
  /\ parse_float "-1e400" = Some (of_prim neg_infinity)
  /\ parse_float "4.9e-324" = Some (of_prim 0x1p-1074%float).
Proof. split; [|split; [|split]]; vm_compute; reflexivity. Qed.

(** [float()] beyond ASCII: the decimal digits of other scripts count with
    their values, white space of any kind is stripped at both ends, and any
    other character is refused, with the text quoted as [repr] does. *)
Example float_of_string_beyond_ascii :
  float_of_string "١٢٣" = Ok (float_of_Z 123)
  /\ float_of_string "１２.５" = float_of_string "12.5"
  /\ float_of_string (String "194" (String "160" "7")
                        ++ String "227" (String "128" (String "128" "")))
     = float_of_string "7"
  /\ float_of_string "5€"
     = raise ValueError "could not convert string to float: '5€'"
  /\ float_of_string "it's"
     = raise ValueError ("could not convert string to float: "
                         ++ String dquote "it's" ++ String dquote "").
Proof. repeat split; vm_compute; reflexivity. Qed.

(** *** The converter on concrete sessions *)

(** C7: with the current price 65,000.12345678 and the amount 0.5, the
    converter holds the exact product (half the price, no rounding) and
    displays it rounded to cents: a total value of $32,500.06. *)
Theorem C7_example_conversion :
  exists price amount u,
    float_of_string "65000.12345678" = Ok price
    /\ float_of_string "0.5" = Ok amount
    /\ price = Ffin false (2 * u)
    /\ fmul amount price = Ffin false u
    /\ fmul amount price = of_prim (0x1.fbd03f35ba212p+15 * 0.5)%float
    /\ fmt_money (fmul amount price) = "32,500.06"
    /\ In (Print (BTC ++ "💵 Total value: $32,500.06 USD " ++ reset))
          (w_stdout
             (snd (convert_bitcoin_to_usd
                     (scripted [Ok (PDict [("price", PStr "65000.12345678")])]
                               ["0.5"; ""])))).
Proof.
  exists (match parse_float "65000.12345678" with Some x => x | None => Fnan end).
  exists (match parse_float "0.5" with Some x => x | None => Fnan end).
  exists (match parse_float "32500.06172839" with
          | Some (Ffin _ u) => u
          | _ => 0
          end).
  do 6 (split; [vm_compute; reflexivity|]).
  vm_compute. repeat (first [left; reflexivity | right]).
Qed.

(** C2 on the entry ["nan"]: the loop leaves with NaN as the amount after
    reading that one line, although NaN is not greater than 0, and the
    converter displays a total of $nan. *)
Theorem C2_nan_amount_accepted :
  let w := scripted [Ok (PDict [("price", PStr "65000.12345678")])]
                    ["nan"; ""] in
  float_of_string "nan" = Ok Fnan
  /\ fgt Fnan f0 = false
  /\ fst (read_amount w) = Ok Fnan
  /\ w_stdin (snd (read_amount w)) = [""]
  /\ w_stdout (snd (read_amount w)) = [Prompt amount_prompt]
  /\ fst (convert_bitcoin_to_usd w) = Ok tt
  /\ In (Print (BTC ++ "💵 Total value: $nan USD " ++ reset))
        (w_stdout (snd (convert_bitcoin_to_usd w))).
Proof.
  cbv zeta. do 6 (split; [vm_compute; reflexivity|]).
  vm_compute. repeat (first [left; reflexivity | right]).
Qed.

(** *** Computations that keep a relation between the worlds *)

Section Respects.

Variable R : world -> world -> Prop.
Hypothesis R_refl : forall w, R w w.
Hypothesis R_trans : forall w1 w2 w3, R w1 w2 -> R w2 w3 -> R w1 w3.

Lemma respects_ret {A : Type} (a : A) : respects R (ret a).
Proof. intros w. apply R_refl. Qed.

Lemma respects_lift {A : Type} (r : result A) : respects R (lift r).
Proof. intros w. apply R_refl. Qed.

Lemma respects_bind {A B : Type} (m : M A) (k : A -> M B) :
  respects R m -> (forall a, respects R (k a)) -> respects R (bind m k).
Proof.
  intros Hm Hk w. unfold bind. specialize (Hm w).
  destruct (m w) as [[a | e] w1]; cbn in *; [|exact Hm].
  eapply R_trans; [exact Hm | apply Hk].
Qed.

Lemma respects_try_except {A : Type} (body : M A)
    (handler : exn -> option (M A)) :
  respects R body ->
  (forall e h, handler e = Some h -> respects R h) ->
  respects R (try_except body handler).
Proof.
  intros Hb Hh w. unfold try_except. specialize (Hb w).
  destruct (body w) as [[a | e] w1]; cbn in *; [exact Hb|].
  destruct (handler e) as [h|] eqn:E; [|exact Hb].
  eapply R_trans; [exact Hb | apply (Hh e h E)].
Qed.

Lemma respects_for_each {A : Type} (l : list A) (body : A -> M unit) :
  (forall a, respects R (body a)) -> respects R (for_each l body).
Proof.
  intros Hb. induction l as [|a l IH]; cbn.
  - apply respects_ret.
  - apply respects_bind; [apply Hb | intros; exact IH].
Qed.

Lemma respects_map_M {A B : Type} (f : A -> M B) (l : list A) :
  (forall a, respects R (f a)) -> respects R (map_M f l).
Proof.
  intros Hf. induction l as [|a l IH]; cbn.
  - apply respects_ret.
  - apply respects_bind; [apply Hf | intros].
    apply respects_bind; [exact IH | intros; apply respects_ret].
Qed.

End Respects.

(** Decompose a program into its binds, branches and handlers, leaving the
    primitive effects to [prim]. *)
Ltac respects_with refl trans prim :=
  repeat match goal with
  | |- respects _ (bind _ _) => apply (respects_bind _ trans); [|intro]
  | |- respects _ (try_except _ _) =>
      apply (respects_try_except _ trans);
      [| let e := fresh "e" in let h := fresh "h" in let H := fresh "H" in
         intros e h H;
         repeat match type of H with
                | (if ?c then _ else _) = Some _ => destruct c
                end;
         first [discriminate H | injection H as <-]]
  | |- respects _ (for_each _ _) => apply (respects_for_each _ refl trans); intro
  | |- respects _ (map_M _ _) => apply (respects_map_M _ refl trans); intro
  | |- respects _ (ret _) => apply (respects_ret _ refl)
  | |- respects _ (lift _) => apply (respects_lift _ refl)
  | |- respects _ (field _ _) => apply (respects_lift _ refl)
  | |- respects _ (match ?x with _ => _ end) => destruct x
  | |- respects _ _ => solve [prim]
  end.

(** *** Computations that read no input *)

Lemma same_stdin_refl (w : world) : same_stdin w w.
Proof. reflexivity. Qed.

Lemma same_stdin_trans (w1 w2 w3 : world) :
  same_stdin w1 w2 -> same_stdin w2 w3 -> same_stdin w1 w3.
Proof. unfold same_stdin. congruence. Qed.

Create HintDb reads_nothing discriminated.

Lemma reads_nothing_emit (o : out_event) : respects same_stdin (emit o).
Proof. intros w. reflexivity. Qed.

Lemma reads_nothing_print (s : string) : respects same_stdin (print s).
Proof. intros w. reflexivity. Qed.

Lemma reads_nothing_sleep (z : Z) : respects same_stdin (sleep z).
Proof. intros w. reflexivity. Qed.

Lemma reads_nothing_time_time : respects same_stdin time_time.
Proof. intros w. reflexivity. Qed.

Lemma reads_nothing_datetime_now : respects same_stdin datetime_now.
Proof. intros w. reflexivity. Qed.

Lemma reads_nothing_http_json u p t : respects same_stdin (http_json u p t).
Proof. intros w. reflexivity. Qed.

Lemma reads_nothing_fromtimestamp t : respects same_stdin (fromtimestamp t).
Proof. intros w. reflexivity. Qed.

#[export] Hint Resolve reads_nothing_emit reads_nothing_print
  reads_nothing_sleep reads_nothing_time_time reads_nothing_datetime_now
  reads_nothing_http_json reads_nothing_fromtimestamp : reads_nothing.

Ltac reads_nothing :=
  respects_with same_stdin_refl same_stdin_trans
                ltac:(auto with reads_nothing).

Lemma reads_nothing_get_alternative_price :
  respects same_stdin _get_alternative_price.
Proof. unfold _get_alternative_price. reads_nothing. Qed.
#[export] Hint Resolve reads_nothing_get_alternative_price : reads_nothing.

Lemma reads_nothing_get_current_price : respects same_stdin get_current_price.
Proof. unfold get_current_price. reads_nothing. Qed.

Lemma reads_nothing_get_historical_data (days : Z) :
  respects same_stdin (get_historical_data days).
Proof.
  unfold get_historical_data. reads_nothing.
Qed.

Lemma reads_nothing_get_detailed_price_info :
  respects same_stdin get_detailed_price_info.
Proof. unfold get_detailed_price_info. reads_nothing. Qed.

#[export] Hint Resolve reads_nothing_get_current_price
  reads_nothing_get_historical_data reads_nothing_get_detailed_price_info
  : reads_nothing.

Lemma reads_nothing_show_basic : respects same_stdin _show_basic_24h_price.
Proof. unfold _show_basic_24h_price. reads_nothing. Qed.

Lemma reads_nothing_chart_row d mn rg i :
  respects same_stdin (chart_row d mn rg i).
Proof. unfold chart_row. reads_nothing. Qed.
#[export] Hint Resolve reads_nothing_show_basic reads_nothing_chart_row
  : reads_nothing.

Lemma reads_nothing_show_chart d : respects same_stdin (show_chart d).
Proof. unfold show_chart. reads_nothing. Qed.
#[export] Hint Resolve reads_nothing_show_chart : reads_nothing.

Lemma reads_nothing_show_detailed d : respects same_stdin (show_detailed d).
Proof. unfold show_detailed. reads_nothing. Qed.
#[export] Hint Resolve reads_nothing_show_detailed : reads_nothing.

Lemma reads_nothing_show_textual_24h_price :
  respects same_stdin show_textual_24h_price.
Proof. unfold show_textual_24h_price. reads_nothing. Qed.

(** *** Computations that never raise *)

Lemma returns_ret {A : Type} (a : A) : returns (ret a).
Proof. intros w. eexists. reflexivity. Qed.

Lemma returns_bind {A B : Type} (m : M A) (k : A -> M B) :
  returns m -> (forall a, returns (k a)) -> returns (bind m k).
Proof.
  intros Hm Hk w. unfold bind. destruct (Hm w) as [a Ha].
  destruct (m w) as [[a' | e] w1]; cbn in Ha; [|discriminate Ha].
  apply Hk.
Qed.

(** A [try] whose clauses catch everything and do not raise themselves. *)
Lemma returns_try_except {A : Type} (body : M A)
    (handler : exn -> option (M A)) :
  (forall e, exists h, handler e = Some h /\ returns h) ->
  returns (try_except body handler).
Proof.
  intros Hh w. unfold try_except.
  destruct (body w) as [[a | e] w1]; [eexists; reflexivity|].
  destruct (Hh e) as (h & -> & Hr). apply Hr.
Qed.

Lemma returns_emit (o : out_event) : returns (emit o).
Proof. intros w. eexists. reflexivity. Qed.

Lemma returns_print (s : string) : returns (print s).
Proof. apply returns_emit. Qed.

Lemma returns_get_alternative_price : returns _get_alternative_price.
Proof.
  unfold _get_alternative_price. apply returns_try_except.
  intros e. eexists. split; [reflexivity | apply returns_ret].
Qed.

Lemma returns_get_current_price : returns get_current_price.
Proof.
  unfold get_current_price. apply returns_try_except. intros e.
  destruct (is_RequestException e);
    [| destruct (is_KeyError e || is_ValueError e || is_JSONDecodeError e)];
    eexists; (split; [reflexivity|]);
    (apply returns_bind; [apply returns_print | intros _]);
    first [apply returns_get_alternative_price | apply returns_ret].
Qed.

Lemma returns_get_historical_data (days : Z) :
  returns (get_historical_data days).
Proof.
  unfold get_historical_data. apply returns_try_except. intros e.
  destruct (is_RequestException e);
    [| destruct (is_KeyError e || is_ValueError e || is_IndexError e
                 || is_JSONDecodeError e)];
    eexists; (split; [reflexivity|]);
    (apply returns_bind; [apply returns_print | intros _]);
    apply returns_ret.
Qed.

Lemma returns_get_detailed_price_info : returns get_detailed_price_info.
Proof.
  unfold get_detailed_price_info. apply returns_try_except.
  intros e. eexists. split; [reflexivity | apply returns_ret].
Qed.

Lemma returns_lift_ok {A : Type} (r : result A) (a : A) :
  r = Ok a -> returns (lift r).
Proof. intros -> w. eexists. reflexivity. Qed.

Lemma returns_show_basic : returns _show_basic_24h_price.
Proof.
  unfold _show_basic_24h_price.
  apply returns_bind; [apply returns_get_historical_data | intros data].
  assert (returns (print "Could not get historical data." ;;
                   current_price <- get_current_price ;;
                   match current_price with
                   | Some p =>
                       if float_truthy p then
                         print (nl ++ " " ++ BTC ++ " 💰 Current price: $"
                                ++ fmt_money p ++ reset)
                       else ret tt
                   | None => ret tt
                   end)) as Hnone.
  { apply returns_bind; [apply returns_print | intros _].
    apply returns_bind; [apply returns_get_current_price | intros [p|]];
      [destruct (float_truthy p)|];
      first [apply returns_print | apply returns_ret]. }
  destruct data as [[|[t0 p0] rest]|]; try exact Hnone.
  apply returns_bind.
  - eapply returns_lift_ok. apply variation_percentage_eq.
  - intros pct. repeat (apply returns_bind; [apply returns_print | intros _]).
    apply returns_print.
Qed.

(** ** Further properties of the price service *)

(** What the conversions raise is never a network error. *)
Lemma py_float_not_network (v : pyval) (e : exn) :
  py_float v = Raise e -> is_RequestException e = false.
Proof.
  destruct v; cbn; try (intros H; injection H as <-; reflexivity);
    try discriminate.
  - unfold float_of_int. destruct (float_of_Z z); try discriminate.
    intros H; injection H as <-; reflexivity.
  - unfold float_of_string. destruct (parse_float s); try discriminate.
    intros H; injection H as <-; reflexivity.
Qed.

Lemma py_contains_not_network (k : string) (v : pyval) (e : exn) :
  py_contains k v = Raise e -> is_RequestException e = false.
Proof.
  destruct v; cbn; try (intros H; injection H as <-; reflexivity);
    discriminate.
Qed.

Lemma py_getitem_str_not_network (v : pyval) (k : string) (e : exn) :
  py_getitem_str v k = Raise e -> is_RequestException e = false.
Proof.
  destruct v; cbn; try (intros H; injection H as <-; reflexivity);
    try discriminate.
  destruct (lookup k d); [discriminate|].
  intros H; injection H as <-; reflexivity.
Qed.

(** X1: [get_current_price] reads no input and issues one request, for the
    spot price; it issues a second one, for the 24h ticker, exactly when
    the first fails with a network error.  There is no other retry. *)
Theorem get_current_price_requests (w : world) :
  let spot := w_http w (List.length (w_requests w)) in
  w_stdin (snd (get_current_price w)) = w_stdin w
  /\ w_requests (snd (get_current_price w))
     = (w_requests w
        ++ spot_request
           :: (if network_failure spot then [ticker_request] else []))%list.
Proof.
  intros spot. split; [apply reads_nothing_get_current_price|].
  unfold get_current_price, _get_alternative_price, try_except, bind,
    http_json, lift, ret, print, emit, network_failure, spot.
  cbn [fst snd w_http w_requests].
  destruct (w_http w (List.length (w_requests w))) as [data | e].
  - destruct (py_contains "price" data) as [[|] | e] eqn:Hc; cbn.
    + destruct (py_getitem_str data "price") as [v | e] eqn:Hg; cbn.
      * destruct (py_float v) as [x | e] eqn:Hf; cbn; [reflexivity|].
        rewrite (py_float_not_network _ _ Hf). run_cases; reflexivity.
      * rewrite (py_getitem_str_not_network _ _ _ Hg). run_cases; reflexivity.
    + reflexivity.
    + rewrite (py_contains_not_network _ _ _ Hc). run_cases; reflexivity.
  - destruct (is_RequestException e) eqn:E; cbn [fst snd w_requests].
    + run_cases; cbn; rewrite <- ?app_assoc; reflexivity.
    + run_cases; reflexivity.
Qed.

(** X2: when the spot response is a JSON object, [get_current_price]
    returns the float of its ["price"], and [None] when there is no such
    key or its value is no number; the ticker is not consulted. *)
Theorem get_current_price_of_object (w : world)
    (d : list (string * pyval)) :
  w_http w (List.length (w_requests w)) = Ok (PDict d) ->
  fst (get_current_price w)
  = Ok (match lookup "price" d with
        | Some v => match py_float v with Ok x => Some x | Raise _ => None end
        | None => None
        end)
  /\ w_requests (snd (get_current_price w))
     = (w_requests w ++ [spot_request])%list.
Proof.
  intros H. split.
  - unfold get_current_price, try_except, bind, http_json, lift, ret, print,
      emit.
    cbn [fst snd w_http w_requests]. rewrite H. cbn.
    destruct (lookup "price" d) as [v|]; cbn; [|reflexivity].
    destruct (py_float v) as [x|e] eqn:Hf; cbn; [reflexivity|].
    rewrite (py_float_not_network _ _ Hf). run_cases; reflexivity.
  - destruct (get_current_price_requests w) as [_ Hr]. rewrite Hr.
    unfold network_failure. rewrite H. reflexivity.
Qed.

Lemma get_current_price_of_object_witness :
  fst (get_current_price
         (scripted [Ok (PDict [("symbol", PStr "BTCUSDT");
                               ("price", PStr "65000.5")])] []))
  = Ok (Some (fdiv (float_of_Z 130001) f2))
  /\ fst (get_current_price (scripted [Ok (PDict [("code", PInt (-1121))])] []))
     = Ok None.
Proof.
  split.
  - destruct (get_current_price_of_object
                (scripted [Ok (PDict [("symbol", PStr "BTCUSDT");
                                      ("price", PStr "65000.5")])] [])
                [("symbol", PStr "BTCUSDT"); ("price", PStr "65000.5")]
                eq_refl) as [H _].
    rewrite H. vm_compute. reflexivity.
  - destruct (get_current_price_of_object
                (scripted [Ok (PDict [("code", PInt (-1121))])] [])
                [("code", PInt (-1121))] eq_refl) as [H _].
    exact H.
Defined.

(** *** The sign of a difference *)

Lemma round_units_pos (n : Z) : 0 < n -> 0 < round_units n 1.
Proof.
  intros Hn.
  pose proof (round_units_mono 1 1 n 1 ltac:(lia) ltac:(lia) ltac:(lia)
                ltac:(lia) ltac:(lia)) as H.
  change (round_units 1 1) with 1 in H. lia.
Qed.

Lemma fround_sign_pos (n : Z) :
  0 < n -> flt f0 (fround false n 1) = true /\ flt (fround false n 1) f0 = false.
Proof.
  intros Hn. pose proof (round_units_pos n Hn). unfold f0.
  destruct (fround_cases false n 1) as [[-> _] | [-> _]].
  - split; reflexivity.
  - split; [apply flt_finite; cbn; lia|].
    apply not_true_is_false. rewrite flt_finite. cbn. lia.
Qed.

Lemma fround_sign_neg (n : Z) :
  0 < n -> flt (fround true n 1) f0 = true /\ flt f0 (fround true n 1) = false.
Proof.
  intros Hn. pose proof (round_units_pos n Hn). unfold f0.
  destruct (fround_cases true n 1) as [[-> _] | [-> _]].
  - split; reflexivity.
  - split; [apply flt_finite; cbn; lia|].
    apply not_true_is_false. rewrite flt_finite. cbn. lia.
Qed.

(** A difference of floats is positive (negative) exactly when the first
    operand is the greater (the smaller): rounding never turns the
    difference of two distinct numbers into zero. *)
Lemma fsub_sign (a b : pyfloat) :
  flt f0 (fsub a b) = flt b a /\ flt (fsub a b) f0 = flt a b.
Proof.
  destruct a as [|s|s u], b as [|t|t v];
    try (split; reflexivity);
    try (destruct s; split; reflexivity);
    try (destruct t; split; reflexivity);
    try (destruct s, t; split; reflexivity).
  rewrite fsub_finite. cbv zeta.
  set (x := signed_units s u). set (y := signed_units t v).
  assert (flt (Ffin t v) (Ffin s u) = (y <? x)) as E1.
  { destruct (Z.ltb_spec y x); [apply flt_finite; assumption|].
    apply not_true_is_false. rewrite flt_finite. fold x y. lia. }
  assert (flt (Ffin s u) (Ffin t v) = (x <? y)) as E2.
  { destruct (Z.ltb_spec x y); [apply flt_finite; assumption|].
    apply not_true_is_false. rewrite flt_finite. fold x y. lia. }
  rewrite E1, E2.
  destruct (Z.eqb_spec (x - y) 0) as [E | NE].
  - replace (y <? x) with false by (symmetry; apply Z.ltb_ge; lia).
    replace (x <? y) with false by (symmetry; apply Z.ltb_ge; lia).
    unfold f0.
    split; apply not_true_is_false; rewrite flt_finite;
      destruct (s && negb t); cbn; lia.
  - destruct (Z.ltb_spec (x - y) 0) as [Hneg | Hpos].
    + rewrite Z.abs_neq by lia.
      destruct (fround_sign_neg (- (x - y)) ltac:(lia)) as [-> ->].
      replace (y <? x) with false by (symmetry; apply Z.ltb_ge; lia).
      replace (x <? y) with true by (symmetry; apply Z.ltb_lt; lia).
      split; reflexivity.
    + rewrite Z.abs_eq by lia.
      destruct (fround_sign_pos (x - y) ltac:(lia)) as [-> ->].
      replace (y <? x) with true by (symmetry; apply Z.ltb_lt; lia).
      replace (x <? y) with false by (symmetry; apply Z.ltb_ge; lia).
      split; reflexivity.
Qed.

(** X3: the trend shown for [variation = current_price - open_price] is
    BULLISH exactly when the current price is above the opening price and
    BEARISH exactly when it is below; it is STABLE otherwise (the prices
    are equal, or one of them is NaN). *)
Theorem trend_line_agrees_with_prices (current open : pyfloat) :
  trend_line (fsub current open)
  = if fgt current open then "📈 Trend: ▲ BULLISH"
    else if flt current open then "📉 Trend: ▼ BEARISH"
    else "➡ Trend: STABLE".
Proof.
  unfold trend_line, fgt. destruct (fsub_sign current open) as [-> ->].
  reflexivity.
Qed.

(** ** Further properties of the 24-hour screen *)

Lemma run_returns_appends {A : Type} (m : M A) (w : world) :
  returns m -> appends m ->
  exists a w' l, m w = (Ok a, w') /\ w_stdout w' = (w_stdout w ++ l)%list.
Proof.
  intros Hr Ha. destruct (Hr w) as [a Hfst]. destruct (Ha w) as [l Hl].
  destruct (m w) as [r w']. cbn in *. subst r. eauto.
Qed.

Lemma get_detailed_price_info_none (w : world) :
  no_details (w_http w (List.length (w_requests w))) ->
  exists data w',
    get_detailed_price_info w = (Ok data, w')
    /\ truthy data = false /\ w_stdout w' = w_stdout w.
Proof.
  unfold no_details, get_detailed_price_info, try_except, http_json, ret.
  destruct (w_http w (List.length (w_requests w))) as [data | e]; intros H.
  - exists data. eexists. split; [reflexivity|]. split; [exact H | reflexivity].
  - exists PNone. eexists. split; [reflexivity|]. split; reflexivity.
Qed.



Lemma show_detailed_raises (data : pyval) (e : exn) (w : world) :
  read_field data "lastPrice" = Raise e ->
  show_detailed data w = (Raise e, w).
Proof.
  intros H. unfold show_detailed. unfold bind at 1, field, lift.
  rewrite H. reflexivity.
Qed.

(** X5: the 24-hour screen catches [KeyError] and [ValueError] only.  When
    converting the ticker's [lastPrice] raises anything else (a JSON null
    or a nested value gives [TypeError], a ticker that is an array gives
    [AttributeError]), the exception leaves [show_textual_24h_price], with
    the banner alone on the screen. *)
Theorem show_24h_lets_other_errors_out (w : world) (data : pyval) (e : exn) :
  w_http w (List.length (w_requests w)) = Ok data ->
  truthy data = true ->
  read_field data "lastPrice" = Raise e ->
  is_KeyError e = false -> is_ValueError e = false ->
  fst (show_textual_24h_price w) = Raise e
  /\ w_stdout (snd (show_textual_24h_price w))
     = (w_stdout w ++ banner_24h)%list.
Proof.
  intros Hhttp Htruthy Hfield Hk Hv.
  remember (show_textual_24h_price w) as run eqn:Hrun.
  unfold show_textual_24h_price in Hrun.
  unfold bind at 1, print at 1, emit at 1 in Hrun.
  unfold bind at 1, print at 1, emit at 1 in Hrun.
  unfold bind at 1, print at 1, emit at 1 in Hrun.
  unfold bind at 1 in Hrun.
  match type of Hrun with
  | context [get_detailed_price_info ?w1] =>
      assert (get_detailed_price_info w1
              = (Ok data,
                 mk_world (w_http w1) (w_requests w1 ++ [ticker_request])
                          (w_clock w1) (w_ticks w1) (w_fromtimestamp w1)
                          (w_now w1) (w_nows w1) (w_stdin w1) (w_stdout w1)))
        as Hd
  end.
  { unfold get_detailed_price_info, try_except, http_json.
    cbn [w_http w_requests]. rewrite Hhttp. reflexivity. }
  rewrite Hd, Htruthy in Hrun.
  unfold bind at 1, try_except at 1 in Hrun.
  rewrite show_detailed_raises with (e := e) in Hrun by assumption.
  rewrite Hk, Hv in Hrun. cbn [orb] in Hrun. subst run.
  cbn [fst snd w_stdout].
  split; [reflexivity|]. unfold banner_24h. rewrite <- !app_assoc.
  reflexivity.
Qed.

Lemma show_24h_lets_other_errors_out_witness :
  exists e,
    fst (show_textual_24h_price
           (scripted [Ok (PDict [("lastPrice", PNone)])] [])) = Raise e
    /\ exn_cls e = TypeError.
Proof.
  eexists. split.
  - apply (show_24h_lets_other_errors_out
             (scripted [Ok (PDict [("lastPrice", PNone)])] [])
             (PDict [("lastPrice", PNone)])); reflexivity.
  - reflexivity.
Defined.

(** *** High and low *)

Lemma py_max_bounds (p0 : pyfloat) (l : list pyfloat) :
  Forall (fun p => p <> Fnan) (p0 :: l) ->
  In (py_max p0 l) (p0 :: l)
  /\ forall p, In p (p0 :: l) -> fle p (py_max p0 l) = true.
Proof.
  intros Hall. pose proof (py_max_In l p0) as Hin. split; [exact Hin|].
  rewrite Forall_forall in Hall.
  destruct (py_max_spec l p0 (Hall _ Hin)) as (_ & H0 & Hl).
  intros p [<- | Hp]; [exact H0 | apply Hl; [exact Hp|]].
  apply Hall. right. exact Hp.
Qed.

Lemma py_min_bounds (p0 : pyfloat) (l : list pyfloat) :
  Forall (fun p => p <> Fnan) (p0 :: l) ->
  In (py_min p0 l) (p0 :: l)
  /\ forall p, In p (p0 :: l) -> fle (py_min p0 l) p = true.
Proof.
  intros Hall. pose proof (py_min_In l p0) as Hin. split; [exact Hin|].
  rewrite Forall_forall in Hall.
  destruct (py_min_spec l p0 (Hall _ Hin)) as (_ & H0 & Hl).
  intros p [<- | Hp]; [exact H0 | apply Hl; [exact Hp|]].
  apply Hall. right. exact Hp.
Qed.

(** X6: on the basic 24-hour screen, when no price of the series is NaN,
    the high and the low displayed are prices of the series, and every
    price of the series lies between them. *)
Theorem show_basic_high_low (w w1 : world) (t0 : pyval) (p0 : pyfloat)
    (rest : list (pyval * pyfloat)) :
  get_historical_data 1 w = (Ok (Some ((t0, p0) :: rest)), w1) ->
  let prices := p0 :: map snd rest in
  Forall (fun p => p <> Fnan) prices ->
  exists high low,
    In high prices /\ In low prices
    /\ (forall p, In p prices -> fle low p = true /\ fle p high = true)
    /\ In (Print ("📈 24h High: $" ++ fmt_money high))
          (w_stdout (snd (_show_basic_24h_price w)))
    /\ In (Print ("📉 24h Low: $" ++ fmt_money low))
          (w_stdout (snd (_show_basic_24h_price w))).
Proof.
  intros Hdata prices Hall.
  destruct (py_max_bounds p0 (map snd rest) Hall) as [Hmax_in Hmax].
  destruct (py_min_bounds p0 (map snd rest) Hall) as [Hmin_in Hmin].
  exists (py_max p0 (map snd rest)), (py_min p0 (map snd rest)).
  split; [exact Hmax_in|]. split; [exact Hmin_in|].
  split; [intros p Hp; split; [apply Hmin | apply Hmax]; exact Hp|].
  unfold _show_basic_24h_price. rewrite (bind_eq _ _ _ _ _ Hdata).
  unfold bind at 1, lift at 1. rewrite variation_percentage_eq.
  unfold bind, print, emit. cbn [snd w_stdout].
  split; apply in_or_app; left; apply in_or_app.
  - left. apply in_or_app. right. left. reflexivity.
  - right. left. reflexivity.
Qed.

Lemma show_basic_high_low_witness :
  In (Print "📈 24h High: $2.50")
     (w_stdout
        (snd (_show_basic_24h_price
                (scripted [Ok (PList [candle 0 "2.0"; candle 900000 "2.5";
                                      candle 1800000 "1.5"])] [])))).
Proof.
  destruct (show_basic_high_low
              (scripted [Ok (PList [candle 0 "2.0"; candle 900000 "2.5";
                                    candle 1800000 "1.5"])] [])
              (snd (get_historical_data 1
                      (scripted [Ok (PList [candle 0 "2.0";
                                            candle 900000 "2.5";
                                            candle 1800000 "1.5"])] [])))
              (PInt 0) (float_of_Z 2)
              [(PInt 900000, fdiv (float_of_Z 5) f2);
               (PInt 1800000, fdiv (float_of_Z 3) f2)])
    as (high & low & Hh & _ & Hbound & Hprint & _).
  - vm_compute. reflexivity.
  - repeat constructor; vm_compute; discriminate.
  - assert (high = fdiv (float_of_Z 5) f2) as ->.
    { destruct (Hbound (fdiv (float_of_Z 5) f2)) as [_ Hle];
        [right; left; reflexivity|].
      destruct Hh as [<- | [<- | [<- | []]]];
        first [reflexivity | vm_compute in Hle; discriminate Hle]. }
    exact Hprint.
Defined.

(** X7: with a first price that is NaN, [min] and [max] never replace
    their candidate: the basic screen shows nan for both the high and the
    low, whatever the other prices are. *)
Theorem show_basic_nan_first (w w1 : world) (t0 : pyval)
    (rest : list (pyval * pyfloat)) :
  get_historical_data 1 w = (Ok (Some ((t0, Fnan) :: rest)), w1) ->
  In (Print "📈 24h High: $nan") (w_stdout (snd (_show_basic_24h_price w)))
  /\ In (Print "📉 24h Low: $nan") (w_stdout (snd (_show_basic_24h_price w))).
Proof.
  intros Hdata.
  assert (forall l, py_max Fnan l = Fnan) as Hmax.
  { induction l as [|y l IH]; [reflexivity|]. cbn.
    replace (fgt y Fnan) with false; [exact IH|].
    destruct y; reflexivity. }
  assert (forall l, py_min Fnan l = Fnan) as Hmin.
  { induction l as [|y l IH]; [reflexivity|]. cbn.
    replace (flt y Fnan) with false; [exact IH|].
    destruct y; reflexivity. }
  unfold _show_basic_24h_price. rewrite (bind_eq _ _ _ _ _ Hdata).
  unfold bind at 1, lift at 1. rewrite variation_percentage_eq.
  rewrite Hmax, Hmin.
  unfold bind, print, emit. cbn [snd w_stdout].
  split; apply in_or_app; left; apply in_or_app.
  - left. apply in_or_app. right. left. reflexivity.
  - right. left. reflexivity.
Qed.

Lemma show_basic_nan_first_witness :
  In (Print "📈 24h High: $nan")
     (w_stdout
        (snd (_show_basic_24h_price
                (scripted [Ok (PList [candle 0 "nan"; candle 900000 "2.5"])]
                          [])))).
Proof.
  destruct (show_basic_nan_first
              (scripted [Ok (PList [candle 0 "nan"; candle 900000 "2.5"])] [])
              (snd (get_historical_data 1
                      (scripted [Ok (PList [candle 0 "nan";
                                            candle 900000 "2.5"])] [])))
              (PInt 0) [(PInt 900000, fdiv (float_of_Z 5) f2)])
    as [H _]; [vm_compute; reflexivity | exact H].
Defined.

(** ** Further properties of the chart *)

Lemma range_step_length (n step : nat) :
  List.length (range_step n step) = ((n + step - 1) / step)%nat.
Proof. unfold range_step. rewrite length_map, length_seq. reflexivity. Qed.

(** The chart visits at most 23 points, and every point when there are
    fewer than twelve. *)
Lemma chart_indices_count (n : nat) :
  let step := Nat.max 1 (n / 12) in
  (List.length (range_step n step) <= 23)%nat
  /\ (List.length (range_step n step) <= n)%nat.
Proof.
  intros step. rewrite range_step_length.
  assert (1 <= step)%nat as Hs by (unfold step; lia).
  assert (n < 12 * (step + 1))%nat as Hn.
  { unfold step.
    pose proof (Nat.div_mod_eq n 12) as E.
    assert (n mod 12 < 12)%nat by (apply Nat.mod_upper_bound; lia).
    lia. }
  assert (n = 0 -> step = 1)%nat as H0 by (intros ->; reflexivity).
  split.
  - apply Nat.Div0.div_le_upper_bound. nia.
  - apply Nat.Div0.div_le_upper_bound.
    destruct n as [|m]; [rewrite H0 by reflexivity; cbn; lia | nia].
Qed.

Lemma chart_rows_count (data : list (pyval * pyfloat)) (mn rg : pyfloat)
    (idxs : list nat) (w : world) :
  exists rows,
    w_stdout (snd (for_each idxs (chart_row data mn rg) w))
    = (w_stdout w ++ map entry_line rows)%list
    /\ (List.length rows <= List.length idxs)%nat.
Proof.
  revert w. induction idxs as [|i idxs IH]; intros w.
  - exists []. cbn. split; [symmetry; apply app_nil_r | lia].
  - cbn [for_each]. unfold bind at 1, chart_row at 1.
    destruct (nth_error data i) as [[t p]|].
    2:{ exists []. cbn. split; [symmetry; apply app_nil_r | lia]. }
    unfold bind at 1, lift at 1.
    destruct (chart_height p mn rg) as [h|e].
    2:{ exists []. cbn. split; [symmetry; apply app_nil_r | lia]. }
    unfold bind at 1, lift at 1.
    destruct (py_div_1000 t) as [secs|e].
    2:{ exists []. cbn. split; [symmetry; apply app_nil_r | lia]. }
    unfold bind at 1, fromtimestamp at 1.
    destruct (w_fromtimestamp w secs) as [date|e].
    2:{ exists []. cbn. split; [symmetry; apply app_nil_r | lia]. }
    unfold print, emit.
    match goal with
    | |- context [for_each idxs _ ?w1] => destruct (IH w1) as (rows & E & Hb)
    end.
    exists ((strftime_HM date, h, p) :: rows). split.
    + rewrite E. cbn [w_stdout map entry_line]. rewrite <- app_assoc.
      reflexivity.
    + cbn [List.length]. lia.
Qed.

(** X8: the chart never has more than 23 rows, nor more rows than there
    are points: with more than a dozen points only every
    [len(prices) // 12]-th one is drawn. *)
Theorem show_chart_row_count (data : list (pyval * pyfloat)) (w : world) :
  exists rows : list chart_entry,
    (w_stdout (snd (show_chart data w))
     = (w_stdout w ++ chart_heading ++ map entry_line rows)%list
     \/ w_stdout (snd (show_chart data w))
        = (w_stdout w ++ chart_heading
           ++ [Print "Insufficient data to display chart"])%list)
    /\ (List.length rows <= 23)%nat
    /\ (List.length rows <= List.length data)%nat.
Proof.
  remember (show_chart data w) as run eqn:Hrun.
  unfold show_chart, bind, print, emit, ret in Hrun.
  destruct (map snd data) as [|p0 [|p1 rest]] eqn:Hdata.
  - exists []. subst run. split; [|cbn; lia]. right.
    cbn [snd w_stdout]. unfold chart_heading. rewrite <- !app_assoc.
    reflexivity.
  - exists []. subst run. split; [|cbn; lia]. right.
    cbn [snd w_stdout]. unfold chart_heading. rewrite <- !app_assoc.
    reflexivity.
  - destruct (fgt (fsub (py_max p0 (p1 :: rest)) (py_min p0 (p1 :: rest))) f0).
    + match type of Hrun with
      | context [for_each ?idxs (chart_row _ ?mn ?rg) ?w1] =>
          destruct (chart_rows_count data mn rg idxs w1) as (rows & E & Hb)
      end.
      destruct (chart_indices_count (List.length data)) as [H23 Hn].
      exists rows. subst run. split; [|lia]. left.
      rewrite E. cbn [w_stdout]. unfold chart_heading.
      rewrite <- !app_assoc. reflexivity.
    + exists []. subst run. split; [|cbn; lia]. left.
      cbn [snd w_stdout map]. unfold chart_heading.
      rewrite <- !app_assoc. reflexivity.
Qed.

Lemma flt_irrefl (p : pyfloat) : flt p p = false.
Proof.
  apply not_true_is_false. rewrite flt_spec.
  destruct p as [|s|s u]; [tauto | destruct s; intros [? ?]; discriminate | lia].
Qed.

Lemma py_min_constant (p : pyfloat) (l : list pyfloat) :
  (forall q, In q l -> q = p) -> py_min p l = p.
Proof.
  induction l as [|y l IH]; intros H; [reflexivity|]. cbn.
  rewrite (H y (or_introl eq_refl)), flt_irrefl.
  apply IH. intros q Hq. apply H. right. exact Hq.
Qed.

Lemma py_max_constant (p : pyfloat) (l : list pyfloat) :
  (forall q, In q l -> q = p) -> py_max p l = p.
Proof.
  induction l as [|y l IH]; intros H; [reflexivity|]. cbn. unfold fgt.
  rewrite (H y (or_introl eq_refl)), flt_irrefl.
  apply IH. intros q Hq. apply H. right. exact Hq.
Qed.

Lemma fsub_self_not_positive (p : pyfloat) : fgt (fsub p p) f0 = false.
Proof.
  unfold fgt. destruct (fsub_sign p p) as [-> _]. apply flt_irrefl.
Qed.

(** X9: when all the prices of the day are the same, there is no range to
    scale by: the chart screen is its two heading lines, without a row and
    without a notice. *)
Theorem show_chart_flat_series (data : list (pyval * pyfloat)) (p : pyfloat)
    (w : world) :
  (2 <= List.length data)%nat ->
  (forall q, In q (map snd data) -> q = p) ->
  fst (show_chart data w) = Ok tt
  /\ w_stdout (snd (show_chart data w)) = (w_stdout w ++ chart_heading)%list.
Proof.
  intros Hlen Hall.
  remember (show_chart data w) as run eqn:Hrun.
  unfold show_chart, bind, print, emit, ret in Hrun.
  destruct (map snd data) as [|p0 [|p1 rest]] eqn:Hdata;
    try (apply (f_equal (@List.length pyfloat)) in Hdata;
         rewrite length_map in Hdata; cbn in Hdata; lia).
  assert (p0 = p) as -> by (apply Hall; left; reflexivity).
  rewrite py_min_constant, py_max_constant, fsub_self_not_positive in Hrun;
    try (intros q Hq; apply Hall; right; exact Hq).
  subst run. cbn [fst snd w_stdout]. split; [reflexivity|].
  unfold chart_heading. rewrite <- !app_assoc. reflexivity.
Qed.

Lemma show_chart_flat_series_witness :
  w_stdout (snd (show_chart [(PInt 0, f2); (PInt 900000, f2)]
                            (scripted [] [])))
  = chart_heading.
Proof.
  destruct (show_chart_flat_series [(PInt 0, f2); (PInt 900000, f2)] f2
              (scripted [] [])) as [_ H].
  - cbn. lia.
  - intros q [<- | [<- | []]]; reflexivity.
  - exact H.
Defined.

(** ** Further properties of the converter *)

Lemma amount_turn_rejected (w : world) evs (s : string) rest :
  rejected s ->
  amount_turn (after_io w evs (s :: rest))
  = (Ok None, after_io w (evs ++ rejection s) rest).
Proof.
  unfold rejected, rejection. intros H.
  destruct (parse_float s) as [v|] eqn:Hs.
  - apply (amount_turn_not_positive w evs s rest v); [|exact H].
    unfold float_of_string. rewrite Hs. reflexivity.
  - apply amount_turn_not_a_number. exact Hs.
Qed.

Lemma amount_loop_rejected (w : world) (bad tail : list string) evs :
  Forall rejected bad ->
  amount_loop (bad ++ tail) (after_io w evs (bad ++ tail))
  = amount_loop tail (after_io w (evs ++ flat_map rejection bad) tail).
Proof.
  intros Hbad. revert evs.
  induction Hbad as [|b bad Hb _ IH]; intros evs.
  - cbn [flat_map app]. rewrite app_nil_r. reflexivity.
  - cbn [app amount_loop].
    rewrite (bind_eq _ _ _ _ _ (amount_turn_rejected w evs b _ Hb)).
    rewrite IH. cbn [flat_map]. rewrite <- app_assoc. reflexivity.
Qed.

(** X10: the amount loop turns down every entry that is no float or is a
    float [v] with [v <= 0], writes one error line for each, and goes on
    with the next line; it ends with the first entry it accepts, or, the
    input being exhausted, with the [EOFError] of [input], which it does
    not catch. *)
Theorem read_amount_rejects (w : world) (bad : list string) :
  Forall rejected bad ->
  (forall s rest v,
     w_stdin w = (bad ++ s :: rest)%list ->
     parse_float s = Some v -> fle v f0 = false ->
     read_amount w
     = (Ok v,
        after_io w (flat_map rejection bad ++ [Prompt amount_prompt]) rest))
  /\ (w_stdin w = bad ->
      read_amount w
      = (raise EOFError "EOF when reading a line",
         after_io w (flat_map rejection bad ++ [Prompt amount_prompt]) [])).
Proof.
  intros Hbad. split.
  - intros s rest v Hin Hs Hv.
    rewrite (run_from_stdin read_amount w _ Hin).
    unfold read_amount. cbn [w_stdin after_io].
    fold (after_io w [] (bad ++ s :: rest)).
    rewrite (amount_loop_rejected w bad (s :: rest) [] Hbad).
    cbn [app amount_loop].
    rewrite (bind_eq _ _ _ _ _ (amount_turn_accept w _ s rest v
                                   ltac:(unfold float_of_string; rewrite Hs;
                                         reflexivity) Hv)).
    reflexivity.
  - intros Hin.
    rewrite (run_from_stdin read_amount w _ Hin).
    unfold read_amount. cbn [w_stdin after_io].
    fold (after_io w [] bad).
    pose proof (amount_loop_rejected w bad [] [] Hbad) as H.
    rewrite app_nil_r in H. rewrite H.
    cbn [app amount_loop]. unfold bind. rewrite amount_turn_eof.
    reflexivity.
Qed.

Lemma read_amount_rejects_witness :
  fst (read_amount (scripted [] ["abc"; "-1"; "0"; "0.25"; ""]))
  = Ok (fdiv (float_of_Z 1) (float_of_Z 4))
  /\ fst (read_amount (scripted [] ["abc"; "-1"]))
     = raise EOFError "EOF when reading a line".
Proof.
  split.
  - destruct (read_amount_rejects
                (scripted [] ["abc"; "-1"; "0"; "0.25"; ""])
                ["abc"; "-1"; "0"]) as [H _].
    + repeat constructor.
    + rewrite (H "0.25" [""] (fdiv (float_of_Z 1) (float_of_Z 4))
                 eq_refl); [reflexivity | vm_compute; reflexivity
                            | vm_compute; reflexivity].
  - destruct (read_amount_rejects (scripted [] ["abc"; "-1"])
                ["abc"; "-1"]) as [_ H].
    + repeat constructor.
    + rewrite (H eq_refl). reflexivity.
Defined.

Lemma fmt_money_f50000 : fmt_money f50000 = "50,000.00".
Proof. vm_compute. reflexivity. Qed.

(** X11: with the current price unavailable, the answer y (or Y) to the
    question about the reference price makes 50000.0 the price, announced
    as $50,000.00; no manual price is asked for. *)
Theorem choose_price_reference (price : option pyfloat) (w : world)
    (answer : string) (rest : list string) :
  price_unavailable price ->
  w_stdin w = answer :: rest ->
  lower answer = "y" ->
  choose_price price w
  = (Ok f50000,
     after_io w (unavailable_notice
                 ++ [Print (nl ++ "Using reference price: $50,000.00")])
              rest).
Proof.
  intros Hprice Hin Hans.
  rewrite (run_from_stdin (choose_price price) w _ Hin).
  rewrite (choose_price_unavailable price Hprice).
  unfold choose_price.
  repeat rewrite (bind_eq _ _ _ _ _ (print_after_io _ _ _ _)).
  rewrite (bind_eq _ _ _ _ _ (input_after_io _ _ _ _ _)).
  rewrite Hans. cbn [String.eqb Ascii.eqb Bool.eqb].
  rewrite (bind_eq _ _ _ _ _ (print_after_io _ _ _ _)).
  rewrite fmt_money_f50000. unfold ret, unavailable_notice.
  rewrite <- !app_assoc. reflexivity.
Qed.

Lemma choose_price_reference_witness :
  fst (choose_price None (scripted [] ["Y"; "2"])) = Ok f50000.
Proof.
  rewrite (choose_price_reference None (scripted [] ["Y"; "2"]) "Y" ["2"]
             I eq_refl eq_refl).
  reflexivity.
Defined.

(** ** Properties of the 5-day screen *)

(** *** Grouping by day *)

Lemma add_to_day_keys (k : string) (p : pyfloat)
    (g : list (string * list pyfloat)) :
  map fst (add_to_day k p g)
  = if in_dec string_dec k (map fst g) then map fst g
    else (map fst g ++ [k])%list.
Proof.
  induction g as [|[k' ps] g IH]; cbn [add_to_day map fst].
  - destruct (in_dec string_dec k []) as [[]|]. reflexivity.
  - destruct (String.eqb_spec k' k) as [-> | Hne]; cbn [map fst].
    + destruct (in_dec string_dec k (k :: map fst g)) as [|N];
        [reflexivity | exfalso; apply N; left; reflexivity].
    + rewrite IH.
      destruct (in_dec string_dec k (map fst g)) as [Hin | Hnin];
        destruct (in_dec string_dec k (k' :: map fst g)) as [Hin' | Hnin'];
        try reflexivity.
      * exfalso. apply Hnin'. right. exact Hin.
      * exfalso. destruct Hin' as [E | Hin']; [exact (Hne E) | exact (Hnin Hin')].
Qed.

Lemma add_to_day_NoDup (k : string) (p : pyfloat)
    (g : list (string * list pyfloat)) :
  NoDup (map fst g) -> NoDup (map fst (add_to_day k p g)).
Proof.
  intros H. rewrite add_to_day_keys.
  destruct (in_dec string_dec k (map fst g)) as [|Hnin]; [exact H|].
  apply NoDup_app; [exact H | repeat constructor; intros [] |].
  intros x Hx [<- | []]. exact (Hnin Hx).
Qed.

Lemma add_to_day_nonempty (k : string) (p : pyfloat)
    (g : list (string * list pyfloat)) :
  Forall (fun e => snd e <> []) g ->
  Forall (fun e => snd e <> []) (add_to_day k p g).
Proof.
  induction 1 as [|[k' ps] g Hps Hg IH]; cbn [add_to_day].
  - repeat constructor. discriminate.
  - destruct (k' =? k)%string; constructor.
    + cbn. destruct ps; discriminate.
    + assumption.
    + exact Hps.
    + exact IH.
Qed.

Lemma add_to_day_count (k : string) (p : pyfloat)
    (g : list (string * list pyfloat)) :
  List.length (List.concat (map snd (add_to_day k p g)))
  = S (List.length (List.concat (map snd g))).
Proof.
  induction g as [|[k' ps] g IH]; cbn [add_to_day]; [reflexivity|].
  destruct (k' =? k)%string; cbn [map snd List.concat].
  - rewrite !length_app. cbn. lia.
  - rewrite !length_app, IH. lia.
Qed.

Lemma add_to_day_adds (k : string) (p : pyfloat)
    (g : list (string * list pyfloat)) :
  exists ps, In (k, ps) (add_to_day k p g) /\ In p ps.
Proof.
  induction g as [|[k' ps] g IH]; cbn [add_to_day].
  - exists [p]. split; left; reflexivity.
  - destruct (String.eqb_spec k' k) as [-> | Hne].
    + exists (ps ++ [p])%list. split; [left; reflexivity|].
      apply in_or_app. right. left. reflexivity.
    + destruct IH as (ps' & Hin & Hp). exists ps'. split; [right|]; assumption.
Qed.

Lemma add_to_day_keeps (k k0 : string) (p p0 : pyfloat)
    (g : list (string * list pyfloat)) :
  (exists ps, In (k0, ps) g /\ In p0 ps) ->
  exists ps, In (k0, ps) (add_to_day k p g) /\ In p0 ps.
Proof.
  intros (ps0 & Hin & Hp). induction g as [|[k' ps] g IH]; [contradiction|].
  cbn [add_to_day]. destruct (k' =? k)%string.
  - destruct Hin as [E | Hin].
    + injection E as -> ->. exists (ps0 ++ [p])%list.
      split; [left; reflexivity | apply in_or_app; left; exact Hp].
    + exists ps0. split; [right|]; assumption.
  - destruct Hin as [E | Hin].
    + exists ps0. split; [left|]; assumption.
    + destruct (IH Hin) as (ps' & Hin' & Hp'). exists ps'.
      split; [right|]; assumption.
Qed.

(** X12: grouping the points by day keeps a dict with one entry per day
    key, no entry without a price, as many prices in all as there are
    points, and every price under the key of its own date. *)
Theorem group_by_day_invariants (dates : list datetime)
    (prices : list pyfloat) :
  let groups := group_by_day dates prices in
  NoDup (map fst groups)
  /\ Forall (fun e => snd e <> []) groups
  /\ List.length (List.concat (map snd groups))
     = Nat.min (List.length dates) (List.length prices)
  /\ forall d p, In (d, p) (combine dates prices) ->
       exists ps, In (strftime_dm d, ps) groups /\ In p ps.
Proof.
  unfold group_by_day. rewrite <- length_combine.
  set (step := fun d dp => add_to_day (strftime_dm (@fst datetime pyfloat dp))
                                     (snd dp) d).
  assert (forall l g,
            NoDup (map fst g) -> Forall (fun e => snd e <> []) g ->
            NoDup (map fst (fold_left step l g))
            /\ Forall (fun e => snd e <> []) (fold_left step l g)
            /\ List.length (List.concat (map snd (fold_left step l g)))
               = (List.length (List.concat (map snd g)) + List.length l)%nat
            /\ (forall k0 p0, (exists ps, In (k0, ps) g /\ In p0 ps) ->
                 exists ps, In (k0, ps) (fold_left step l g) /\ In p0 ps)
            /\ forall d p, In (d, p) l ->
                 exists ps, In (strftime_dm d, ps) (fold_left step l g)
                            /\ In p ps) as H.
  { induction l as [|[d p] l IH]; intros g Hnd Hne; cbn [fold_left].
    - repeat split; auto. cbn. lia.
    - destruct (IH (step g (d, p))) as (H1 & H2 & H3 & H4 & H5).
      + apply add_to_day_NoDup. exact Hnd.
      + apply add_to_day_nonempty. exact Hne.
      + split; [exact H1|]. split; [exact H2|]. split.
        * rewrite H3.
          replace (step g (d, p)) with (add_to_day (strftime_dm d) p g)
            by reflexivity.
          rewrite add_to_day_count. cbn [List.length]. lia.
        * split.
          -- intros k0 p0 Hex. apply H4. unfold step.
             apply add_to_day_keeps. exact Hex.
          -- intros d' p' [E | Hin]; [|apply H5; exact Hin].
             injection E as <- <-. apply H4. unfold step. cbn [fst snd].
             apply add_to_day_adds. }
  destruct (H (combine dates prices) []) as (H1 & H2 & H3 & _ & H5);
    [constructor | constructor |].
  repeat split; auto.
Qed.

(** *** The screen *)

Lemma get_historical_data_none_on_error (days : Z) (w : world) (e : exn) :
  w_http w (List.length (w_requests w)) = Raise e ->
  fst (get_historical_data days w) = Ok None.
Proof.
  intros H.
  unfold get_historical_data, try_except, bind, time_time, lift, http_json,
    ret, print, emit.
  cbn [fst snd w_http w_requests].
  destruct (int_of_float (fmul (w_clock w (w_ticks w)) f1000)).
  - destruct (interval_and_limit days). cbn [fst snd w_http w_requests].
    rewrite H. run_cases; reflexivity.
  - run_cases; reflexivity.
Qed.

Section FiveDays.

Variable py_sum : list pyfloat -> pyfloat.

Lemma show_5days_start (w : world) evs stdin :
  show_textual_5days_price py_sum (after_io w evs stdin)
  = (data <- get_historical_data 5 ;;
     match data with
     | None | Some [] =>
         print "Could not get data from Binance." ;;
         current_price <- get_current_price ;;
         match current_price with
         | Some p =>
             if float_truthy p then
               print (nl ++ "💰 Current price: $" ++ fmt_money p)
             else ret tt
         | None => ret tt
         end ;;
         print (rule 60)
     | Some (((_, p0) :: rest) as points) =>
         let prices := map snd points in
         dates <- dates_of points ;;
         let current_price := last prices p0 in
         let price_min := py_min p0 (map snd rest) in
         let price_max := py_max p0 (map snd rest) in
         let initial_price := p0 in
         let variation := fsub current_price initial_price in
         percentage <- lift (variation_percentage variation initial_price) ;;
         print (nl ++ BTC ++ "💰 Current price: $" ++ fmt_money current_price
                ++ " " ++ reset) ;;
         print ("📈 5-Day High: $" ++ fmt_money price_max) ;;
         print ("📉 5-Day Low: $" ++ fmt_money price_min) ;;
         print (change_line "5-Day" variation percentage) ;;
         print (nl ++ "📅 DAILY SUMMARY:") ;;
         print (repeat_string "-" 50) ;;
         daily_summary py_sum dates prices ;;
         print (rule 60)
     end) (after_io w (evs ++ banner_5days) stdin).
Proof.
  unfold show_textual_5days_price.
  repeat rewrite (bind_eq _ _ _ _ _ (print_after_io _ _ _ _)).
  unfold banner_5days. rewrite <- !app_assoc. reflexivity.
Qed.


(** X14: the 5-day screen has no [try]: when the open time of the first
    point is not a number (a string, say), the [TypeError] of [/ 1000]
    leaves [show_textual_5days_price] before any figure is shown. *)
Theorem show_5days_bad_timestamp (w w1 : world) (t : pyval) (p0 : pyfloat)
    (rest : list (pyval * pyfloat)) (e : exn) :
  get_historical_data 5 (after_io w banner_5days (w_stdin w))
  = (Ok (Some ((t, p0) :: rest)), w1) ->
  py_div_1000 t = Raise e ->
  show_textual_5days_price py_sum w = (Raise e, w1).
Proof.
  intros Hdata Ht.
  rewrite (run_from_stdin (show_textual_5days_price py_sum) w _ eq_refl).
  rewrite show_5days_start. cbn [app].
  rewrite (bind_eq _ _ _ _ _ Hdata).
  unfold bind at 1, dates_of. cbn [map_M fst].
  unfold bind at 1. unfold bind at 1, lift. rewrite Ht. reflexivity.
Qed.

Lemma appends_daily_summary dates prices :
  appends (daily_summary py_sum dates prices).
Proof. unfold daily_summary. appends_auto. Qed.

(** X15: on the 5-day screen, when no price of the series is NaN, the high
    and the low displayed are prices of the series, and every price of the
    series lies between them. *)
Theorem show_5days_high_low (w w1 w2 : world) (t0 : pyval) (p0 : pyfloat)
    (rest : list (pyval * pyfloat)) (dates : list datetime) :
  get_historical_data 5 (after_io w banner_5days (w_stdin w))
  = (Ok (Some ((t0, p0) :: rest)), w1) ->
  dates_of ((t0, p0) :: rest) w1 = (Ok dates, w2) ->
  let prices := p0 :: map snd rest in
  Forall (fun p => p <> Fnan) prices ->
  exists high low,
    In high prices /\ In low prices
    /\ (forall p, In p prices -> fle low p = true /\ fle p high = true)
    /\ In (Print ("📈 5-Day High: $" ++ fmt_money high))
          (w_stdout (snd (show_textual_5days_price py_sum w)))
    /\ In (Print ("📉 5-Day Low: $" ++ fmt_money low))
          (w_stdout (snd (show_textual_5days_price py_sum w))).
Proof.
  intros Hdata Hdates prices Hall.
  destruct (py_max_bounds p0 (map snd rest) Hall) as [Hmax_in Hmax].
  destruct (py_min_bounds p0 (map snd rest) Hall) as [Hmin_in Hmin].
  exists (py_max p0 (map snd rest)), (py_min p0 (map snd rest)).
  split; [exact Hmax_in|]. split; [exact Hmin_in|].
  split; [intros p Hp; split; [apply Hmin | apply Hmax]; exact Hp|].
  remember (show_textual_5days_price py_sum w) as run eqn:Hrun.
  rewrite (run_from_stdin (show_textual_5days_price py_sum) w _ eq_refl)
    in Hrun.
  rewrite show_5days_start in Hrun. cbn [app] in Hrun.
  rewrite (bind_eq _ _ _ _ _ Hdata) in Hrun.
  rewrite (bind_eq _ _ _ _ _ Hdates) in Hrun. cbv zeta in Hrun.
  unfold bind at 1, lift at 1 in Hrun.
  rewrite variation_percentage_eq in Hrun.
  unfold bind at 1, print at 1, emit at 1 in Hrun.
  unfold bind at 1, print at 1, emit at 1 in Hrun.
  unfold bind at 1, print at 1, emit at 1 in Hrun.
  match type of Hrun with
  | run = ?m ?w3 =>
      assert (out_extends w3 (snd run)) as Hext
        by (rewrite Hrun;
            assert (appends m) as Hm
              by (appends_auto; apply appends_daily_summary);
            apply Hm)
  end.
  split; (eapply out_extends_In; [exact Hext|]); cbn [w_stdout];
    apply in_or_app.
  - left. apply in_or_app. right. left. reflexivity.
  - right. left. reflexivity.
Qed.

Lemma for_each_at_most_one {A : Type} (body : A -> M unit) (xs : list A) :
  (forall a w, exists l,
      w_stdout (snd (body a w)) = (w_stdout w ++ l)%list
      /\ (List.length l <= 1)%nat) ->
  forall w, exists l,
    w_stdout (snd (for_each xs body w)) = (w_stdout w ++ l)%list
    /\ (List.length l <= List.length xs)%nat.
Proof.
  intros Hb. induction xs as [|a xs IH]; intros w.
  - exists []. cbn. split; [symmetry; apply app_nil_r | lia].
  - cbn [for_each]. unfold bind. destruct (Hb a w) as (l1 & E1 & H1).
    destruct (body a w) as [[[] | e] w1]; cbn [snd] in *.
    + destruct (IH w1) as (l2 & E2 & H2). exists (l1 ++ l2)%list.
      rewrite E2, E1, <- app_assoc, length_app. cbn [List.length].
      split; [reflexivity | lia].
    + exists l1. split; [exact E1 | cbn [List.length]; lia].
Qed.

(** X16: the daily summary has at most five lines; with fewer than five
    points it has at most one line per point. *)
Theorem daily_summary_at_most_five (dates : list datetime)
    (prices : list pyfloat) (w : world) :
  exists l,
    w_stdout (snd (daily_summary py_sum dates prices w))
    = (w_stdout w ++ l)%list
    /\ (List.length l <= 5)%nat
    /\ (List.length l <= List.length prices)%nat.
Proof.
  unfold daily_summary.
  destruct (Nat.leb_spec 5 (List.length prices)) as [Hge | Hlt].
  - match goal with
    | |- context [for_each ?xs ?body w] =>
        destruct (for_each_at_most_one body xs) with (w := w)
          as (l & E & Hl)
    end.
    + intros [day ps] w'. cbn [fst snd].
      destruct ps as [|p ps]; [exists []; cbn; split;
                               [symmetry; apply app_nil_r | lia]|].
      unfold bind, lift. destruct (average py_sum (p :: ps)).
      * eexists. split; [reflexivity | cbn; lia].
      * exists []. cbn. split; [symmetry; apply app_nil_r | lia].
    + exists l. split; [exact E|]. rewrite length_skipn in Hl. lia.
  - match goal with
    | |- context [for_each ?xs ?body w] =>
        destruct (for_each_at_most_one body xs) with (w := w)
          as (l & E & Hl)
    end.
    + intros i w'.
      destruct (nth_error dates i), (nth_error prices i);
        first [ eexists; split; [reflexivity | cbn; lia]
              | exists []; cbn; split; [symmetry; apply app_nil_r | lia] ].
    + exists l. split; [exact E|]. rewrite range_step_length in Hl.
      replace (Nat.max 1 (List.length prices / 5)) with 1%nat in Hl.
      * rewrite Nat.div_1_r in Hl. lia.
      * rewrite Nat.div_small by lia. reflexivity.
Qed.

End FiveDays.

Lemma show_5days_bad_timestamp_witness :
  exists e,
    fst (show_textual_5days_price sum_left
           (scripted [Ok (PList [PList [PStr "1700000000000"; PStr "1";
                                        PStr "1"; PStr "1"; PStr "2.5";
                                        PStr "1"]])] []))
    = Raise e
    /\ exn_cls e = TypeError.
Proof.
  eexists. split.
  - erewrite (show_5days_bad_timestamp sum_left
                (scripted [Ok (PList [PList [PStr "1700000000000"; PStr "1";
                                             PStr "1"; PStr "1"; PStr "2.5";
                                             PStr "1"]])] [])
                _ (PStr "1700000000000") (fdiv (float_of_Z 5) f2) []);
      [reflexivity | vm_compute; reflexivity | reflexivity].
  - reflexivity.
Defined.


Lemma show_5days_high_low_witness :
  In (Print "📉 5-Day Low: $1.50")
     (w_stdout
        (snd (show_textual_5days_price sum_left
                (scripted [Ok (PList [candle 0 "2.0"; candle 3600000 "2.5";
                                      candle 7200000 "1.5"])] [])))).
Proof.
  set (w := scripted [Ok (PList [candle 0 "2.0"; candle 3600000 "2.5";
                                 candle 7200000 "1.5"])] []).
  set (w1 := snd (get_historical_data 5
                    (after_io w banner_5days (w_stdin w)))).
  destruct (show_5days_high_low sum_left w w1
              (snd (dates_of [(PInt 0, float_of_Z 2);
                              (PInt 3600000, fdiv (float_of_Z 5) f2);
                              (PInt 7200000, fdiv (float_of_Z 3) f2)] w1))
              (PInt 0) (float_of_Z 2)
              [(PInt 3600000, fdiv (float_of_Z 5) f2);
               (PInt 7200000, fdiv (float_of_Z 3) f2)]
              (repeat (mk_datetime 11 14 22 13 20) 3))
    as (high & low & _ & Hl & Hbound & _ & Hprint).
  - vm_compute. reflexivity.
  - vm_compute. reflexivity.
  - repeat constructor; vm_compute; discriminate.
  - assert (low = fdiv (float_of_Z 3) f2) as ->.
    { destruct (Hbound (fdiv (float_of_Z 3) f2)) as [Hle _];
        [right; right; left; reflexivity|].
      destruct Hl as [<- | [<- | [<- | []]]];
        first [reflexivity | vm_compute in Hle; discriminate Hle]. }
    exact Hprint.
Defined.

(** ** Properties of the menu *)

Lemma returns_datetime_now : returns datetime_now.
Proof. intros w. eexists. reflexivity. Qed.

Lemma returns_menu_screen : returns menu_screen.
Proof.
  unfold menu_screen.
  repeat (apply returns_bind; [first [apply returns_emit | apply returns_print]
                              | intros _]).
  apply returns_bind; [apply returns_get_current_price | intros price].
  apply returns_bind.
  - destruct price as [p|]; [destruct (float_truthy p)|];
      repeat (apply returns_bind;
              [first [apply returns_print | apply returns_datetime_now]
              | intros ?]);
      apply returns_print.
  - intros _.
    repeat (apply returns_bind; [apply returns_print | intros _]).
    apply returns_print.
Qed.

Lemma appends_menu_screen : appends menu_screen.
Proof. unfold menu_screen. appends_auto. Qed.

Lemma reads_nothing_menu_screen : respects same_stdin menu_screen.
Proof. unfold menu_screen. reads_nothing. Qed.

(** The screen is drawn whatever happens to the price request, and no line
    of input is read for it. *)
Lemma menu_screen_runs (w : world) :
  exists w' l,
    menu_screen w = (Ok tt, w')
    /\ w_stdin w' = w_stdin w
    /\ w_stdout w' = (w_stdout w ++ l)%list.
Proof.
  destruct (run_returns_appends menu_screen w returns_menu_screen
              appends_menu_screen) as ([] & w' & l & Hrun & Hl).
  exists w', l. split; [exact Hrun|]. split; [|exact Hl].
  pose proof (reads_nothing_menu_screen w) as H. rewrite Hrun in H. exact H.
Qed.

Lemma input_reads (p l : string) (w : world) (rest : list string) :
  w_stdin w = l :: rest ->
  input p w = (Ok l, after_io w [Prompt p] rest).
Proof.
  intros H. unfold input, bind, emit, read_line, after_io.
  cbn [w_stdin w_stdout w_http w_requests w_clock w_ticks w_fromtimestamp
       w_now w_nows].
  rewrite H. reflexivity.
Qed.

Section Menu.

Variable py_sum : list pyfloat -> pyfloat.

Lemma menu_turn_invalid (w : world) (b : string) (rest : list string) :
  invalid_option b ->
  w_stdin w = b :: rest ->
  exists w' l,
    menu_turn py_sum w = (Ok false, w')
    /\ w_stdin w' = rest
    /\ w_stdout w' = (w_stdout w ++ l ++ option_prompt :: invalid_notice)%list.
Proof.
  intros (H1 & H2 & H3 & H4 & H5) Hin.
  destruct (menu_screen_runs w) as (w1 & l & Hscreen & Hstdin & Hout).
  unfold menu_turn. rewrite (bind_eq _ _ _ _ _ Hscreen).
  rewrite (bind_eq _ _ _ _ _
             (input_reads _ b w1 rest ltac:(rewrite Hstdin; exact Hin))).
  apply String.eqb_neq in H1, H2, H3, H4, H5.
  rewrite H1, H2, H3, H4, H5.
  rewrite (bind_eq _ _ _ _ _ (print_after_io _ _ _ _)).
  unfold bind, sleep, emit, ret.
  cbn [after_io w_stdin w_stdout w_http w_requests w_clock w_ticks
       w_fromtimestamp w_now w_nows].
  eexists. exists l. split; [reflexivity|].
  split; [reflexivity|]. cbn [w_stdout]. rewrite Hout.
  unfold option_prompt, invalid_notice.
  rewrite <- !app_assoc. reflexivity.
Qed.

Lemma menu_turn_exit (w : world) (rest : list string) :
  w_stdin w = "5" :: rest ->
  exists w' l,
    menu_turn py_sum w = (Ok true, w')
    /\ w_stdin w' = rest
    /\ w_stdout w' = (w_stdout w ++ l ++ option_prompt :: farewell_lines)%list.
Proof.
  intros Hin.
  destruct (menu_screen_runs w) as (w1 & l & Hscreen & Hstdin & Hout).
  unfold menu_turn. rewrite (bind_eq _ _ _ _ _ Hscreen).
  rewrite (bind_eq _ _ _ _ _
             (input_reads _ "5" w1 rest ltac:(rewrite Hstdin; exact Hin))).
  cbn [String.eqb Ascii.eqb Bool.eqb andb].
  unfold farewell. unfold bind at 1.
  repeat rewrite (bind_eq _ _ _ _ _ (print_after_io _ _ _ _)).
  rewrite print_after_io. unfold ret.
  eexists. exists l. split; [reflexivity|]. cbn [after_io w_stdin w_stdout].
  split; [reflexivity|]. rewrite Hout. unfold option_prompt, farewell_lines.
  rewrite <- !app_assoc. reflexivity.
Qed.

Lemma menu_turn_eof (w : world) :
  w_stdin w = [] ->
  exists w', menu_turn py_sum w = (raise EOFError "EOF when reading a line", w').
Proof.
  intros Hin.
  destruct (menu_screen_runs w) as (w1 & l & Hscreen & Hstdin & Hout).
  unfold menu_turn. rewrite (bind_eq _ _ _ _ _ Hscreen).
  unfold bind at 1, input, bind, emit, read_line. cbn [w_stdin].
  rewrite Hstdin, Hin. eexists. reflexivity.
Qed.

Lemma menu_loop_invalid (bad tail : list string) :
  Forall invalid_option bad ->
  forall w, w_stdin w = (bad ++ tail)%list ->
  exists w' l,
    menu_loop py_sum (bad ++ tail) w = menu_loop py_sum tail w'
    /\ w_stdin w' = tail
    /\ w_stdout w' = (w_stdout w ++ l)%list
    /\ (bad <> [] -> In (Print (nl ++ "❌ Invalid option")) l).
Proof.
  induction 1 as [|b bad Hb _ IH]; intros w Hin.
  - exists w, []. cbn [app]. split; [reflexivity|]. split; [exact Hin|].
    split; [symmetry; apply app_nil_r | intros H; contradiction].
  - cbn [app] in *.
    destruct (menu_turn_invalid w b (bad ++ tail) Hb Hin)
      as (w1 & l1 & Hturn & Hstdin & Hout).
    destruct (IH w1 Hstdin) as (w2 & l2 & Hloop & Hstdin2 & Hout2 & _).
    exists w2, ((l1 ++ option_prompt :: invalid_notice) ++ l2)%list.
    split; [|split; [exact Hstdin2 | split]].
    + cbn [menu_loop]. rewrite (bind_eq _ _ _ _ _ Hturn). exact Hloop.
    + rewrite Hout2, Hout, <- !app_assoc. reflexivity.
    + intros _. apply in_or_app. left. apply in_or_app. right.
      right. left. reflexivity.
Qed.


(** X18: when the input ends without the entry 5, the [EOFError] of
    [input] leaves the menu: nothing catches it. *)
Theorem menu_raises_at_end_of_input (w : world) (bad : list string) :
  Forall invalid_option bad ->
  w_stdin w = bad ->
  fst (show_simple_menu py_sum w) = raise EOFError "EOF when reading a line".
Proof.
  intros Hbad Hin. unfold show_simple_menu. rewrite Hin.
  pose proof (menu_loop_invalid bad [] Hbad w) as H.
  rewrite app_nil_r in H.
  destruct (H Hin) as (w1 & l1 & -> & Hstdin & _).
  destruct (menu_turn_eof w1 Hstdin) as (w2 & Hturn).
  cbn [menu_loop]. unfold bind. rewrite Hturn. reflexivity.
Qed.

(** X19: the menu has no handler around its screens: whatever the 24-hour
    screen raises under option 1 leaves [show_simple_menu]. *)
Theorem menu_lets_screen_errors_out (w w1 w2 : world) (rest : list string)
    (e : exn) :
  menu_screen w = (Ok tt, w1) ->
  w_stdin w1 = "1" :: rest ->
  show_textual_24h_price (after_io w1 [option_prompt] rest) = (Raise e, w2) ->
  show_simple_menu py_sum w = (Raise e, w2).
Proof.
  intros Hscreen Hin Hshow.
  assert (w_stdin w = "1" :: rest) as Hw.
  { pose proof (reads_nothing_menu_screen w) as H. rewrite Hscreen in H.
    unfold same_stdin in H. cbn in H. congruence. }
  unfold show_simple_menu. rewrite Hw. cbn [menu_loop].
  unfold bind at 1, menu_turn.
  rewrite (bind_eq _ _ _ _ _ Hscreen).
  rewrite (bind_eq _ _ _ _ _ (input_reads _ "1" w1 rest Hin)).
  cbn [String.eqb Ascii.eqb Bool.eqb andb].
  unfold bind at 1. unfold option_prompt in Hshow. rewrite Hshow.
  reflexivity.
Qed.

End Menu.


Lemma menu_raises_at_end_of_input_witness :
  fst (show_simple_menu sum_left (scripted [] ["7"]))
  = raise EOFError "EOF when reading a line".
Proof.
  apply (menu_raises_at_end_of_input sum_left (scripted [] ["7"]) ["7"]).
  - repeat constructor; discriminate.
  - reflexivity.
Defined.

Lemma menu_lets_screen_errors_out_witness :
  exists e,
    fst (show_simple_menu sum_left
           (scripted [network_down; network_down;
                      Ok (PDict [("lastPrice", PNone)])] ["1"; "5"]))
    = Raise e
    /\ exn_cls e = TypeError.
Proof.
  set (w := scripted [network_down; network_down;
                      Ok (PDict [("lastPrice", PNone)])] ["1"; "5"]).
  eexists. split.
  - erewrite (menu_lets_screen_errors_out sum_left w
                (snd (menu_screen w))
                (snd (show_textual_24h_price
                        (after_io (snd (menu_screen w)) [option_prompt]
                                  ["5"])))
                ["5"]);
      [reflexivity | vm_compute; reflexivity | vm_compute; reflexivity
       | vm_compute; reflexivity].
  - reflexivity.
Defined.
